(** * LoyaltyConsumer: the payment escrow state machine

    A shallow embedding of the Solidity contract [LoyaltyConsumer]
    (openNewLoyaltyPayment, closeNewLoyaltyPayment, openCancelLoyaltyPayment,
    closeCancelLoyaltyPayment) over an explicit world state.

    - [uint256], [bytes32] and [address] values are binary naturals [N];
      Solidity 0.8 checked arithmetic is written out ([checked_add],
      [checked_mul]): an overflow reverts the call.
    - Storage mappings are [gmap]s read with the Solidity default for a
      missing key.
    - A transaction is a function from a world to an outcome: it returns
      in a new world, or reverts in the world it had reached; [commit]
      rolls a reverted call back to the world it started from.
    - The collaborators whose code is not part of the contract file
      (Ledger, Shop, CurrencyRate, the DMS library, keccak256 and ECDSA)
      are interfaces: the Ledger and the Shop registry are modelled from the
      design document, the others are type classes.

    The file also embeds the wiring of the contract (initialize,
    setLedger, setShop, _authorizeUpgrade; module [Wiring]) and the relay
    that forwards signed requests to the chain: [ContractManager] and the
    handlers of [ProvisionRouter] (module [Relay]). *)

From Stdlib Require Import NArith String List Lia.
From stdpp Require Import base option numbers strings list gmap fin_maps.

Local Open Scope string_scope.
Local Open Scope N_scope.

(** ** Machine types *)

Abbreviation uint256 := N.
Abbreviation bytes32 := N.
Abbreviation address := N.
Abbreviation bytes := (list Byte.byte).

Definition MAX_UINT256 : N := 2 ^ 256 - 1.

(** address(0x0) *)
Definition address0 : address := 0.

(** ** Errors and the transaction monad *)

Inductive error : Type :=
  | Require_failed (code : string)   (* require(cond, code) / revert(code) *)
  | Panic_overflow                   (* checked arithmetic, Panic(0x11) *)
  | ECDSA_invalid_signature          (* ECDSA.recover on a malformed signature *)
  | Ledger_insufficient.             (* a Ledger debit below zero *)

#[global] Instance error_eq_dec : EqDecision error.
Proof. solve_decision. Defined.

(** ** Data model *)

(** Modelled from the spec: the enum LoyaltyPaymentStatus is declared in
    LoyaltyConsumerStorage, which is not part of the contract file; the
    contract names each of its seven members and the design document lists
    them in this order. *)
Inductive LoyaltyPaymentStatus : Type :=
  | INVALID
  | OPENED_PAYMENT
  | CLOSED_PAYMENT
  | FAILED_PAYMENT
  | OPENED_CANCEL
  | CLOSED_CANCEL
  | FAILED_CANCEL.

#[global] Instance LoyaltyPaymentStatus_eq_dec : EqDecision LoyaltyPaymentStatus.
Proof. solve_decision. Defined.

(** struct LoyaltyPaymentData, with the fields _openNewLoyaltyPaymentPoint
    fills in. *)
Record LoyaltyPaymentData : Type := mkLoyaltyPaymentData {
  paymentId : bytes32;
  purchaseId : string;
  currency : string;
  shopId : bytes32;
  account : address;
  secretLock : bytes32;
  timestamp : uint256;
  paidPoint : uint256;
  paidToken : uint256;
  paidValue : uint256;
  feePoint : uint256;
  feeToken : uint256;
  feeValue : uint256;
  usedValueShop : uint256;
  status : LoyaltyPaymentStatus
}.

(** The value a storage mapping yields for a paymentId never written. *)
Definition emptyPayment : LoyaltyPaymentData :=
  mkLoyaltyPaymentData 0 "" "" 0 address0 0 0 0 0 0 0 0 0 0 INVALID.

Record LoyaltyPaymentInputData : Type := mkLoyaltyPaymentInputData {
  in_paymentId : bytes32;
  in_purchaseId : string;
  in_amount : uint256;
  in_currency : string;
  in_shopId : bytes32;
  in_account : address;
  in_signature : bytes;
  in_secretLock : bytes32
}.

(** event LoyaltyPaymentEvent(LoyaltyPaymentData payment, uint256 balance) *)
Record LoyaltyPaymentEvent : Type := mkLoyaltyPaymentEvent {
  ev_payment : LoyaltyPaymentData;
  ev_balance : uint256
}.

(** Modelled from the spec: IShop.ShopStatus and IShop.ShopData are declared
    in the Shop interface, which is not part of the contract file. The
    registry yields status, currency, account and delegate of a shop; the
    contract only ever tests a status against ACTIVE. *)
Inductive ShopStatus : Type :=
  | SHOP_INVALID
  | SHOP_ACTIVE
  | SHOP_INACTIVE.

#[global] Instance ShopStatus_eq_dec : EqDecision ShopStatus.
Proof. solve_decision. Defined.

Record ShopData : Type := mkShopData {
  shop_status : ShopStatus;
  shop_currency : string;
  shop_account : address;
  shop_delegator : address
}.

Definition emptyShop : ShopData := mkShopData SHOP_INVALID "" address0 address0.

(** Modelled from the spec: the Shop contract is not part of the contract
    file. Its used-amount ledger is append-only with explicit reversal; an
    entry is keyed by (purchaseId, paymentId). *)
Record UsageEntry : Type := mkUsageEntry {
  use_shopId : bytes32;
  use_amount : uint256;
  use_purchaseId : string;
  use_paymentId : bytes32;
  use_reversal : bool
}.

Record Shop : Type := mkShop {
  shops : gmap bytes32 ShopData;
  usedLedger : list UsageEntry
}.

(** Modelled from the spec: the Ledger contract is not part of the contract
    file. It keeps per-account point and token balances and a per-account
    replay nonce, and knows the fee rate (basis points) and the
    fee-collection account. *)
Record Ledger : Type := mkLedger {
  pointBalances : gmap address uint256;
  tokenBalances : gmap address uint256;
  nonce : gmap address uint256;
  paymentFee : uint256;
  paymentFeeAccount : address
}.

(** Storage of the contract (loyaltyPayments, temporaryAddress,
    systemAccount) together with the state of the collaborators it calls
    and the log of emitted events. *)
Record World : Type := mkWorld {
  loyaltyPayments : gmap bytes32 LoyaltyPaymentData;
  temporaryAddress : address;
  systemAccount : address;
  ledgerContract : Ledger;
  shopContract : Shop;
  emitted : list LoyaltyPaymentEvent
}.

(** block.timestamp and block.chainid of the enclosing transaction *)
Record Block : Type := mkBlock {
  block_timestamp : uint256;
  block_chainid : uint256
}.

(** The outcome of a transaction: it returns in a world, or it reverts
    with an error in the world it had reached when it failed. *)
Inductive outcome (A : Type) : Type :=
  | Ok (a : A) (w : World)
  | Revert (e : error) (w : World).
Arguments Ok {A} a w.
Arguments Revert {A} e w.

Definition Tx (A : Type) : Type := World -> outcome A.

Definition tx_ret {A} (a : A) : Tx A := fun w => Ok a w.

Definition tx_bind {A B} (m : Tx A) (k : A -> Tx B) : Tx B :=
  fun w => match m w with
           | Ok a w' => k a w'
           | Revert e w' => Revert e w'
           end.

Notation "'let*' x ':=' m 'in' k" := (tx_bind m (fun x => k))
  (at level 10, x name, m at level 100, k at level 200).
Notation "m ';;;' k" := (tx_bind m (fun _ => k))
  (at level 100, k at level 200, right associativity).

Definition revert {A} (e : error) : Tx A := fun w => Revert e w.

(** require(cond, code) *)
Definition require (cond : bool) (code : string) : Tx unit :=
  if cond then tx_ret tt else revert (Require_failed code).

(** A view call: reads the world, writes nothing. *)
Definition view {A} (f : World -> A) : Tx A := fun w => Ok (f w) w.
Definition modify (f : World -> World) : Tx unit := fun w => Ok tt (f w).

(** The world a caller observes after submitting a transaction: a revert
    rolls back every write the call had made, whatever world it had
    reached. *)
Definition commit {A} (m : Tx A) (w : World) : World :=
  match m w with
  | Ok _ w' => w'
  | Revert _ _ => w
  end.

(** Solidity 0.8 checked arithmetic on uint256. *)
Definition checked_add (a b : uint256) : Tx uint256 :=
  if a + b <=? MAX_UINT256 then tx_ret (a + b) else revert Panic_overflow.

Definition checked_mul (a b : uint256) : Tx uint256 :=
  if a * b <=? MAX_UINT256 then tx_ret (a * b) else revert Panic_overflow.

(** ** Collaborator interfaces *)

(** The arguments of abi.encode(...) *)
Inductive abi_value : Type :=
  | abi_bytes32 (b : bytes32)
  | abi_string (s : string)
  | abi_uint256 (n : uint256)
  | abi_address (a : address).

(** keccak256(abi.encode(...)), ECDSA.toEthSignedMessageHash and
    ECDSA.recover; [ECDSA_recover] yields [None] where the library reverts on
    a malformed signature. *)
Class Crypto : Type := {
  keccak256 : list abi_value -> bytes32;
  toEthSignedMessageHash : bytes32 -> bytes32;
  ECDSA_recover : bytes32 -> bytes -> option address
}.

(** Modelled from the spec: the CurrencyRate converter, whose code is not
    part of the contract file, offers deterministic conversions
    toPoint(amount, currency), toToken(point) and
    convert(amount, fromCurrency, toCurrency). *)
Class ICurrencyRate : Type := {
  convertCurrencyToPoint : uint256 -> string -> uint256;
  convertPointToToken : uint256 -> uint256;
  convertCurrency : uint256 -> string -> string -> uint256
}.

(** DMS.zeroGWEI, from the DMS library, which is not part of the contract
    file: taken as a parameter. *)
Class DMS : Type := {
  zeroGWEI : uint256 -> uint256
}.

(** ** World updates *)

Definition set_ledger (l : Ledger) (w : World) : World :=
  mkWorld (loyaltyPayments w) (temporaryAddress w) (systemAccount w)
          l (shopContract w) (emitted w).

Definition set_shop (s : Shop) (w : World) : World :=
  mkWorld (loyaltyPayments w) (temporaryAddress w) (systemAccount w)
          (ledgerContract w) s (emitted w).

Definition set_payment (id : bytes32) (p : LoyaltyPaymentData) (w : World) : World :=
  mkWorld (<[id := p]> (loyaltyPayments w)) (temporaryAddress w) (systemAccount w)
          (ledgerContract w) (shopContract w) (emitted w).

Definition add_event (e : LoyaltyPaymentEvent) (w : World) : World :=
  mkWorld (loyaltyPayments w) (temporaryAddress w) (systemAccount w)
          (ledgerContract w) (shopContract w) (emitted w ++ [e]).

Definition set_pointBalances (m : gmap address uint256) (l : Ledger) : Ledger :=
  mkLedger m (tokenBalances l) (nonce l) (paymentFee l) (paymentFeeAccount l).

Definition set_tokenBalances (m : gmap address uint256) (l : Ledger) : Ledger :=
  mkLedger (pointBalances l) m (nonce l) (paymentFee l) (paymentFeeAccount l).

Definition set_nonce (m : gmap address uint256) (l : Ledger) : Ledger :=
  mkLedger (pointBalances l) (tokenBalances l) m (paymentFee l) (paymentFeeAccount l).

Definition with_secretLock (x : bytes32) (p : LoyaltyPaymentData) : LoyaltyPaymentData :=
  mkLoyaltyPaymentData (paymentId p) (purchaseId p) (currency p) (shopId p) (account p)
    x (timestamp p) (paidPoint p) (paidToken p) (paidValue p)
    (feePoint p) (feeToken p) (feeValue p) (usedValueShop p) (status p).

Definition with_usedValueShop (x : uint256) (p : LoyaltyPaymentData) : LoyaltyPaymentData :=
  mkLoyaltyPaymentData (paymentId p) (purchaseId p) (currency p) (shopId p) (account p)
    (secretLock p) (timestamp p) (paidPoint p) (paidToken p) (paidValue p)
    (feePoint p) (feeToken p) (feeValue p) x (status p).

Definition with_status (x : LoyaltyPaymentStatus) (p : LoyaltyPaymentData) : LoyaltyPaymentData :=
  mkLoyaltyPaymentData (paymentId p) (purchaseId p) (currency p) (shopId p) (account p)
    (secretLock p) (timestamp p) (paidPoint p) (paidToken p) (paidValue p)
    (feePoint p) (feeToken p) (feeValue p) (usedValueShop p) x.

(** ** Ledger (modelled from the design document) *)

(** Modelled from the spec: balanceOf(account, kind) of the Ledger, for
    the point balance; an account never written has balance 0. *)
Definition pointBalanceOf (a : address) (w : World) : uint256 :=
  default 0 (pointBalances (ledgerContract w) !! a).

(** Modelled from the spec: balanceOf(account, kind) of the Ledger, for
    the token balance. *)
Definition tokenBalanceOf (a : address) (w : World) : uint256 :=
  default 0 (tokenBalances (ledgerContract w) !! a).

(** Modelled from the spec: nonceOf(account) of the Ledger. *)
Definition nonceOf (a : address) (w : World) : uint256 :=
  default 0 (nonce (ledgerContract w) !! a).

(** Modelled from the spec: the Ledger's lookup of the fee rate, in basis
    points. *)
Definition getPaymentFee (w : World) : uint256 := paymentFee (ledgerContract w).

(** Modelled from the spec: the Ledger's lookup of the fee-collection
    account. *)
Definition getPaymentFeeAccount (w : World) : address :=
  paymentFeeAccount (ledgerContract w).

(** Modelled from the spec: consumeNonce(account) of the Ledger, which
    increments the account's counter. *)
Definition increaseNonce (a : address) : Tx unit :=
  modify (fun w =>
    set_ledger (set_nonce (<[a := nonceOf a w + 1]> (nonce (ledgerContract w)))
                          (ledgerContract w)) w).

(** Modelled from the spec: credit(account, kind, amount) of the Ledger on
    the point balance. *)
Definition addPointBalance (a : address) (amount : uint256) : Tx unit :=
  modify (fun w =>
    set_ledger (set_pointBalances
                  (<[a := pointBalanceOf a w + amount]> (pointBalances (ledgerContract w)))
                  (ledgerContract w)) w).

(** Modelled from the spec: debit(account, kind, amount) of the Ledger on
    the point balance; it fails the whole call if the balance would go
    negative. *)
Definition subPointBalance (a : address) (amount : uint256) : Tx unit :=
  fun w =>
    if amount <=? pointBalanceOf a w
    then modify (fun w =>
           set_ledger (set_pointBalances
                         (<[a := pointBalanceOf a w - amount]> (pointBalances (ledgerContract w)))
                         (ledgerContract w)) w) w
    else Revert Ledger_insufficient w.

(** Modelled from the spec: credit(account, kind, amount) of the Ledger on
    the token balance. *)
Definition addTokenBalance (a : address) (amount : uint256) : Tx unit :=
  modify (fun w =>
    set_ledger (set_tokenBalances
                  (<[a := tokenBalanceOf a w + amount]> (tokenBalances (ledgerContract w)))
                  (ledgerContract w)) w).

(** Modelled from the spec: debit(account, kind, amount) of the Ledger on
    the token balance; it fails the whole call if the balance would go
    negative. *)
Definition subTokenBalance (a : address) (amount : uint256) : Tx unit :=
  fun w =>
    if amount <=? tokenBalanceOf a w
    then modify (fun w =>
           set_ledger (set_tokenBalances
                         (<[a := tokenBalanceOf a w - amount]> (tokenBalances (ledgerContract w)))
                         (ledgerContract w)) w) w
    else Revert Ledger_insufficient w.

(** Modelled from the spec: transfer(from, to, kind, amount) of the Ledger
    on the token balance, an atomic debit and credit. *)
Definition transferToken (from to : address) (amount : uint256) : Tx unit :=
  subTokenBalance from amount ;;;
  addTokenBalance to amount.

(** ** Shop registry (modelled from the design document) *)

(** Modelled from the spec: shopOf(shopId) of the Shop registry; a shop
    never registered reads as the zero record. *)
Definition shopOf (id : bytes32) (w : World) : ShopData :=
  default emptyShop (shops (shopContract w) !! id).

(** Modelled from the spec: recordUsage(shopId, amount, purchaseId,
    paymentId) appends to the shop's used-amount ledger. *)
Definition addUsedAmount (id : bytes32) (value : uint256) (purchase : string)
    (payment : bytes32) : Tx unit :=
  modify (fun w =>
    set_shop (mkShop (shops (shopContract w))
                     (usedLedger (shopContract w)
                        ++ [mkUsageEntry id value purchase payment false])) w).

(** Modelled from the spec: reverseUsage(shopId, amount, purchaseId,
    paymentId) appends an explicit reversal, it deletes nothing. *)
Definition subUsedAmount (id : bytes32) (value : uint256) (purchase : string)
    (payment : bytes32) : Tx unit :=
  modify (fun w =>
    set_shop (mkShop (shops (shopContract w))
                     (usedLedger (shopContract w)
                        ++ [mkUsageEntry id value purchase payment true])) w).

(** ** The contract *)

Section LoyaltyConsumer.
Context {crypto : Crypto} {currencyRateContract : ICurrencyRate} {dms : DMS}.

(** loyaltyPayments[_paymentId] *)
Definition loyaltyPaymentOf (id : bytes32) (w : World) : LoyaltyPaymentData :=
  default emptyPayment (loyaltyPayments w !! id).

(** ECDSA.recover(ECDSA.toEthSignedMessageHash(dataHash), signature) *)
Definition recover (dataHash : bytes32) (signature : bytes) : Tx address :=
  match ECDSA_recover (toEthSignedMessageHash dataHash) signature with
  | Some signer => tx_ret signer
  | None => revert ECDSA_invalid_signature
  end.

(** The hash the payer signs in openNewLoyaltyPayment:
    keccak256(abi.encode(paymentId, purchaseId, amount, currency, shopId,
    account, block.chainid, nonce)). *)
Definition paymentDataHash (blk : Block) (data : LoyaltyPaymentInputData)
    (n : uint256) : bytes32 :=
  keccak256 [abi_bytes32 (in_paymentId data);
             abi_string (in_purchaseId data);
             abi_uint256 (in_amount data);
             abi_string (in_currency data);
             abi_bytes32 (in_shopId data);
             abi_address (in_account data);
             abi_uint256 (block_chainid blk);
             abi_uint256 n].

(** The hash a shop signer signs in openCancelLoyaltyPayment:
    keccak256(abi.encode(paymentId, purchaseId, signer, block.chainid,
    nonce)). *)
Definition cancelDataHash (blk : Block) (id : bytes32) (purchase : string)
    (signer : address) (n : uint256) : bytes32 :=
  keccak256 [abi_bytes32 id;
             abi_string purchase;
             abi_address signer;
             abi_uint256 (block_chainid blk);
             abi_uint256 n].

(** emit LoyaltyPaymentEvent(loyaltyPayments[_paymentId], balance) *)
Definition emit_LoyaltyPaymentEvent (id : bytes32) (balance : uint256) : Tx unit :=
  modify (fun w => add_event (mkLoyaltyPaymentEvent (loyaltyPaymentOf id w) balance) w).

Definition _openNewLoyaltyPaymentPoint (blk : Block) (data : LoyaltyPaymentInputData)
    : Tx unit :=
  let paidPoint := convertCurrencyToPoint (in_amount data) (in_currency data) in
  let paidToken := convertPointToToken paidPoint in
  let* fee := view getPaymentFee in
  let* product := checked_mul (in_amount data) fee in
  let feeValue := zeroGWEI (product / 10000) in
  let feePoint := convertCurrencyToPoint feeValue (in_currency data) in
  let feeToken := convertPointToToken feePoint in
  let* balance := view (pointBalanceOf (in_account data)) in
  let* needed := checked_add paidPoint feePoint in
  require (needed <=? balance) "1511" ;;;
  (let* debit := checked_add paidPoint feePoint in
   subPointBalance (in_account data) debit) ;;;
  (let* temporary := view temporaryAddress in
   let* credit := checked_add paidPoint feePoint in
   addPointBalance temporary credit) ;;;
  modify (set_payment (in_paymentId data)
    {| paymentId := in_paymentId data;
       purchaseId := in_purchaseId data;
       currency := in_currency data;
       shopId := in_shopId data;
       account := in_account data;
       secretLock := in_secretLock data;
       timestamp := block_timestamp blk;
       paidPoint := paidPoint;
       paidToken := paidToken;
       paidValue := in_amount data;
       feePoint := feePoint;
       feeToken := feeToken;
       feeValue := feeValue;
       usedValueShop := 0;
       status := OPENED_PAYMENT |}) ;;;
  let* after := view (pointBalanceOf (in_account data)) in
  emit_LoyaltyPaymentEvent (in_paymentId data) after.

Definition openNewLoyaltyPayment (blk : Block) (data : LoyaltyPaymentInputData)
    : Tx unit :=
  let* payment := view (loyaltyPaymentOf (in_paymentId data)) in
  require (bool_decide (status payment = INVALID)) "1530" ;;;
  let* n := view (nonceOf (in_account data)) in
  let dataHash := paymentDataHash blk data n in
  let* signer := recover dataHash (in_signature data) in
  require (signer =? in_account data) "1501" ;;;
  increaseNonce (in_account data) ;;;
  _openNewLoyaltyPaymentPoint blk data.

Definition closeNewLoyaltyPayment (_paymentId _secret : bytes32) (_confirm : bool)
    : Tx unit :=
  let* payment := view (loyaltyPaymentOf _paymentId) in
  require (bool_decide (status payment = OPENED_PAYMENT)) "1531" ;;;
  require (secretLock payment =? keccak256 [abi_bytes32 _secret]) "1505" ;;;
  let* totalPoint := checked_add (paidPoint payment) (feePoint payment) in
  (if _confirm then
     (let* temporary := view temporaryAddress in
      subPointBalance temporary totalPoint) ;;;
     (let* system := view systemAccount in
      let* systemBalance := view (tokenBalanceOf system) in
      if feeToken payment <=? systemBalance then
        subTokenBalance system (feeToken payment) ;;;
        let* feeAccount := view getPaymentFeeAccount in
        addTokenBalance feeAccount (feeToken payment)
      else tx_ret tt) ;;;
     (let* shop := view (shopOf (shopId payment)) in
      if bool_decide (shop_status shop = SHOP_ACTIVE) then
        let used := convertCurrency (paidValue payment) (currency payment)
                                    (shop_currency shop) in
        modify (fun w => set_payment _paymentId
                           (with_usedValueShop used (loyaltyPaymentOf _paymentId w)) w) ;;;
        let* stored := view (loyaltyPaymentOf _paymentId) in
        addUsedAmount (shopId stored) (usedValueShop stored) (purchaseId stored) _paymentId
      else tx_ret tt) ;;;
     modify (fun w => set_payment _paymentId
                        (with_status CLOSED_PAYMENT (loyaltyPaymentOf _paymentId w)) w)
   else
     (let* temporary := view temporaryAddress in
      subPointBalance temporary totalPoint) ;;;
     addPointBalance (account payment) totalPoint ;;;
     modify (fun w => set_payment _paymentId
                        (with_status FAILED_PAYMENT (loyaltyPaymentOf _paymentId w)) w)) ;;;
  let* stored := view (loyaltyPaymentOf _paymentId) in
  let* balance := view (pointBalanceOf (account stored)) in
  emit_LoyaltyPaymentEvent _paymentId balance.

(** The status guard of openCancelLoyaltyPayment, as the source writes it:
    (status != CLOSED_PAYMENT) || (status != FAILED_CANCEL). *)
Definition openCancel_status_guard (s : LoyaltyPaymentStatus) : bool :=
  negb (bool_decide (s = CLOSED_PAYMENT)) || negb (bool_decide (s = FAILED_CANCEL)).

Definition openCancelLoyaltyPayment (blk : Block) (_paymentId _secretLock : bytes32)
    (_signature : bytes) : Tx unit :=
  let* payment := view (loyaltyPaymentOf _paymentId) in
  require (openCancel_status_guard (status payment)) "1532" ;;;
  let* deadline := checked_add (timestamp payment) (86400 * 7) in
  require (block_timestamp blk <=? deadline) "1534" ;;;
  let* shopInfo := view (shopOf (shopId payment)) in
  let* n1 := view (nonceOf (shop_account shopInfo)) in
  let dataHash1 :=
    cancelDataHash blk _paymentId (purchaseId payment) (shop_account shopInfo) n1 in
  let* signer1 := recover dataHash1 _signature in
  let pass1 := signer1 =? shop_account shopInfo in
  let* pass2 :=
    if negb (shop_delegator shopInfo =? address0) then
      let* n2 := view (nonceOf (shop_delegator shopInfo)) in
      let dataHash2 :=
        cancelDataHash blk _paymentId (purchaseId payment) (shop_delegator shopInfo) n2 in
      let* signer2 := recover dataHash2 _signature in
      tx_ret (signer2 =? shop_delegator shopInfo)
    else tx_ret false in
  require (pass1 || pass2) "1501" ;;;
  increaseNonce (shop_account shopInfo) ;;;
  let* feeAccount := view getPaymentFeeAccount in
  let* feeBalance := view (tokenBalanceOf feeAccount) in
  if feeToken payment <=? feeBalance then
    (let* temporary := view temporaryAddress in
     transferToken feeAccount temporary (feeToken payment)) ;;;
    (let* temporary := view temporaryAddress in
     let* totalPoint := checked_add (paidPoint payment) (feePoint payment) in
     addPointBalance temporary totalPoint) ;;;
    modify (fun w => set_payment _paymentId
                       (with_secretLock _secretLock (loyaltyPaymentOf _paymentId w)) w) ;;;
    modify (fun w => set_payment _paymentId
                       (with_status OPENED_CANCEL (loyaltyPaymentOf _paymentId w)) w) ;;;
    let* stored := view (loyaltyPaymentOf _paymentId) in
    let* balance := view (pointBalanceOf (account stored)) in
    emit_LoyaltyPaymentEvent _paymentId balance
  else revert (Require_failed "1513").

Definition closeCancelLoyaltyPayment (_paymentId _secret : bytes32) (_confirm : bool)
    : Tx unit :=
  let* payment := view (loyaltyPaymentOf _paymentId) in
  require (bool_decide (status payment = OPENED_CANCEL)) "1533" ;;;
  require (secretLock payment =? keccak256 [abi_bytes32 _secret]) "1505" ;;;
  if _confirm then
    (let* temporary := view temporaryAddress in
     let* system := view systemAccount in
     transferToken temporary system (feeToken payment)) ;;;
    (let* totalPoint := checked_add (paidPoint payment) (feePoint payment) in
     addPointBalance (account payment) totalPoint) ;;;
    let* balance := view (pointBalanceOf (account payment)) in
    subUsedAmount (shopId payment) (usedValueShop payment) (purchaseId payment)
                  _paymentId ;;;
    modify (fun w => set_payment _paymentId
                       (with_status CLOSED_CANCEL (loyaltyPaymentOf _paymentId w)) w) ;;;
    emit_LoyaltyPaymentEvent _paymentId balance
  else
    (let* temporary := view temporaryAddress in
     let* feeAccount := view getPaymentFeeAccount in
     transferToken temporary feeAccount (feeToken payment)) ;;;
    (let* temporary := view temporaryAddress in
     let* totalPoint := checked_add (paidPoint payment) (feePoint payment) in
     subPointBalance temporary totalPoint) ;;;
    let* balance := view (pointBalanceOf (account payment)) in
    modify (fun w => set_payment _paymentId
                       (with_status FAILED_CANCEL (loyaltyPaymentOf _paymentId w)) w) ;;;
    emit_LoyaltyPaymentEvent _paymentId balance.

End LoyaltyConsumer.

(** ** The state machine and the vocabulary of its properties *)

(** The entry points of the state machine as one call type, and the step a
    call takes. *)
Inductive Call : Type :=
  | OpenPayment (blk : Block) (data : LoyaltyPaymentInputData)
  | ClosePayment (id secret : bytes32) (confirm : bool)
  | OpenCancel (blk : Block) (id lock : bytes32) (sig : bytes)
  | CloseCancel (id secret : bytes32) (confirm : bool).

Definition exec {crypto : Crypto} {currencyRateContract : ICurrencyRate} {dms : DMS}
    (c : Call) : Tx unit :=
  match c with
  | OpenPayment blk data => openNewLoyaltyPayment blk data
  | ClosePayment id secret confirm => closeNewLoyaltyPayment id secret confirm
  | OpenCancel blk id lock sig => openCancelLoyaltyPayment blk id lock sig
  | CloseCancel id secret confirm => closeCancelLoyaltyPayment id secret confirm
  end.

(** The total point supply: the sum of every account's point balance. *)
Definition sum_balances (m : gmap address uint256) : N :=
  map_fold (fun _ balance acc => balance + acc) 0 m.

Definition totalPoints (w : World) : N :=
  sum_balances (pointBalances (ledgerContract w)).

(** The escrowed amount of a payment record. *)
Definition escrow (p : LoyaltyPaymentData) : N := paidPoint p + feePoint p.

(** Every stored record's escrowed amount fits a uint256: the record was
    written by openNewLoyaltyPayment after the checked sum succeeded. *)
Definition payments_wf (w : World) : Prop :=
  forall id, escrow (loyaltyPaymentOf id w) <= MAX_UINT256.

(** The two signature checks of openCancelLoyaltyPayment, read off a world:
    [cancel_pass1] is the check against the shop's account and
    [cancel_pass2] the check against its delegator, each over the hash that
    carries that signer's current nonce; [None] where ECDSA.recover
    reverts. *)
Definition cancel_pass1 {crypto : Crypto} (blk : Block) (id : bytes32) (sig : bytes)
    (w : World) : option bool :=
  let p := loyaltyPaymentOf id w in
  let owner := shop_account (shopOf (shopId p) w) in
  match ECDSA_recover
          (toEthSignedMessageHash
             (cancelDataHash blk id (purchaseId p) owner (nonceOf owner w))) sig with
  | Some signer => Some (signer =? owner)
  | None => None
  end.

Definition cancel_pass2 {crypto : Crypto} (blk : Block) (id : bytes32) (sig : bytes)
    (w : World) : option bool :=
  let p := loyaltyPaymentOf id w in
  let delegator := shop_delegator (shopOf (shopId p) w) in
  if delegator =? address0 then Some false
  else match ECDSA_recover
               (toEthSignedMessageHash
                  (cancelDataHash blk id (purchaseId p) delegator (nonceOf delegator w)))
               sig with
       | Some signer => Some (signer =? delegator)
       | None => None
       end.

(** The call passes require(pass1 || pass2, "1501"). *)
Definition cancel_authorized {crypto : Crypto} (blk : Block) (id : bytes32) (sig : bytes)
    (w : World) : Prop :=
  exists pass1 pass2,
    cancel_pass1 blk id sig w = Some pass1 /\
    cancel_pass2 blk id sig w = Some pass2 /\
    pass1 || pass2 = true.

(** block.timestamp <= timestamp + 86400 * 7, the sum being a uint256. *)
Definition within_cancel_window (blk : Block) (p : LoyaltyPaymentData) : Prop :=
  block_timestamp blk <= timestamp p + 86400 * 7 /\
  timestamp p + 86400 * 7 <= MAX_UINT256.

(** isAvailablePaymentId(_paymentId) *)
Definition isAvailablePaymentId (id : bytes32) (w : World) : bool :=
  if bool_decide (status (loyaltyPaymentOf id w) = INVALID) then true else false.

(** The paymentId a call addresses. *)
Definition call_id (c : Call) : bytes32 :=
  match c with
  | OpenPayment _ data => in_paymentId data
  | ClosePayment id _ _ => id
  | OpenCancel _ id _ _ => id
  | CloseCancel id _ _ => id
  end.

(** The worlds a sequence of submitted transactions leads through: each
    call commits or is rolled back. *)
Definition run_calls {crypto : Crypto} {currencyRateContract : ICurrencyRate} {dms : DMS}
    (calls : list Call) (w : World) : World :=
  fold_left (fun w c => commit (exec c) w) calls w.

(** The total token supply: the sum of every account's token balance. *)
Definition totalTokens (w : World) : N :=
  sum_balances (tokenBalances (ledgerContract w)).

(** The fields of a record that are fixed when the payment is opened. *)
Definition same_terms (p q : LoyaltyPaymentData) : Prop :=
  paymentId p = paymentId q /\ purchaseId p = purchaseId q /\
  currency p = currency q /\ shopId p = shopId q /\ account p = account q /\
  timestamp p = timestamp q /\ paidPoint p = paidPoint q /\
  paidToken p = paidToken q /\ paidValue p = paidValue q /\
  feePoint p = feePoint q /\ feeToken p = feeToken q /\ feeValue p = feeValue q.

(** The status changes a committed call makes to the record it addresses. *)
Definition status_step (c : Call) (before after : LoyaltyPaymentStatus) : Prop :=
  match c with
  | OpenPayment _ _ => before = INVALID /\ after = OPENED_PAYMENT
  | ClosePayment _ _ confirm =>
      before = OPENED_PAYMENT /\
      after = (if confirm then CLOSED_PAYMENT else FAILED_PAYMENT)
  | OpenCancel _ _ _ _ => after = OPENED_CANCEL
  | CloseCancel _ _ confirm =>
      before = OPENED_CANCEL /\
      after = (if confirm then CLOSED_CANCEL else FAILED_CANCEL)
  end.

(** ** A concrete deployment

    Executable instances of the collaborator interfaces and a small world,
    used to run the contract on concrete transactions. *)

Definition byte_of_N (n : N) : Byte.byte :=
  default Byte.x00 (Byte.of_N (n mod 256)).

Definition abi_word (v : abi_value) : N :=
  match v with
  | abi_bytes32 b => b
  | abi_string s => N.of_nat (String.length s)
  | abi_uint256 n => n
  | abi_address a => a
  end.

(** A stand-in for keccak256(abi.encode(...)): a polynomial digest. *)
Definition sample_keccak256 (l : list abi_value) : bytes32 :=
  fold_left (fun h v => (h * 1000003 + abi_word v + 1) mod 2 ^ 256) l 7.

Definition sample_toEthSignedMessageHash (h : bytes32) : bytes32 :=
  (h * 31 + 25) mod 2 ^ 256.

(** A stand-in signature scheme: the signature of [h] by [signer] is the
    signer followed by a two-byte tag of [h]. *)
Definition sample_sign (signer : address) (h : bytes32) : bytes :=
  [byte_of_N signer; byte_of_N h; byte_of_N (h / 256)].

(** Recovery yields the signer when the tag matches the hash, some unrelated
    non-zero address when it does not, and fails on a malformed signature or
    on the zero address, as ECDSA.recover does. *)
Definition sample_recover (h : bytes32) (sig : bytes) : option address :=
  match sig with
  | [s; t0; t1] =>
      if Byte.to_N s =? 0 then None
      else if (Byte.to_N t0 + 256 * Byte.to_N t1 =? h mod 65536)
           then Some (Byte.to_N s)
           else Some (Byte.to_N s + 256 + h mod 65536)
  | _ => None
  end.

Definition sample_crypto : Crypto :=
  {| keccak256 := sample_keccak256;
     toEthSignedMessageHash := sample_toEthSignedMessageHash;
     ECDSA_recover := sample_recover |}.

(** Every currency at par with the point and the token. *)
Definition sample_rate : ICurrencyRate :=
  {| convertCurrencyToPoint := fun amount _ => amount;
     convertPointToToken := fun point => point;
     convertCurrency := fun amount _ _ => amount |}.

(** Rounds down to a whole number of gwei. *)
Definition sample_dms : DMS :=
  {| zeroGWEI := fun value => value / 1000000000 * 1000000000 |}.

Definition unit18 : N := 1000000000000000000.

Definition alice : address := 10.
Definition shopOwner : address := 20.
Definition shopDelegate : address := 21.
Definition feeCollector : address := 30.
Definition systemAcc : address := 40.
Definition shop7 : bytes32 := 7.

Definition sample_block : Block := mkBlock 1700000000 24680.

(** alice holds 1000 points; the fee rate is 1%; the system account holds
    50 tokens and the fee-collection account none. *)
Definition sample_ledger : Ledger :=
  {| pointBalances := {[ alice := 1000 * unit18 ]};
     tokenBalances := {[ systemAcc := 50 * unit18 ]};
     nonce := ∅;
     paymentFee := 100;
     paymentFeeAccount := feeCollector |}.

Definition sample_shop : Shop :=
  {| shops := {[ shop7 := mkShopData SHOP_ACTIVE "krw" shopOwner shopDelegate ]};
     usedLedger := [] |}.

Definition sample_world : World :=
  {| loyaltyPayments := ∅;
     temporaryAddress := address0;
     systemAccount := systemAcc;
     ledgerContract := sample_ledger;
     shopContract := sample_shop;
     emitted := [] |}.

Definition sample_secret : bytes32 := 424242.
Definition sample_paymentId : bytes32 := 555.

(** alice's signed request to pay 100 units at shop7. *)
Definition sample_request : LoyaltyPaymentInputData :=
  let unsigned := mkLoyaltyPaymentInputData sample_paymentId "P-1" (100 * unit18)
                    "krw" shop7 alice [] (sample_keccak256 [abi_bytes32 sample_secret]) in
  let dataHash := paymentDataHash (crypto := sample_crypto) sample_block unsigned 0 in
  mkLoyaltyPaymentInputData sample_paymentId "P-1" (100 * unit18) "krw" shop7 alice
    (sample_sign alice (sample_toEthSignedMessageHash dataHash))
    (sample_keccak256 [abi_bytes32 sample_secret]).

Definition sample_opened : World :=
  commit (openNewLoyaltyPayment (crypto := sample_crypto)
         (currencyRateContract := sample_rate) (dms := sample_dms)
         sample_block sample_request) sample_world.

Definition sample_settled : World :=
  commit (closeNewLoyaltyPayment (crypto := sample_crypto)
         (currencyRateContract := sample_rate)
         sample_paymentId sample_secret true) sample_opened.

(** A later block inside the cancellation window, and one past it. *)
Definition cancel_block : Block := mkBlock 1700003600 24680.
Definition late_block : Block := mkBlock 1700604801 24680.

Definition cancel_secret : bytes32 := 777.
Definition cancel_lock : bytes32 := sample_keccak256 [abi_bytes32 cancel_secret].

(** The cancel request for the sample payment signed by [signer], over the
    hash that carries the signer's nonce in [w]. *)
Definition cancel_signature (signer : address) (w : World) : bytes :=
  sample_sign signer
    (sample_toEthSignedMessageHash
       (cancelDataHash (crypto := sample_crypto) cancel_block sample_paymentId "P-1"
                       signer (nonceOf signer w))).

Definition owner_signature : bytes := cancel_signature shopOwner sample_settled.
Definition delegate_signature : bytes := cancel_signature shopDelegate sample_settled.

Definition sample_refunded : World :=
  commit (closeNewLoyaltyPayment (crypto := sample_crypto)
         (currencyRateContract := sample_rate)
         sample_paymentId sample_secret false) sample_opened.

Definition sample_cancelling : World :=
  commit (openCancelLoyaltyPayment (crypto := sample_crypto)
         cancel_block sample_paymentId cancel_lock owner_signature) sample_settled.

Definition sample_cancel_rejected : World :=
  commit (closeCancelLoyaltyPayment (crypto := sample_crypto)
         sample_paymentId cancel_secret false) sample_cancelling.

Definition sample_cancelling_by_delegate : World :=
  commit (openCancelLoyaltyPayment (crypto := sample_crypto)
         cancel_block sample_paymentId cancel_lock delegate_signature) sample_settled.

(** The same deployment with no tokens in the system account. *)
Definition poor_world : World :=
  {| loyaltyPayments := ∅;
     temporaryAddress := address0;
     systemAccount := systemAcc;
     ledgerContract :=
       {| pointBalances := {[ alice := 1000 * unit18 ]};
          tokenBalances := ∅;
          nonce := ∅;
          paymentFee := 100;
          paymentFeeAccount := feeCollector |};
     shopContract := sample_shop;
     emitted := [] |}.

Definition poor_opened : World :=
  commit (openNewLoyaltyPayment (crypto := sample_crypto)
         (currencyRateContract := sample_rate) (dms := sample_dms)
         sample_block sample_request) poor_world.

Definition poor_settled : World :=
  commit (closeNewLoyaltyPayment (crypto := sample_crypto)
         (currencyRateContract := sample_rate)
         sample_paymentId sample_secret true) poor_opened.

Definition sample_cancelled : World :=
  commit (closeCancelLoyaltyPayment (crypto := sample_crypto)
         sample_paymentId cancel_secret true) sample_cancelling.

(** alice's request with the signature of another account, and with a
    signature that is not 65 bytes. *)
Definition forged_request : LoyaltyPaymentInputData :=
  let dataHash := paymentDataHash (crypto := sample_crypto) sample_block sample_request 0 in
  mkLoyaltyPaymentInputData sample_paymentId "P-1" (100 * unit18) "krw" shop7 alice
    (sample_sign shopOwner (sample_toEthSignedMessageHash dataHash))
    (sample_keccak256 [abi_bytes32 sample_secret]).

Definition malformed_request : LoyaltyPaymentInputData :=
  mkLoyaltyPaymentInputData sample_paymentId "P-1" (100 * unit18) "krw" shop7 alice
    [] (sample_keccak256 [abi_bytes32 sample_secret]).

(** alice's signed request to pay 2000 units, more than alice holds. *)
Definition large_request : LoyaltyPaymentInputData :=
  let unsigned := mkLoyaltyPaymentInputData sample_paymentId "P-2" (2000 * unit18)
                    "krw" shop7 alice [] (sample_keccak256 [abi_bytes32 sample_secret]) in
  let dataHash := paymentDataHash (crypto := sample_crypto) sample_block unsigned 0 in
  mkLoyaltyPaymentInputData sample_paymentId "P-2" (2000 * unit18) "krw" shop7 alice
    (sample_sign alice (sample_toEthSignedMessageHash dataHash))
    (sample_keccak256 [abi_bytes32 sample_secret]).

(** alice's second request, signed over nonce 1, reusing the paymentId. *)
Definition repeat_request : LoyaltyPaymentInputData :=
  let unsigned := mkLoyaltyPaymentInputData sample_paymentId "P-3" (5 * unit18)
                    "krw" shop7 alice [] (sample_keccak256 [abi_bytes32 sample_secret]) in
  let dataHash := paymentDataHash (crypto := sample_crypto) sample_block unsigned 1 in
  mkLoyaltyPaymentInputData sample_paymentId "P-3" (5 * unit18) "krw" shop7 alice
    (sample_sign alice (sample_toEthSignedMessageHash dataHash))
    (sample_keccak256 [abi_bytes32 sample_secret]).

(** The calls that settle and then cancel the sample payment. *)
Definition sample_calls : list Call :=
  [ClosePayment sample_paymentId sample_secret true;
   OpenCancel cancel_block sample_paymentId cancel_lock owner_signature;
   CloseCancel sample_paymentId cancel_secret true].

(** The sample deployment with 5 tokens in the fee-collection account, and
    the sample payment opened, refunded and then cancelled there. *)
Definition funded_world : World :=
  {| loyaltyPayments := ∅;
     temporaryAddress := address0;
     systemAccount := systemAcc;
     ledgerContract :=
       {| pointBalances := {[ alice := 1000 * unit18 ]};
          tokenBalances := {[ systemAcc := 50 * unit18; feeCollector := 5 * unit18 ]};
          nonce := ∅;
          paymentFee := 100;
          paymentFeeAccount := feeCollector |};
     shopContract := sample_shop;
     emitted := [] |}.

Definition funded_opened : World :=
  commit (openNewLoyaltyPayment (crypto := sample_crypto)
         (currencyRateContract := sample_rate) (dms := sample_dms)
         sample_block sample_request) funded_world.

Definition funded_refunded : World :=
  commit (closeNewLoyaltyPayment (crypto := sample_crypto)
         (currencyRateContract := sample_rate)
         sample_paymentId sample_secret false) funded_opened.

Definition funded_cancelling : World :=
  commit (openCancelLoyaltyPayment (crypto := sample_crypto)
         cancel_block sample_paymentId cancel_lock owner_signature) funded_refunded.

Definition funded_cancelled : World :=
  commit (closeCancelLoyaltyPayment (crypto := sample_crypto)
         sample_paymentId cancel_secret true) funded_cancelling.

(** * Wiring of the deployed contract

    initialize, setLedger, setShop and _authorizeUpgrade write and guard
    the references the payment functions read. *)

Module Wiring.

(** The storage slots these functions touch. A contract reference
    (ICurrencyRate, ILedger, IShop) is kept as the address it was built
    from. [initialized] is the flag of OpenZeppelin's Initializable and
    [owner] the slot of OwnableUpgradeable, which the contract inherits. *)
Record Storage : Type := mkStorage {
  initialized : bool;
  owner : address;
  currencyRateContract : address;
  ledgerContract : address;
  shopContract : address;
  systemAccount : address;
  temporaryAddress : address;
  isSetLedger : bool;
  isSetShop : bool
}.

(** The storage of a freshly deployed proxy: every slot is zero. *)
Definition deployed : Storage :=
  mkStorage false address0 address0 address0 address0 address0 address0 false false.

Inductive result : Type :=
  | Done (s : Storage)
  | Reverted (e : error).

Definition commit (r : result) (s : Storage) : Storage :=
  match r with
  | Done s' => s'
  | Reverted _ => s
  end.

(** function initialize(address _currencyRateAddress) external initializer.
    The initializer modifier lets the body run once;
    __Ownable_init_unchained makes the caller the owner and
    __UUPSUpgradeable_init writes nothing. *)
Definition initialize (msgSender _currencyRateAddress : address) (s : Storage) : result :=
  if initialized s
  then Reverted (Require_failed "Initializable: contract is already initialized")
  else Done (mkStorage true msgSender _currencyRateAddress
               (ledgerContract s) (shopContract s) (systemAccount s)
               address0 false false).

(** function setLedger(address _contractAddress) public.
    [getSystemAccount a] is what the Ledger deployed at [a] answers to
    getSystemAccount(); the call is taken to answer. *)
Definition setLedger (getSystemAccount : address -> address)
    (msgSender _contractAddress : address) (s : Storage) : result :=
  if bool_decide (msgSender = owner s) then
    if negb (isSetLedger s) then
      Done (mkStorage (initialized s) (owner s) (currencyRateContract s)
              _contractAddress (shopContract s) (getSystemAccount _contractAddress)
              (temporaryAddress s) true (isSetShop s))
    else Done s
  else Reverted (Require_failed "1050").

(** function setShop(address _contractAddress) public *)
Definition setShop (msgSender _contractAddress : address) (s : Storage) : result :=
  if bool_decide (msgSender = owner s) then
    if negb (isSetShop s) then
      Done (mkStorage (initialized s) (owner s) (currencyRateContract s)
              (ledgerContract s) _contractAddress (systemAccount s)
              (temporaryAddress s) (isSetLedger s) true)
    else Done s
  else Reverted (Require_failed "1050").

(** function _authorizeUpgrade(address newImplementation) internal *)
Definition _authorizeUpgrade (msgSender newImplementation : address) (s : Storage) : result :=
  if bool_decide (msgSender = owner s) then Done s
  else Reverted (Require_failed "Unauthorized access").

(** A call to the wiring interface, with its sender. *)
Inductive Call : Type :=
  | Initialize (msgSender _currencyRateAddress : address)
  | SetLedger (msgSender _contractAddress : address)
  | SetShop (msgSender _contractAddress : address)
  | AuthorizeUpgrade (msgSender newImplementation : address).


Definition exec (getSystemAccount : address -> address) (c : Call) (s : Storage) : result :=
  match c with
  | Initialize a r => initialize a r s
  | SetLedger a l => setLedger getSystemAccount a l s
  | SetShop a l => setShop a l s
  | AuthorizeUpgrade a i => _authorizeUpgrade a i s
  end.

(** The storage after a sequence of submitted calls. *)
Definition run (getSystemAccount : address -> address) (calls : list Call) (s : Storage)
    : Storage :=
  fold_left (fun s c => commit (exec getSystemAccount c s) s) calls s.

End Wiring.

(** A sample wiring: account 1 deploys, initializes with the rate contract
    at 90 and sets the ledger at 50, whose system account is 51. *)
Definition sample_getSystemAccount (ledger : address) : address := ledger + 1.

Definition sample_wired : Wiring.Storage :=
  Wiring.run sample_getSystemAccount
    [Wiring.Initialize 1 90; Wiring.SetLedger 1 50] Wiring.deployed.

Definition owner_calls : list Wiring.Call :=
  [Wiring.SetLedger 1 61; Wiring.Initialize 3 92; Wiring.SetShop 1 71;
   Wiring.SetLedger 2 62; Wiring.AuthorizeUpgrade 1 99].


(** * The relay: ContractManager and ProvisionRouter

    The TypeScript side of the repository: the manager of contract
    handles and the HTTP handlers that relay provision requests. A handler
    is a computation over the state of the node that completes normally,
    returns, throws, or ends the process (process.exit). Calls that leave
    the two classes (chain calls through ethers, hardhat, the signer pool,
    the storage, ContractUtils, ResponseMessage) are the fields of
    [Backend]; what a handler did is read off the calls it recorded. *)

Module Relay.

Local Open Scope Z_scope.

(** ** Values *)

(** An ethers provider, identified by the network it is connected to. *)
Definition Provider : Type := string.

(** A contract handle: factory.attach(address).connect(provider). *)
Record Contract : Type := mkContract {
  factory : string;
  contract_address : string;
  connected : Provider
}.

(** A thrown value. *)
Definition Exn : Type := string.

(** The message a signature is checked against (a byte string built by
    ContractUtils). *)
Definition Message : Type := list N.

(** config.contracts.sideChain / config.contracts.mainChain *)
Record ChainConfig : Type := mkChainConfig {
  network : string;
  url : string;
  tokenAddress : string;
  ledgerAddress : string;
  shopAddress : string;
  phoneLinkerAddress : string;
  currencyRateAddress : string;
  loyaltyProviderAddress : string;
  loyaltyConsumerAddress : string;
  loyaltyExchangerAddress : string;
  loyaltyTransferAddress : string;
  loyaltyBridgeAddress : string;
  chainBridgeAddress : string
}.

Record Config : Type := mkConfig {
  sideChain : ChainConfig;
  mainChain : ChainConfig
}.

(** ** ContractManager *)

Record ContractManager : Type := mkContractManager {
  config : Config;
  _sideTokenContract : option Contract;
  _sideLedgerContract : option Contract;
  _sidePhoneLinkerContract : option Contract;
  _sideCurrencyRateContract : option Contract;
  _sideShopContract : option Contract;
  _sideLoyaltyProviderContract : option Contract;
  _sideLoyaltyConsumerContract : option Contract;
  _sideLoyaltyExchangerContract : option Contract;
  _sideLoyaltyTransferContract : option Contract;
  _sideLoyaltyBridgeContract : option Contract;
  _sideChainBridgeContract : option Contract;
  _mainTokenContract : option Contract;
  _mainLoyaltyBridgeContract : option Contract;
  _mainChainBridgeContract : option Contract;
  _sideChainProvider : option Provider;
  _mainChainProvider : option Provider;
  _sideChainId : option Z;
  _mainChainId : option Z;
  _sideChainURL : option string;
  _mainChainURL : option string;
  _sideTokenId : option string;
  _mainTokenId : option string
}.

(** constructor(config): every other field is undefined. *)
Definition constructed (c : Config) : ContractManager :=
  mkContractManager c None None None None None None None None None None None
    None None None None None None None None None None None.

(** ** Requests and responses *)

(** One error of express-validator's validationResult(req).array(). *)
Definition ValidationError : Type := string.

(** An incoming request: the fields the handlers read from req.body or
    req.params, and what validationResult(req) holds once the validation
    chain that registerRoutes attaches to the route has run. *)
Record Request : Type := mkRequest {
  ip : string;
  validation : list ValidationError;
  req_provider : string;
  req_receiver : string;
  req_amount : string;
  req_signature : string
}.

Inductive Data : Type :=
  | RegisterData (provider : string)
  | BalanceData (provider : string) (token point : Z)   (* rendered with toString() *)
  | StatusData (provider : string) (enable : bool)
  | SendData (provider receiver : string) (amount : Z) (txHash : string).

Inductive Body : Type :=
  (* ResponseMessage.getErrorMessage(code) and
     ResponseMessage.getErrorMessage(code, { validation }) *)
  | ErrorMessage (code : string) (details : option (list ValidationError))
  (* makeResponseData(code, data, error) *)
  | ResponseData (code : Z) (data : option Data) (error : option string).

(** res.status(http_status).json(body) *)
Record Response : Type := mkResponse {
  http_status : Z;
  body : Body
}.

(** A transaction submitted through the LoyaltyProvider contract. *)
Record Relayed : Type := mkRelayed {
  relay_method : string;
  relay_contract : Contract;
  relay_signer : nat;
  relay_provider : string;
  relay_receiver : string;
  relay_amount : Z;
  relay_signature : string
}.

(** ** The node *)

Record Node : Type := mkNode {
  manager : ContractManager;
  hre_provider : Provider;               (* hre.ethers.provider *)
  signer_using : gmap nat bool;          (* ISignerItem.using, per signer item *)
  metrics : list (string * Z);           (* metrics.add(key, value) calls *)
  stored : list string;                  (* storage.postNewProvider(provider) calls *)
  relayed : list Relayed;
  responses : list Response;
  logged : list (string * string)        (* logger.<level>(message) calls *)
}.

Definition set_manager (m : ContractManager) (n : Node) : Node :=
  mkNode m (hre_provider n) (signer_using n) (metrics n) (stored n) (relayed n)
         (responses n) (logged n).

Definition set_hre_provider (p : Provider) (n : Node) : Node :=
  mkNode (manager n) p (signer_using n) (metrics n) (stored n) (relayed n)
         (responses n) (logged n).

Definition set_using (u : gmap nat bool) (n : Node) : Node :=
  mkNode (manager n) (hre_provider n) u (metrics n) (stored n) (relayed n)
         (responses n) (logged n).

Definition add_metric (key : string) (value : Z) (n : Node) : Node :=
  mkNode (manager n) (hre_provider n) (signer_using n) (metrics n ++ [(key, value)])
         (stored n) (relayed n) (responses n) (logged n).

Definition add_stored (p : string) (n : Node) : Node :=
  mkNode (manager n) (hre_provider n) (signer_using n) (metrics n) (stored n ++ [p])
         (relayed n) (responses n) (logged n).

Definition add_relayed (r : Relayed) (n : Node) : Node :=
  mkNode (manager n) (hre_provider n) (signer_using n) (metrics n) (stored n)
         (relayed n ++ [r]) (responses n) (logged n).

Definition add_response (r : Response) (n : Node) : Node :=
  mkNode (manager n) (hre_provider n) (signer_using n) (metrics n) (stored n) (relayed n)
         (responses n ++ [r]) (logged n).

Definition add_logged (level message : string) (n : Node) : Node :=
  mkNode (manager n) (hre_provider n) (signer_using n) (metrics n) (stored n) (relayed n)
         (responses n) (logged n ++ [(level, message)]).

(** ** Computations *)

(** How a piece of code completes: it runs to its end with a value, it
    executes a return statement, it throws, or it ends the process. *)
Inductive completion (A : Type) : Type :=
  | Normal (a : A)
  | Returned
  | Thrown (e : Exn)
  | Exited (code : Z).
Arguments Normal {A} a.
Arguments Returned {A}.
Arguments Thrown {A} e.
Arguments Exited {A} code.

Definition M (A : Type) : Type := Node -> completion A * Node.

Definition ret {A} (a : A) : M A := fun n => (Normal a, n).

Definition bind {A B} (m : M A) (k : A -> M B) : M B :=
  fun n => match m n with
           | (Normal a, n') => k a n'
           | (Returned, n') => (Returned, n')
           | (Thrown e, n') => (Thrown e, n')
           | (Exited c, n') => (Exited c, n')
           end.

Declare Scope relay_scope.
Notation "x <~ m ;; k" := (bind m (fun x => k))
  (at level 100, m at next level, k at level 200, right associativity) : relay_scope.
Notation "m ;;; k" := (bind m (fun _ => k))
  (at level 100, k at level 200, right associativity) : relay_scope.
Local Open Scope relay_scope.

Definition get {A} (f : Node -> A) : M A := fun n => (Normal (f n), n).
Definition update (f : Node -> Node) : M unit := fun n => (Normal tt, f n).
Definition throw {A} (e : Exn) : M A := fun n => (Thrown e, n).

(** process.exit(code) *)
Definition process_exit {A} (code : Z) : M A := fun n => (Exited code, n).

(** await of a call that resolves with a value or rejects. *)
Definition await {A} (r : Exn + A) : M A :=
  match r with
  | inl e => throw e
  | inr a => ret a
  end.

(** try { body } catch (error) { handler } finally { finalizer }.
    The finalizer runs however body and handler complete, unless the
    process has ended; it replaces the completion only when it does not
    complete normally itself. *)
Definition try_catch_finally {A} (body : M A) (handler : Exn -> M A) (finalizer : M unit)
    : M A :=
  fun n =>
    let '(c, n1) :=
      match body n with
      | (Thrown e, n') => handler e n'
      | other => other
      end in
    match c with
    | Exited code => (Exited code, n1)
    | _ =>
        match finalizer n1 with
        | (Normal _, n2) => (c, n2)
        | (Returned, n2) => (Returned, n2)
        | (Thrown e, n2) => (Thrown e, n2)
        | (Exited code, n2) => (Exited code, n2)
        end
    end.

(** try { body } catch (error) { handler } *)
Definition try_catch {A} (body : M A) (handler : Exn -> M A) : M A :=
  try_catch_finally body handler (ret tt).

Definition logger (level message : string) : M unit := update (add_logged level message).

(** return res.status(200).json(body) *)
Definition return_json {A} (b : Body) : M A :=
  fun n => (Returned, add_response (mkResponse 200 b) n).

(** ** ContractManager: the getters *)

(** get x(): T { if (this._x !== undefined) return this._x;
                 else { logger.error(message); process.exit(1); } } *)
Definition getter {A} (field : ContractManager -> option A) (message : string) : M A :=
  f <~ get (fun n => field (manager n)) ;;
  match f with
  | Some v => ret v
  | None => logger "error" message ;;; process_exit 1
  end.

Definition mainChainProvider : M Provider :=
  getter _mainChainProvider "mainChainProvider is not ready yet.".
Definition mainChainId : M Z :=
  getter _mainChainId "mainChainId is not ready yet.".
Definition mainChainURL : M string :=
  getter _mainChainURL "mainChainURL is not ready yet.".
Definition mainTokenId : M string :=
  getter _mainTokenId "mainTokenId is not ready yet.".
Definition sideTokenId : M string :=
  getter _sideTokenId "sideTokenId is not ready yet.".
Definition sideChainProvider : M Provider :=
  getter _sideChainProvider "sideChainProvider is not ready yet.".
Definition sideChainId : M Z :=
  getter _sideChainId "sideChainId is not ready yet.".
Definition sideChainURL : M string :=
  getter _sideChainURL "sideChainURL is not ready yet.".
Definition sideTokenContract : M Contract :=
  getter _sideTokenContract "sideTokenContract is not ready yet.".
Definition sideLedgerContract : M Contract :=
  getter _sideLedgerContract "sideLedgerContract is not ready yet.".
Definition sidePhoneLinkerContract : M Contract :=
  getter _sidePhoneLinkerContract "sidePhoneLinkerContract is not ready yet.".
Definition sideCurrencyRateContract : M Contract :=
  getter _sideCurrencyRateContract "sidePhoneLinkerContract is not ready yet.".
Definition sideShopContract : M Contract :=
  getter _sideShopContract "sideShopContract is not ready yet.".
Definition sideLoyaltyProviderContract : M Contract :=
  getter _sideLoyaltyProviderContract "sideLoyaltyProviderContract is not ready yet.".
Definition sideLoyaltyConsumerContract : M Contract :=
  getter _sideLoyaltyConsumerContract "sideLoyaltyConsumerContract is not ready yet.".
Definition sideLoyaltyExchangerContract : M Contract :=
  getter _sideLoyaltyExchangerContract "sideLoyaltyConsumerContract is not ready yet.".
Definition sideLoyaltyTransferContract : M Contract :=
  getter _sideLoyaltyTransferContract "sideLoyaltyTransferContract is not ready yet.".
Definition sideLoyaltyBridgeContract : M Contract :=
  getter _sideLoyaltyBridgeContract "sideLoyaltyBridgeContract is not ready yet.".
Definition sideChainBridgeContract : M Contract :=
  getter _sideChainBridgeContract "sideChainBridgeContract is not ready yet.".
Definition mainTokenContract : M Contract :=
  getter _mainTokenContract "mainTokenContract is not ready yet.".
Definition mainLoyaltyBridgeContract : M Contract :=
  getter _mainLoyaltyBridgeContract "mainLoyaltyBridgeContract is not ready yet.".
Definition mainChainBridgeContract : M Contract :=
  getter _mainChainBridgeContract "mainChainBridgeContract is not ready yet.".

(** Runs a getter and drops its value. *)
Definition touch {A} (m : M A) : M unit := m ;;; ret tt.

(** The twenty-two getters by name, in the order of the class. *)
Definition getters : list (string * M unit) :=
  [("mainChainProvider", touch mainChainProvider);
   ("mainChainId", touch mainChainId);
   ("mainChainURL", touch mainChainURL);
   ("mainTokenId", touch mainTokenId);
   ("sideTokenId", touch sideTokenId);
   ("sideChainProvider", touch sideChainProvider);
   ("sideChainId", touch sideChainId);
   ("sideChainURL", touch sideChainURL);
   ("sideTokenContract", touch sideTokenContract);
   ("sideLedgerContract", touch sideLedgerContract);
   ("sidePhoneLinkerContract", touch sidePhoneLinkerContract);
   ("sideCurrencyRateContract", touch sideCurrencyRateContract);
   ("sideShopContract", touch sideShopContract);
   ("sideLoyaltyProviderContract", touch sideLoyaltyProviderContract);
   ("sideLoyaltyConsumerContract", touch sideLoyaltyConsumerContract);
   ("sideLoyaltyExchangerContract", touch sideLoyaltyExchangerContract);
   ("sideLoyaltyTransferContract", touch sideLoyaltyTransferContract);
   ("sideLoyaltyBridgeContract", touch sideLoyaltyBridgeContract);
   ("sideChainBridgeContract", touch sideChainBridgeContract);
   ("mainTokenContract", touch mainTokenContract);
   ("mainLoyaltyBridgeContract", touch mainLoyaltyBridgeContract);
   ("mainChainBridgeContract", touch mainChainBridgeContract)].

(** ** The calls that leave the two classes *)

Class Backend : Type := {
  (* hardhat *)
  changeNetwork : string -> Exn + Provider;       (* hre.changeNetwork: the provider it installs *)
  getNetwork_chainId : Provider -> Exn + Z;       (* (await provider.getNetwork()).chainId *)
  hardhat_url : string -> option string;          (* hre.config.networks[network].url *)
  getContractFactory : string -> Exn + string;    (* hre.ethers.getContractFactory(name) *)
  token_name : Contract -> Exn + string;
  token_symbol : Contract -> Exn + string;
  (* ContractUtils *)
  getTokenId : string -> string -> string;
  getRegisterProviderMessage : string -> Z -> Z -> Message;
  getProvidePointToAddressMessage : string -> string -> Z -> Z -> Z -> Message;
  getProvidePointToPhoneMessage : string -> string -> Z -> Z -> Z -> Message;
  verifyMessage : string -> Message -> string -> bool;
  (* the signer pool: the item handed out and the flags of the pool afterwards *)
  getSigner : Provider -> gmap nat bool -> Exn + (nat * gmap nat bool);
  (* Ledger, CurrencyRate and LoyaltyProvider through ethers *)
  nonceOf : Contract -> string -> Exn + Z;
  tokenBalanceOf : Contract -> string -> Exn + Z;
  provisionAgentOf : Contract -> string -> Exn + string;
  isProvider : Contract -> string -> Exn + bool;
  convertTokenToPoint : Contract -> Z -> Exn + Z;
  provideToAddress : Contract -> nat -> string -> string -> Z -> string -> Exn + string;
  provideToPhone : Contract -> nat -> string -> string -> Z -> string -> Exn + string;
  (* RelayStorage *)
  postNewProvider : string -> Exn + unit;
  (* BOACoin.make(config.relay.initialBalanceOfProvider).value *)
  minimumBalance : Z;
  (* BigNumber.from, String.prototype.trim, JSON.stringify *)
  BigNumber_from : string -> Exn + Z;
  trim : string -> string;
  JSON_stringify : Request -> string;
  Z_toString : Z -> string;
  (* ResponseMessage.getEVMErrorMessage(error): msg.code and msg.error.message *)
  getEVMErrorMessage : Exn -> Z * string
}.

(** ethers' AddressZero *)
Definition AddressZero : string := "0x0000000000000000000000000000000000000000".

Section WithBackend.
Context {backend : Backend}.

(** ** ContractManager.attach *)

Definition assign (f : ContractManager -> ContractManager) : M unit :=
  update (fun n => set_manager (f (manager n)) n).

(** await hre.changeNetwork(name): hre.ethers.provider becomes the provider
    of the named network. *)
Definition changeNetwork_to (name : string) : M unit :=
  p <~ await (changeNetwork name) ;;
  update (set_hre_provider p).

(** The URL of a chain: the configured one, or, when that is empty, the
    one of the hardhat network if it has one. *)
Definition chain_url (c : ChainConfig) : string :=
  if String.eqb (url c) EmptyString then
    match hardhat_url (network c) with
    | Some u => u
    | None => EmptyString
    end
  else url c.

(** this._x = v, one definition per field. *)
Definition set_sideTokenContract v (m : ContractManager) : ContractManager :=
  mkContractManager (config m)
    (Some v) (_sideLedgerContract m) (_sidePhoneLinkerContract m)
    (_sideCurrencyRateContract m) (_sideShopContract m)
    (_sideLoyaltyProviderContract m) (_sideLoyaltyConsumerContract m)
    (_sideLoyaltyExchangerContract m) (_sideLoyaltyTransferContract m)
    (_sideLoyaltyBridgeContract m) (_sideChainBridgeContract m) (_mainTokenContract m)
    (_mainLoyaltyBridgeContract m) (_mainChainBridgeContract m) (_sideChainProvider m)
    (_mainChainProvider m) (_sideChainId m) (_mainChainId m) (_sideChainURL m)
    (_mainChainURL m) (_sideTokenId m) (_mainTokenId m).

Definition set_sideLedgerContract v (m : ContractManager) : ContractManager :=
  mkContractManager (config m)
    (_sideTokenContract m) (Some v) (_sidePhoneLinkerContract m)
    (_sideCurrencyRateContract m) (_sideShopContract m)
    (_sideLoyaltyProviderContract m) (_sideLoyaltyConsumerContract m)
    (_sideLoyaltyExchangerContract m) (_sideLoyaltyTransferContract m)
    (_sideLoyaltyBridgeContract m) (_sideChainBridgeContract m) (_mainTokenContract m)
    (_mainLoyaltyBridgeContract m) (_mainChainBridgeContract m) (_sideChainProvider m)
    (_mainChainProvider m) (_sideChainId m) (_mainChainId m) (_sideChainURL m)
    (_mainChainURL m) (_sideTokenId m) (_mainTokenId m).

Definition set_sidePhoneLinkerContract v (m : ContractManager) : ContractManager :=
  mkContractManager (config m)
    (_sideTokenContract m) (_sideLedgerContract m) (Some v)
    (_sideCurrencyRateContract m) (_sideShopContract m)
    (_sideLoyaltyProviderContract m) (_sideLoyaltyConsumerContract m)
    (_sideLoyaltyExchangerContract m) (_sideLoyaltyTransferContract m)
    (_sideLoyaltyBridgeContract m) (_sideChainBridgeContract m) (_mainTokenContract m)
    (_mainLoyaltyBridgeContract m) (_mainChainBridgeContract m) (_sideChainProvider m)
    (_mainChainProvider m) (_sideChainId m) (_mainChainId m) (_sideChainURL m)
    (_mainChainURL m) (_sideTokenId m) (_mainTokenId m).

Definition set_sideCurrencyRateContract v (m : ContractManager) : ContractManager :=
  mkContractManager (config m)
    (_sideTokenContract m) (_sideLedgerContract m) (_sidePhoneLinkerContract m)
    (Some v) (_sideShopContract m) (_sideLoyaltyProviderContract m)
    (_sideLoyaltyConsumerContract m) (_sideLoyaltyExchangerContract m)
    (_sideLoyaltyTransferContract m) (_sideLoyaltyBridgeContract m)
    (_sideChainBridgeContract m) (_mainTokenContract m) (_mainLoyaltyBridgeContract m)
    (_mainChainBridgeContract m) (_sideChainProvider m) (_mainChainProvider m)
    (_sideChainId m) (_mainChainId m) (_sideChainURL m) (_mainChainURL m)
    (_sideTokenId m) (_mainTokenId m).

Definition set_sideShopContract v (m : ContractManager) : ContractManager :=
  mkContractManager (config m)
    (_sideTokenContract m) (_sideLedgerContract m) (_sidePhoneLinkerContract m)
    (_sideCurrencyRateContract m) (Some v) (_sideLoyaltyProviderContract m)
    (_sideLoyaltyConsumerContract m) (_sideLoyaltyExchangerContract m)
    (_sideLoyaltyTransferContract m) (_sideLoyaltyBridgeContract m)
    (_sideChainBridgeContract m) (_mainTokenContract m) (_mainLoyaltyBridgeContract m)
    (_mainChainBridgeContract m) (_sideChainProvider m) (_mainChainProvider m)
    (_sideChainId m) (_mainChainId m) (_sideChainURL m) (_mainChainURL m)
    (_sideTokenId m) (_mainTokenId m).

Definition set_sideLoyaltyProviderContract v (m : ContractManager) : ContractManager :=
  mkContractManager (config m)
    (_sideTokenContract m) (_sideLedgerContract m) (_sidePhoneLinkerContract m)
    (_sideCurrencyRateContract m) (_sideShopContract m) (Some v)
    (_sideLoyaltyConsumerContract m) (_sideLoyaltyExchangerContract m)
    (_sideLoyaltyTransferContract m) (_sideLoyaltyBridgeContract m)
    (_sideChainBridgeContract m) (_mainTokenContract m) (_mainLoyaltyBridgeContract m)
    (_mainChainBridgeContract m) (_sideChainProvider m) (_mainChainProvider m)
    (_sideChainId m) (_mainChainId m) (_sideChainURL m) (_mainChainURL m)
    (_sideTokenId m) (_mainTokenId m).

Definition set_sideLoyaltyConsumerContract v (m : ContractManager) : ContractManager :=
  mkContractManager (config m)
    (_sideTokenContract m) (_sideLedgerContract m) (_sidePhoneLinkerContract m)
    (_sideCurrencyRateContract m) (_sideShopContract m)
    (_sideLoyaltyProviderContract m) (Some v) (_sideLoyaltyExchangerContract m)
    (_sideLoyaltyTransferContract m) (_sideLoyaltyBridgeContract m)
    (_sideChainBridgeContract m) (_mainTokenContract m) (_mainLoyaltyBridgeContract m)
    (_mainChainBridgeContract m) (_sideChainProvider m) (_mainChainProvider m)
    (_sideChainId m) (_mainChainId m) (_sideChainURL m) (_mainChainURL m)
    (_sideTokenId m) (_mainTokenId m).

Definition set_sideLoyaltyExchangerContract v (m : ContractManager) : ContractManager :=
  mkContractManager (config m)
    (_sideTokenContract m) (_sideLedgerContract m) (_sidePhoneLinkerContract m)
    (_sideCurrencyRateContract m) (_sideShopContract m)
    (_sideLoyaltyProviderContract m) (_sideLoyaltyConsumerContract m) (Some v)
    (_sideLoyaltyTransferContract m) (_sideLoyaltyBridgeContract m)
    (_sideChainBridgeContract m) (_mainTokenContract m) (_mainLoyaltyBridgeContract m)
    (_mainChainBridgeContract m) (_sideChainProvider m) (_mainChainProvider m)
    (_sideChainId m) (_mainChainId m) (_sideChainURL m) (_mainChainURL m)
    (_sideTokenId m) (_mainTokenId m).

Definition set_sideLoyaltyTransferContract v (m : ContractManager) : ContractManager :=
  mkContractManager (config m)
    (_sideTokenContract m) (_sideLedgerContract m) (_sidePhoneLinkerContract m)
    (_sideCurrencyRateContract m) (_sideShopContract m)
    (_sideLoyaltyProviderContract m) (_sideLoyaltyConsumerContract m)
    (_sideLoyaltyExchangerContract m) (Some v) (_sideLoyaltyBridgeContract m)
    (_sideChainBridgeContract m) (_mainTokenContract m) (_mainLoyaltyBridgeContract m)
    (_mainChainBridgeContract m) (_sideChainProvider m) (_mainChainProvider m)
    (_sideChainId m) (_mainChainId m) (_sideChainURL m) (_mainChainURL m)
    (_sideTokenId m) (_mainTokenId m).

Definition set_sideLoyaltyBridgeContract v (m : ContractManager) : ContractManager :=
  mkContractManager (config m)
    (_sideTokenContract m) (_sideLedgerContract m) (_sidePhoneLinkerContract m)
    (_sideCurrencyRateContract m) (_sideShopContract m)
    (_sideLoyaltyProviderContract m) (_sideLoyaltyConsumerContract m)
    (_sideLoyaltyExchangerContract m) (_sideLoyaltyTransferContract m) (Some v)
    (_sideChainBridgeContract m) (_mainTokenContract m) (_mainLoyaltyBridgeContract m)
    (_mainChainBridgeContract m) (_sideChainProvider m) (_mainChainProvider m)
    (_sideChainId m) (_mainChainId m) (_sideChainURL m) (_mainChainURL m)
    (_sideTokenId m) (_mainTokenId m).

Definition set_sideChainBridgeContract v (m : ContractManager) : ContractManager :=
  mkContractManager (config m)
    (_sideTokenContract m) (_sideLedgerContract m) (_sidePhoneLinkerContract m)
    (_sideCurrencyRateContract m) (_sideShopContract m)
    (_sideLoyaltyProviderContract m) (_sideLoyaltyConsumerContract m)
    (_sideLoyaltyExchangerContract m) (_sideLoyaltyTransferContract m)
    (_sideLoyaltyBridgeContract m) (Some v) (_mainTokenContract m)
    (_mainLoyaltyBridgeContract m) (_mainChainBridgeContract m) (_sideChainProvider m)
    (_mainChainProvider m) (_sideChainId m) (_mainChainId m) (_sideChainURL m)
    (_mainChainURL m) (_sideTokenId m) (_mainTokenId m).

Definition set_mainTokenContract v (m : ContractManager) : ContractManager :=
  mkContractManager (config m)
    (_sideTokenContract m) (_sideLedgerContract m) (_sidePhoneLinkerContract m)
    (_sideCurrencyRateContract m) (_sideShopContract m)
    (_sideLoyaltyProviderContract m) (_sideLoyaltyConsumerContract m)
    (_sideLoyaltyExchangerContract m) (_sideLoyaltyTransferContract m)
    (_sideLoyaltyBridgeContract m) (_sideChainBridgeContract m) (Some v)
    (_mainLoyaltyBridgeContract m) (_mainChainBridgeContract m) (_sideChainProvider m)
    (_mainChainProvider m) (_sideChainId m) (_mainChainId m) (_sideChainURL m)
    (_mainChainURL m) (_sideTokenId m) (_mainTokenId m).

Definition set_mainLoyaltyBridgeContract v (m : ContractManager) : ContractManager :=
  mkContractManager (config m)
    (_sideTokenContract m) (_sideLedgerContract m) (_sidePhoneLinkerContract m)
    (_sideCurrencyRateContract m) (_sideShopContract m)
    (_sideLoyaltyProviderContract m) (_sideLoyaltyConsumerContract m)
    (_sideLoyaltyExchangerContract m) (_sideLoyaltyTransferContract m)
    (_sideLoyaltyBridgeContract m) (_sideChainBridgeContract m) (_mainTokenContract m)
    (Some v) (_mainChainBridgeContract m) (_sideChainProvider m) (_mainChainProvider m)
    (_sideChainId m) (_mainChainId m) (_sideChainURL m) (_mainChainURL m)
    (_sideTokenId m) (_mainTokenId m).

Definition set_mainChainBridgeContract v (m : ContractManager) : ContractManager :=
  mkContractManager (config m)
    (_sideTokenContract m) (_sideLedgerContract m) (_sidePhoneLinkerContract m)
    (_sideCurrencyRateContract m) (_sideShopContract m)
    (_sideLoyaltyProviderContract m) (_sideLoyaltyConsumerContract m)
    (_sideLoyaltyExchangerContract m) (_sideLoyaltyTransferContract m)
    (_sideLoyaltyBridgeContract m) (_sideChainBridgeContract m) (_mainTokenContract m)
    (_mainLoyaltyBridgeContract m) (Some v) (_sideChainProvider m)
    (_mainChainProvider m) (_sideChainId m) (_mainChainId m) (_sideChainURL m)
    (_mainChainURL m) (_sideTokenId m) (_mainTokenId m).

Definition set_sideChainProvider v (m : ContractManager) : ContractManager :=
  mkContractManager (config m)
    (_sideTokenContract m) (_sideLedgerContract m) (_sidePhoneLinkerContract m)
    (_sideCurrencyRateContract m) (_sideShopContract m)
    (_sideLoyaltyProviderContract m) (_sideLoyaltyConsumerContract m)
    (_sideLoyaltyExchangerContract m) (_sideLoyaltyTransferContract m)
    (_sideLoyaltyBridgeContract m) (_sideChainBridgeContract m) (_mainTokenContract m)
    (_mainLoyaltyBridgeContract m) (_mainChainBridgeContract m) (Some v)
    (_mainChainProvider m) (_sideChainId m) (_mainChainId m) (_sideChainURL m)
    (_mainChainURL m) (_sideTokenId m) (_mainTokenId m).

Definition set_mainChainProvider v (m : ContractManager) : ContractManager :=
  mkContractManager (config m)
    (_sideTokenContract m) (_sideLedgerContract m) (_sidePhoneLinkerContract m)
    (_sideCurrencyRateContract m) (_sideShopContract m)
    (_sideLoyaltyProviderContract m) (_sideLoyaltyConsumerContract m)
    (_sideLoyaltyExchangerContract m) (_sideLoyaltyTransferContract m)
    (_sideLoyaltyBridgeContract m) (_sideChainBridgeContract m) (_mainTokenContract m)
    (_mainLoyaltyBridgeContract m) (_mainChainBridgeContract m) (_sideChainProvider m)
    (Some v) (_sideChainId m) (_mainChainId m) (_sideChainURL m) (_mainChainURL m)
    (_sideTokenId m) (_mainTokenId m).

Definition set_sideChainId v (m : ContractManager) : ContractManager :=
  mkContractManager (config m)
    (_sideTokenContract m) (_sideLedgerContract m) (_sidePhoneLinkerContract m)
    (_sideCurrencyRateContract m) (_sideShopContract m)
    (_sideLoyaltyProviderContract m) (_sideLoyaltyConsumerContract m)
    (_sideLoyaltyExchangerContract m) (_sideLoyaltyTransferContract m)
    (_sideLoyaltyBridgeContract m) (_sideChainBridgeContract m) (_mainTokenContract m)
    (_mainLoyaltyBridgeContract m) (_mainChainBridgeContract m) (_sideChainProvider m)
    (_mainChainProvider m) (Some v) (_mainChainId m) (_sideChainURL m)
    (_mainChainURL m) (_sideTokenId m) (_mainTokenId m).

Definition set_mainChainId v (m : ContractManager) : ContractManager :=
  mkContractManager (config m)
    (_sideTokenContract m) (_sideLedgerContract m) (_sidePhoneLinkerContract m)
    (_sideCurrencyRateContract m) (_sideShopContract m)
    (_sideLoyaltyProviderContract m) (_sideLoyaltyConsumerContract m)
    (_sideLoyaltyExchangerContract m) (_sideLoyaltyTransferContract m)
    (_sideLoyaltyBridgeContract m) (_sideChainBridgeContract m) (_mainTokenContract m)
    (_mainLoyaltyBridgeContract m) (_mainChainBridgeContract m) (_sideChainProvider m)
    (_mainChainProvider m) (_sideChainId m) (Some v) (_sideChainURL m)
    (_mainChainURL m) (_sideTokenId m) (_mainTokenId m).

Definition set_sideChainURL v (m : ContractManager) : ContractManager :=
  mkContractManager (config m)
    (_sideTokenContract m) (_sideLedgerContract m) (_sidePhoneLinkerContract m)
    (_sideCurrencyRateContract m) (_sideShopContract m)
    (_sideLoyaltyProviderContract m) (_sideLoyaltyConsumerContract m)
    (_sideLoyaltyExchangerContract m) (_sideLoyaltyTransferContract m)
    (_sideLoyaltyBridgeContract m) (_sideChainBridgeContract m) (_mainTokenContract m)
    (_mainLoyaltyBridgeContract m) (_mainChainBridgeContract m) (_sideChainProvider m)
    (_mainChainProvider m) (_sideChainId m) (_mainChainId m) (Some v) (_mainChainURL m)
    (_sideTokenId m) (_mainTokenId m).

Definition set_mainChainURL v (m : ContractManager) : ContractManager :=
  mkContractManager (config m)
    (_sideTokenContract m) (_sideLedgerContract m) (_sidePhoneLinkerContract m)
    (_sideCurrencyRateContract m) (_sideShopContract m)
    (_sideLoyaltyProviderContract m) (_sideLoyaltyConsumerContract m)
    (_sideLoyaltyExchangerContract m) (_sideLoyaltyTransferContract m)
    (_sideLoyaltyBridgeContract m) (_sideChainBridgeContract m) (_mainTokenContract m)
    (_mainLoyaltyBridgeContract m) (_mainChainBridgeContract m) (_sideChainProvider m)
    (_mainChainProvider m) (_sideChainId m) (_mainChainId m) (_sideChainURL m) (Some v)
    (_sideTokenId m) (_mainTokenId m).

Definition set_sideTokenId v (m : ContractManager) : ContractManager :=
  mkContractManager (config m)
    (_sideTokenContract m) (_sideLedgerContract m) (_sidePhoneLinkerContract m)
    (_sideCurrencyRateContract m) (_sideShopContract m)
    (_sideLoyaltyProviderContract m) (_sideLoyaltyConsumerContract m)
    (_sideLoyaltyExchangerContract m) (_sideLoyaltyTransferContract m)
    (_sideLoyaltyBridgeContract m) (_sideChainBridgeContract m) (_mainTokenContract m)
    (_mainLoyaltyBridgeContract m) (_mainChainBridgeContract m) (_sideChainProvider m)
    (_mainChainProvider m) (_sideChainId m) (_mainChainId m) (_sideChainURL m)
    (_mainChainURL m) (Some v) (_mainTokenId m).

Definition set_mainTokenId v (m : ContractManager) : ContractManager :=
  mkContractManager (config m)
    (_sideTokenContract m) (_sideLedgerContract m) (_sidePhoneLinkerContract m)
    (_sideCurrencyRateContract m) (_sideShopContract m)
    (_sideLoyaltyProviderContract m) (_sideLoyaltyConsumerContract m)
    (_sideLoyaltyExchangerContract m) (_sideLoyaltyTransferContract m)
    (_sideLoyaltyBridgeContract m) (_sideChainBridgeContract m) (_mainTokenContract m)
    (_mainLoyaltyBridgeContract m) (_mainChainBridgeContract m) (_sideChainProvider m)
    (_mainChainProvider m) (_sideChainId m) (_mainChainId m) (_sideChainURL m)
    (_mainChainURL m) (_sideTokenId m) (Some v).

(** public async attach() *)
Definition attach : M unit :=
  cfg <~ get (fun n => config (manager n)) ;;
  let side := sideChain cfg in
  let main := mainChain cfg in
  logger "info" ("SideChain.Network: " ++ network side) ;;;
  changeNetwork_to (network side) ;;;
  sideProvider <~ get hre_provider ;;
  assign (set_sideChainProvider sideProvider) ;;;
  sideId <~ await (getNetwork_chainId sideProvider) ;;
  assign (set_sideChainId sideId) ;;;
  logger "info" ("SideChain.ChainId: " ++ Z_toString sideId) ;;;
  let sideURL := chain_url side in
  assign (set_sideChainURL sideURL) ;;;
  logger "info" ("SideChain.URL: " ++ sideURL) ;;;
  factory1 <~ await (getContractFactory "LoyaltyToken") ;;
  let sideToken := mkContract factory1 (tokenAddress side) sideProvider in
  assign (set_sideTokenContract sideToken) ;;;
  logger "info" ("SideChain.Token: " ++ contract_address sideToken) ;;;
  name1 <~ await (token_name sideToken) ;;
  logger "info" ("SideChain.Token.Name: " ++ name1) ;;;
  symbol1 <~ await (token_symbol sideToken) ;;
  logger "info" ("SideChain.Token.Symbol: " ++ symbol1) ;;;
  name1' <~ await (token_name sideToken) ;;
  symbol1' <~ await (token_symbol sideToken) ;;
  let sideTokenId := getTokenId name1' symbol1' in
  assign (set_sideTokenId sideTokenId) ;;;
  logger "info" ("SideChain.TokenId: " ++ sideTokenId) ;;;
  factory2 <~ await (getContractFactory "Ledger") ;;
  let sideLedger := mkContract factory2 (ledgerAddress side) sideProvider in
  assign (set_sideLedgerContract sideLedger) ;;;
  logger "info" ("SideChain.Ledger: " ++ contract_address sideLedger) ;;;
  factory3 <~ await (getContractFactory "Shop") ;;
  let sideShop := mkContract factory3 (shopAddress side) sideProvider in
  assign (set_sideShopContract sideShop) ;;;
  logger "info" ("SideChain.Shop: " ++ contract_address sideShop) ;;;
  factory4 <~ await (getContractFactory "PhoneLinkCollection") ;;
  let sidePhoneLinker := mkContract factory4 (phoneLinkerAddress side) sideProvider in
  assign (set_sidePhoneLinkerContract sidePhoneLinker) ;;;
  logger "info" ("SideChain.PhoneLinkCollection: " ++ contract_address sidePhoneLinker) ;;;
  factory5 <~ await (getContractFactory "CurrencyRate") ;;
  let sideCurrencyRate := mkContract factory5 (currencyRateAddress side) sideProvider in
  assign (set_sideCurrencyRateContract sideCurrencyRate) ;;;
  logger "info" ("SideChain.CurrencyRate: " ++ contract_address sideCurrencyRate) ;;;
  factory51 <~ await (getContractFactory "LoyaltyProvider") ;;
  let sideLoyaltyProvider := mkContract factory51 (loyaltyProviderAddress side) sideProvider in
  assign (set_sideLoyaltyProviderContract sideLoyaltyProvider) ;;;
  logger "info" ("SideChain.LoyaltyProvider: " ++ contract_address sideLoyaltyProvider) ;;;
  factory6 <~ await (getContractFactory "LoyaltyConsumer") ;;
  let sideLoyaltyConsumer := mkContract factory6 (loyaltyConsumerAddress side) sideProvider in
  assign (set_sideLoyaltyConsumerContract sideLoyaltyConsumer) ;;;
  logger "info" ("SideChain.LoyaltyConsumer: " ++ contract_address sideLoyaltyConsumer) ;;;
  factory7 <~ await (getContractFactory "LoyaltyExchanger") ;;
  let sideLoyaltyExchanger := mkContract factory7 (loyaltyExchangerAddress side) sideProvider in
  assign (set_sideLoyaltyExchangerContract sideLoyaltyExchanger) ;;;
  logger "info" ("SideChain.LoyaltyExchanger: " ++ contract_address sideLoyaltyExchanger) ;;;
  factory8 <~ await (getContractFactory "LoyaltyTransfer") ;;
  let sideLoyaltyTransfer := mkContract factory8 (loyaltyTransferAddress side) sideProvider in
  assign (set_sideLoyaltyTransferContract sideLoyaltyTransfer) ;;;
  logger "info" ("SideChain.LoyaltyTransfer: " ++ contract_address sideLoyaltyTransfer) ;;;
  factory9 <~ await (getContractFactory "LoyaltyBridge") ;;
  let sideLoyaltyBridge := mkContract factory9 (loyaltyBridgeAddress side) sideProvider in
  assign (set_sideLoyaltyBridgeContract sideLoyaltyBridge) ;;;
  logger "info" ("SideChain.LoyaltyBridge: " ++ contract_address sideLoyaltyBridge) ;;;
  factory10 <~ await (getContractFactory "Bridge") ;;
  let sideChainBridge := mkContract factory10 (chainBridgeAddress side) sideProvider in
  assign (set_sideChainBridgeContract sideChainBridge) ;;;
  logger "info" ("SideChain.ChainBridge: " ++ contract_address sideChainBridge) ;;;
  logger "info" ("MainChain.Network: " ++ network main) ;;;
  changeNetwork_to (network main) ;;;
  mainProvider <~ get hre_provider ;;
  assign (set_mainChainProvider mainProvider) ;;;
  mainId <~ await (getNetwork_chainId mainProvider) ;;
  assign (set_mainChainId mainId) ;;;
  logger "info" ("MainChain.ChainId: " ++ Z_toString mainId) ;;;
  let mainURL := chain_url main in
  assign (set_mainChainURL mainURL) ;;;
  logger "info" ("MainChain.URL: " ++ mainURL) ;;;
  factory11 <~ await (getContractFactory "LoyaltyToken") ;;
  let mainToken := mkContract factory11 (tokenAddress main) mainProvider in
  assign (set_mainTokenContract mainToken) ;;;
  logger "info" ("MainChain.Token: " ++ contract_address mainToken) ;;;
  name11 <~ await (token_name mainToken) ;;
  logger "info" ("MainChain.Token.Name: " ++ name11) ;;;
  symbol11 <~ await (token_symbol mainToken) ;;
  logger "info" ("MainChain.Token.Symbol: " ++ symbol11) ;;;
  name11' <~ await (token_name mainToken) ;;
  symbol11' <~ await (token_symbol mainToken) ;;
  let mainTokenId := getTokenId name11' symbol11' in
  assign (set_mainTokenId mainTokenId) ;;;
  logger "info" ("MainChain.TokenId: " ++ mainTokenId) ;;;
  factory12 <~ await (getContractFactory "Bridge") ;;
  let mainLoyaltyBridge := mkContract factory12 (loyaltyBridgeAddress main) mainProvider in
  assign (set_mainLoyaltyBridgeContract mainLoyaltyBridge) ;;;
  logger "info" ("MainChain.LoyaltyBridge: " ++ contract_address mainLoyaltyBridge) ;;;
  factory13 <~ await (getContractFactory "Bridge") ;;
  let mainChainBridge := mkContract factory13 (chainBridgeAddress main) mainProvider in
  assign (set_mainChainBridgeContract mainChainBridge) ;;;
  logger "info" ("MainChain.ChainBridge: " ++ contract_address mainChainBridge) ;;;
  ret tt.

(** ** ProvisionRouter *)

(** private async getRelaySigner(provider?) *)
Definition getRelaySigner (provider : option Provider) : M nat :=
  p <~ match provider with
       | Some p => ret p
       | None => sideChainProvider
       end ;;
  flags <~ get signer_using ;;
  handed <~ await (getSigner p flags) ;;
  update (set_using (snd handed)) ;;;
  ret (fst handed).

(** private releaseRelaySigner(signer) { signer.using = false; } *)
Definition releaseRelaySigner (item : nat) : M unit :=
  update (fun n => set_using (<[item := false]> (signer_using n)) n).

(** private makeResponseData(code, data, error?) *)
Definition makeResponseData (code : Z) (data : option Data) (error : option string) : Body :=
  ResponseData code data error.

Definition metrics_add (key : string) (value : Z) : M unit := update (add_metric key value).

(** The catch block shared by the five handlers. *)
Definition on_error (route : string) (error : Exn) : M unit :=
  let msg := getEVMErrorMessage error in
  logger "error" (route ++ " : " ++ snd msg) ;;;
  metrics_add "failure" 1 ;;;
  return_json (makeResponseData (fst msg) None (Some (snd msg))).

(** const errors = validationResult(req);
    if (!errors.isEmpty()) return res.status(200).json(...("2001", ...)) *)
Definition check_validation (req : Request) : M unit :=
  match validation req with
  | [] => ret tt
  | errors => return_json (ErrorMessage "2001" (Some errors))
  end.

Definition provision_register (req : Request) : M unit :=
  logger "http" ("POST /v1/provision/register " ++ ip req ++ ":" ++ JSON_stringify req) ;;;
  check_validation req ;;;
  sideProvider <~ sideChainProvider ;;
  signerItem <~ getRelaySigner (Some sideProvider) ;;
  try_catch_finally
    (let provider := trim (req_provider req) in
     let signature := trim (req_signature req) in
     ledger <~ sideLedgerContract ;;
     nonce <~ await (nonceOf ledger provider) ;;
     chainId <~ sideChainId ;;
     let message := getRegisterProviderMessage provider nonce chainId in
     if negb (verifyMessage provider message signature)
     then return_json (ErrorMessage "1501" None)
     else
       ledger' <~ sideLedgerContract ;;
       balance <~ await (tokenBalanceOf ledger' provider) ;;
       if balance <? minimumBalance
       then return_json (ErrorMessage "1511" None)
       else
         await (postNewProvider provider) ;;;
         update (add_stored provider) ;;;
         metrics_add "success" 1 ;;;
         return_json (makeResponseData 0 (Some (RegisterData provider)) None))
    (on_error "POST /v1/provision/register")
    (releaseRelaySigner signerItem).

Definition provision_balance (req : Request) : M unit :=
  logger "http" ("GET /v1/provision/balance/:provider " ++ ip req ++ ":"
                 ++ JSON_stringify req) ;;;
  check_validation req ;;;
  try_catch
    (let provider := trim (req_provider req) in
     ledger <~ sideLedgerContract ;;
     tokenBalance <~ await (tokenBalanceOf ledger provider) ;;
     rate <~ sideCurrencyRateContract ;;
     tokenValue <~ await (convertTokenToPoint rate tokenBalance) ;;
     metrics_add "success" 1 ;;;
     return_json (makeResponseData 0 (Some (BalanceData provider tokenBalance tokenValue))
                                   None))
    (on_error "GET /v1/provision/balance/:provider").

Definition provision_status (req : Request) : M unit :=
  logger "http" ("GET /v1/provision/status/:provider " ++ ip req ++ ":"
                 ++ JSON_stringify req) ;;;
  check_validation req ;;;
  try_catch
    (let provider := trim (req_provider req) in
     ledger <~ sideLedgerContract ;;
     enable <~ await (isProvider ledger provider) ;;
     metrics_add "success" 1 ;;;
     return_json (makeResponseData 0 (Some (StatusData provider enable)) None))
    (on_error "GET /v1/provision/status/:provider").

Definition provision_send_account (req : Request) : M unit :=
  logger "http" ("POST /v1/provision/send/account " ++ ip req ++ ":" ++ JSON_stringify req) ;;;
  check_validation req ;;;
  sideProvider <~ sideChainProvider ;;
  signerItem <~ getRelaySigner (Some sideProvider) ;;
  try_catch_finally
    (let provider := trim (req_provider req) in
     let receiver := trim (req_receiver req) in
     amount <~ await (BigNumber_from (req_amount req)) ;;
     let signature := trim (req_signature req) in
     ledger <~ sideLedgerContract ;;
     agent0 <~ await (provisionAgentOf ledger provider) ;;
     let agent := if String.eqb agent0 AddressZero then provider else agent0 in
     ledger' <~ sideLedgerContract ;;
     nonce <~ await (nonceOf ledger' agent) ;;
     chainId <~ sideChainId ;;
     let message := getProvidePointToAddressMessage provider receiver amount nonce chainId in
     if negb (verifyMessage agent message signature)
     then return_json (ErrorMessage "1501" None)
     else
       contract <~ sideLoyaltyProviderContract ;;
       txHash <~ await (provideToAddress contract signerItem provider receiver amount signature) ;;
       update (add_relayed (mkRelayed "provideToAddress" contract signerItem provider receiver
                                      amount signature)) ;;;
       metrics_add "success" 1 ;;;
       return_json (makeResponseData 0 (Some (SendData provider receiver amount txHash))
                                     None))
    (on_error "POST /v1/provision/send/account")
    (releaseRelaySigner signerItem).

Definition provision_send_phone_hash (req : Request) : M unit :=
  logger "http" ("POST /v1/provision/send/phoneHash " ++ ip req ++ ":" ++ JSON_stringify req) ;;;
  check_validation req ;;;
  sideProvider <~ sideChainProvider ;;
  signerItem <~ getRelaySigner (Some sideProvider) ;;
  try_catch_finally
    (let provider := trim (req_provider req) in
     let receiver := trim (req_receiver req) in
     amount <~ await (BigNumber_from (req_amount req)) ;;
     let signature := trim (req_signature req) in
     ledger <~ sideLedgerContract ;;
     agent0 <~ await (provisionAgentOf ledger provider) ;;
     let agent := if String.eqb agent0 AddressZero then provider else agent0 in
     ledger' <~ sideLedgerContract ;;
     nonce <~ await (nonceOf ledger' agent) ;;
     chainId <~ sideChainId ;;
     let message := getProvidePointToPhoneMessage provider receiver amount nonce chainId in
     if negb (verifyMessage agent message signature)
     then return_json (ErrorMessage "1501" None)
     else
       contract <~ sideLoyaltyProviderContract ;;
       txHash <~ await (provideToPhone contract signerItem provider receiver amount signature) ;;
       update (add_relayed (mkRelayed "provideToPhone" contract signerItem provider receiver
                                      amount signature)) ;;;
       metrics_add "success" 1 ;;;
       return_json (makeResponseData 0 (Some (SendData provider receiver amount txHash))
                                     None))
    (on_error "POST /v1/provision/send/phoneHash")
    (releaseRelaySigner signerItem).

(** registerRoutes: the five routes and the handler bound to each. *)
Inductive Route : Type :=
  | POST_provision_register
  | GET_provision_balance
  | GET_provision_status
  | POST_provision_send_account
  | POST_provision_send_phoneHash.

Definition handler (r : Route) : Request -> M unit :=
  match r with
  | POST_provision_register => provision_register
  | GET_provision_balance => provision_balance
  | GET_provision_status => provision_status
  | POST_provision_send_account => provision_send_account
  | POST_provision_send_phoneHash => provision_send_phone_hash
  end.

(** ** Vocabulary of the properties *)

(** The contract handles of the side chain and of the main chain, each
    with the address the configuration gives it. *)
Definition side_contracts (m : ContractManager) : list (option Contract * string) :=
  let side := sideChain (config m) in
  [(_sideTokenContract m, tokenAddress side);
   (_sideLedgerContract m, ledgerAddress side);
   (_sideShopContract m, shopAddress side);
   (_sidePhoneLinkerContract m, phoneLinkerAddress side);
   (_sideCurrencyRateContract m, currencyRateAddress side);
   (_sideLoyaltyProviderContract m, loyaltyProviderAddress side);
   (_sideLoyaltyConsumerContract m, loyaltyConsumerAddress side);
   (_sideLoyaltyExchangerContract m, loyaltyExchangerAddress side);
   (_sideLoyaltyTransferContract m, loyaltyTransferAddress side);
   (_sideLoyaltyBridgeContract m, loyaltyBridgeAddress side);
   (_sideChainBridgeContract m, chainBridgeAddress side)].

Definition main_contracts (m : ContractManager) : list (option Contract * string) :=
  let main := mainChain (config m) in
  [(_mainTokenContract m, tokenAddress main);
   (_mainLoyaltyBridgeContract m, loyaltyBridgeAddress main);
   (_mainChainBridgeContract m, chainBridgeAddress main)].

(** A handle that is defined, sits at its configured address and talks to
    the given provider. *)
Definition bound_to (p : Provider) (entry : option Contract * string) : Prop :=
  exists c, fst entry = Some c /\ contract_address c = snd entry /\ connected c = p.

(** The name a getter reports when its field is undefined. *)
Definition reported_name (getter_name : string) : string :=
  if String.eqb getter_name "sideCurrencyRateContract" then "sidePhoneLinkerContract"
  else if String.eqb getter_name "sideLoyaltyExchangerContract"
       then "sideLoyaltyConsumerContract"
       else getter_name.

(** The routes whose handler takes a relay signer. *)
Definition uses_signer (r : Route) : bool :=
  match r with
  | POST_provision_register | POST_provision_send_account
  | POST_provision_send_phoneHash => true
  | GET_provision_balance | GET_provision_status => false
  end.

End WithBackend.

End Relay.

(** ** A concrete relay

    An executable backend and a node, used to run attach and the handlers
    on concrete requests. *)

Definition sample_chain (name prefix : string) : Relay.ChainConfig :=
  Relay.mkChainConfig name EmptyString
    (prefix ++ "token") (prefix ++ "ledger") (prefix ++ "shop") (prefix ++ "linker")
    (prefix ++ "rate") (prefix ++ "provider") (prefix ++ "consumer")
    (prefix ++ "exchanger") (prefix ++ "transfer") (prefix ++ "loyaltyBridge")
    (prefix ++ "chainBridge").

Definition sample_config : Relay.Config :=
  Relay.mkConfig (sample_chain "side" "0xS-") (sample_chain "main" "0xM-").

(** The signature the sample backend accepts for [account]. *)
Definition sample_signature_of (account : string) : string := "signed-by-" ++ account.

(** Every chain call answers; the provider "0xrich" holds 1000 tokens and
    every other account 10; "0xdelegating" has the provision agent
    "0xagent"; the pool hands out signer 0 and marks it in use. *)
Definition sample_backend : Relay.Backend :=
  {| Relay.changeNetwork := fun name => inr name;
     Relay.getNetwork_chainId :=
       fun p => inr (if String.eqb p "side" then 215 else 2151)%Z;
     Relay.hardhat_url := fun name => Some ("http://" ++ name ++ ":8545");
     Relay.getContractFactory := fun name => inr name;
     Relay.token_name := fun _ => inr "Loyalty";
     Relay.token_symbol := fun _ => inr "LYT";
     Relay.getTokenId := fun name symbol => name ++ "/" ++ symbol;
     Relay.getRegisterProviderMessage :=
       fun provider nonce chainId =>
         [1; N.of_nat (String.length provider); Z.to_N nonce; Z.to_N chainId];
     Relay.getProvidePointToAddressMessage :=
       fun provider receiver amount nonce chainId =>
         [2; N.of_nat (String.length provider); N.of_nat (String.length receiver);
          Z.to_N amount; Z.to_N nonce; Z.to_N chainId];
     Relay.getProvidePointToPhoneMessage :=
       fun provider receiver amount nonce chainId =>
         [3; N.of_nat (String.length provider); N.of_nat (String.length receiver);
          Z.to_N amount; Z.to_N nonce; Z.to_N chainId];
     Relay.verifyMessage :=
       fun account message signature =>
         String.eqb signature (sample_signature_of account);
     Relay.getSigner := fun _ flags => inr (0%nat, <[0%nat := true]> flags);
     Relay.nonceOf := fun _ _ => inr 0%Z;
     Relay.tokenBalanceOf :=
       fun _ account => inr (if String.eqb account "0xrich" then 1000 else 10)%Z;
     Relay.provisionAgentOf :=
       fun _ account =>
         inr (if String.eqb account "0xdelegating" then "0xagent" else Relay.AddressZero);
     Relay.isProvider := fun _ account => inr (String.eqb account "0xrich");
     Relay.convertTokenToPoint := fun _ token => inr (token * 2)%Z;
     Relay.provideToAddress := fun _ _ _ _ _ _ => inr "0xtx-address";
     Relay.provideToPhone := fun _ _ _ _ _ _ => inl "execution reverted";
     Relay.postNewProvider := fun _ => inr tt;
     Relay.minimumBalance := 100%Z;
     Relay.BigNumber_from :=
       fun s => if String.eqb s "25" then inr 25%Z else inl "invalid BigNumber string";
     Relay.trim := fun s => s;
     Relay.JSON_stringify := fun req => Relay.req_provider req;
     Relay.Z_toString := fun z => if (z =? 215)%Z then "215" else "2151";
     Relay.getEVMErrorMessage := fun e => (5000%Z, e) |}.

(** A node whose manager has only been constructed, and the node after
    attach. *)
Definition sample_node : Relay.Node :=
  Relay.mkNode (Relay.constructed sample_config) "hardhat" ∅ [] [] [] [] [].

Definition attached_node : Relay.Node :=
  snd (Relay.attach (backend := sample_backend) sample_node).

(** Requests: "0xrich" registers; "0xpoor" registers; "0xrich" sends 25
    to "0xbob" with its own signature and with a foreign one; a request
    that failed validation. *)
Definition register_rich : Relay.Request :=
  Relay.mkRequest "10.0.0.1" [] "0xrich" EmptyString EmptyString
    (sample_signature_of "0xrich").

Definition register_poor : Relay.Request :=
  Relay.mkRequest "10.0.0.2" [] "0xpoor" EmptyString EmptyString
    (sample_signature_of "0xpoor").

Definition send_signed : Relay.Request :=
  Relay.mkRequest "10.0.0.1" [] "0xrich" "0xbob" "25" (sample_signature_of "0xrich").

Definition send_forged : Relay.Request :=
  Relay.mkRequest "10.0.0.3" [] "0xrich" "0xbob" "25" (sample_signature_of "0xmallory").

Definition send_malformed : Relay.Request :=
  Relay.mkRequest "10.0.0.4" ["signature: Invalid value"] "0xrich" "0xbob" "25" "0x12".

(** The node after a handler has run on the attached node. *)
Definition node_after (r : Relay.Route) (req : Relay.Request) : Relay.Node :=
  snd (Relay.handler (backend := sample_backend) r req attached_node).

(** * Properties *)

Section Properties.
Context {crypto : Crypto} {currencyRateContract : ICurrencyRate} {dms : DMS}.

(** ** Stepping through a transaction *)

Lemma tx_bind_ret {A B} (a : A) (k : A -> Tx B) w :
  tx_bind (tx_ret a) k w = k a w.
Proof. reflexivity. Qed.

Lemma tx_bind_view {A B} (f : World -> A) (k : A -> Tx B) w :
  tx_bind (view f) k w = k (f w) w.
Proof. reflexivity. Qed.

Lemma tx_bind_modify {B} (f : World -> World) (k : unit -> Tx B) w :
  tx_bind (modify f) k w = k tt (f w).
Proof. reflexivity. Qed.

Lemma tx_bind_assoc {A B C} (m : Tx A) (f : A -> Tx B) (k : B -> Tx C) w :
  tx_bind (tx_bind m f) k w = tx_bind m (fun a => tx_bind (f a) k) w.
Proof. unfold tx_bind. destruct (m w) as [a w'|e w']; reflexivity. Qed.

Lemma tx_bind_revert {A B} e (k : A -> Tx B) w :
  tx_bind (revert e) k w = Revert e w.
Proof. reflexivity. Qed.

Lemma tx_bind_require {B} (c : bool) code (k : unit -> Tx B) w :
  tx_bind (require c code) k w
  = if c then k tt w else Revert (Require_failed code) w.
Proof. destruct c; reflexivity. Qed.

Lemma tx_bind_checked_add {B} a b (k : uint256 -> Tx B) w :
  tx_bind (checked_add a b) k w
  = if a + b <=? MAX_UINT256 then k (a + b) w else Revert Panic_overflow w.
Proof. unfold tx_bind, checked_add. destruct (a + b <=? MAX_UINT256); reflexivity. Qed.

Lemma tx_bind_checked_mul {B} a b (k : uint256 -> Tx B) w :
  tx_bind (checked_mul a b) k w
  = if a * b <=? MAX_UINT256 then k (a * b) w else Revert Panic_overflow w.
Proof. unfold tx_bind, checked_mul. destruct (a * b <=? MAX_UINT256); reflexivity. Qed.

Lemma tx_bind_recover {B} h sig (k : address -> Tx B) w :
  tx_bind (recover h sig) k w
  = match ECDSA_recover (toEthSignedMessageHash h) sig with
    | Some signer => k signer w
    | None => Revert ECDSA_invalid_signature w
    end.
Proof.
  unfold tx_bind, recover.
  destruct (ECDSA_recover (toEthSignedMessageHash h) sig); reflexivity.
Qed.

Lemma tx_bind_subPointBalance {B} a amount (k : unit -> Tx B) w :
  tx_bind (subPointBalance a amount) k w
  = if amount <=? pointBalanceOf a w
    then k tt (set_ledger (set_pointBalances
                 (<[a := pointBalanceOf a w - amount]> (pointBalances (ledgerContract w)))
                 (ledgerContract w)) w)
    else Revert Ledger_insufficient w.
Proof.
  unfold tx_bind, subPointBalance. destruct (amount <=? pointBalanceOf a w); reflexivity.
Qed.

Lemma tx_bind_subTokenBalance {B} a amount (k : unit -> Tx B) w :
  tx_bind (subTokenBalance a amount) k w
  = if amount <=? tokenBalanceOf a w
    then k tt (set_ledger (set_tokenBalances
                 (<[a := tokenBalanceOf a w - amount]> (tokenBalances (ledgerContract w)))
                 (ledgerContract w)) w)
    else Revert Ledger_insufficient w.
Proof.
  unfold tx_bind, subTokenBalance. destruct (amount <=? tokenBalanceOf a w); reflexivity.
Qed.

(** Reads after writes: expose the record fields and the maps. *)
Ltac world_simpl :=
  unfold pointBalanceOf, tokenBalanceOf, nonceOf, loyaltyPaymentOf, shopOf,
         getPaymentFee, getPaymentFeeAccount, set_ledger, set_shop, set_payment,
         add_event, set_pointBalances, set_tokenBalances, set_nonce,
         escrow, with_secretLock, with_usedValueShop, with_status in *;
  cbn [loyaltyPayments temporaryAddress systemAccount ledgerContract shopContract
       emitted pointBalances tokenBalances nonce paymentFee paymentFeeAccount
       shops usedLedger paymentId purchaseId currency shopId account secretLock
       timestamp paidPoint paidToken paidValue feePoint feeToken feeValue
       usedValueShop status] in *.

Ltac world_simpl_goal :=
  unfold pointBalanceOf, tokenBalanceOf, nonceOf, loyaltyPaymentOf, shopOf,
         getPaymentFee, getPaymentFeeAccount, set_ledger, set_shop, set_payment,
         add_event, set_pointBalances, set_tokenBalances, set_nonce,
         escrow, with_secretLock, with_usedValueShop, with_status;
  cbn [loyaltyPayments temporaryAddress systemAccount ledgerContract shopContract
       emitted pointBalances tokenBalances nonce paymentFee paymentFeeAccount
       shops usedLedger paymentId purchaseId currency shopId account secretLock
       timestamp paidPoint paidToken paidValue feePoint feeToken feeValue
       usedValueShop status].

Ltac world_simpl_in H :=
  unfold pointBalanceOf, tokenBalanceOf, nonceOf, loyaltyPaymentOf, shopOf,
         getPaymentFee, getPaymentFeeAccount, set_ledger, set_shop, set_payment,
         add_event, set_pointBalances, set_tokenBalances, set_nonce,
         escrow, with_secretLock, with_usedValueShop, with_status in H;
  cbn [loyaltyPayments temporaryAddress systemAccount ledgerContract shopContract
       emitted pointBalances tokenBalances nonce paymentFee paymentFeeAccount
       shops usedLedger paymentId purchaseId currency shopId account secretLock
       timestamp paidPoint paidToken paidValue feePoint feeToken feeValue
       usedValueShop status] in H.

Ltac tx_unfold :=
  unfold transferToken, addPointBalance, addTokenBalance, increaseNonce,
         addUsedAmount, subUsedAmount, emit_LoyaltyPaymentEvent.

Ltac tx_unfold_in H :=
  unfold transferToken, addPointBalance, addTokenBalance, increaseNonce,
         addUsedAmount, subUsedAmount, emit_LoyaltyPaymentEvent in H.

(** Normal form of a transaction applied to a world: every bind whose head
    is a primitive is resolved, one at a time, and the world it continues
    in is simplified at once; what remains are the conditions of the
    source, as [if]s over the fields of the initial world. *)
Ltac tx_norm :=
  repeat (first
    [ rewrite tx_bind_assoc
    | rewrite tx_bind_ret
    | rewrite tx_bind_view
    | rewrite tx_bind_require
    | rewrite tx_bind_checked_add
    | rewrite tx_bind_checked_mul
    | rewrite tx_bind_recover
    | rewrite tx_bind_revert
    | rewrite tx_bind_subPointBalance
    | rewrite tx_bind_subTokenBalance
    | rewrite tx_bind_modify
    | progress cbv beta iota zeta ];
    cbv beta iota zeta; world_simpl_goal).

Ltac tx_norm_in H :=
  repeat (first
    [ rewrite tx_bind_assoc in H
    | rewrite tx_bind_ret in H
    | rewrite tx_bind_view in H
    | rewrite tx_bind_require in H
    | rewrite tx_bind_checked_add in H
    | rewrite tx_bind_checked_mul in H
    | rewrite tx_bind_recover in H
    | rewrite tx_bind_revert in H
    | rewrite tx_bind_subPointBalance in H
    | rewrite tx_bind_subTokenBalance in H
    | rewrite tx_bind_modify in H
    | progress cbv beta iota zeta in H ];
    cbv beta iota zeta in H; world_simpl_in H).

(** Inversion of a committed run: every condition on the path is recorded
    and the final world is substituted. *)
Ltac tx_inv H :=
  repeat first
    [ progress tx_norm_in H
    | match type of H with
      | (if ?c then _ else _) = Ok _ _ =>
          let E := fresh "Hcond" in destruct c eqn:E; try discriminate H
      | match ?o with Some _ => _ | None => _ end = Ok _ _ =>
          let E := fresh "Hrec" in destruct o eqn:E; try discriminate H
      | tx_bind (if ?c then _ else _) _ _ = Ok _ _ =>
          let E := fresh "Hcond" in destruct c eqn:E
      | (if ?c then _ else _) _ = Ok _ _ =>
          let E := fresh "Hcond" in
          destruct c eqn:E; try (unfold revert in H; discriminate H)
      end ];
  try (unfold modify, tx_ret in H; world_simpl_in H;
       injection H as H; symmetry in H; subst).

(** Lookups in updated mappings. *)
Ltac map_simpl :=
  repeat first
    [ rewrite lookup_insert_eq
    | rewrite lookup_insert_ne by congruence
    | progress cbn [from_option id paymentId purchaseId currency shopId account
                    secretLock timestamp paidPoint paidToken paidValue feePoint
                    feeToken feeValue usedValueShop status] ].

(** One step of a run whose conditions all hold. *)
Ltac tx_ok_step :=
  first
    [ progress tx_norm
    | progress world_simpl
    | rewrite N.eqb_refl
    | rewrite (proj2 (N.leb_le _ _)) by lia
    | rewrite bool_decide_eq_true_2 by (assumption || reflexivity)
    | rewrite bool_decide_eq_false_2 by assumption
    | rewrite (proj2 (N.leb_gt _ _)) by lia
    | progress map_simpl
    | match goal with
      | H : ECDSA_recover _ _ = Some _ |- _ => rewrite H
      end ].

(** Boolean tests of the source, as propositions. *)
Ltac bool_to_prop :=
  repeat match goal with
    | H : (_ <=? _) = true |- _ => apply N.leb_le in H
    | H : (_ <=? _) = false |- _ => apply N.leb_gt in H
    | H : (_ =? _) = true |- _ => apply N.eqb_eq in H
    | H : (_ =? _) = false |- _ => apply N.eqb_neq in H
    | H : bool_decide _ = true |- _ => apply bool_decide_eq_true_1 in H
    | H : bool_decide _ = false |- _ => apply bool_decide_eq_false_1 in H
    end.

Lemma openCancel_status_guard_true s : openCancel_status_guard s = true.
Proof. destruct s; reflexivity. Qed.

(** ** The status guard of openCancelLoyaltyPayment *)

(** C1: the status guard of openCancelLoyaltyPayment,
    (status != CLOSED_PAYMENT) || (status != FAILED_CANCEL), is true for
    every status, so the call never reverts with "1532", whatever the
    record's current status. *)
Theorem openCancel_status_guard_vacuous :
  (forall s : LoyaltyPaymentStatus, openCancel_status_guard s = true) /\
  (forall blk id lock sig w w0,
      openCancelLoyaltyPayment blk id lock sig w <> Revert (Require_failed "1532") w0).
Proof.
  split; [exact openCancel_status_guard_true|].
  intros blk id lock sig w w0.
  unfold openCancelLoyaltyPayment. tx_unfold. tx_norm.
  rewrite openCancel_status_guard_true.
  repeat (case_match; tx_norm); try discriminate.
Qed.

Lemma commit_revert {A} (m : Tx A) w e w0 : m w = Revert e w0 -> commit m w = w.
Proof. unfold commit. intros ->. reflexivity. Qed.

(** ** The cancellation window *)

(** C8: openCancelLoyaltyPayment invoked strictly after the 7-day window,
    measured from the record's open timestamp, reverts with "1534" in the
    very world it was called in (nothing was written) and commits nothing,
    for every record and every signature. *)
Theorem openCancel_after_window blk id lock sig w :
  timestamp (loyaltyPaymentOf id w) + 86400 * 7 < block_timestamp blk ->
  block_timestamp blk <= MAX_UINT256 ->
  openCancelLoyaltyPayment blk id lock sig w = Revert (Require_failed "1534") w /\
  commit (openCancelLoyaltyPayment blk id lock sig) w = w.
Proof.
  intros Hlate Hnow.
  assert (Hrun : openCancelLoyaltyPayment blk id lock sig w
                 = Revert (Require_failed "1534") w).
  { unfold openCancelLoyaltyPayment. world_simpl. tx_norm.
    rewrite openCancel_status_guard_true.
    replace (_ + _ <=? MAX_UINT256) with true by (symmetry; apply N.leb_le; lia).
    replace (block_timestamp blk <=? _) with false by (symmetry; apply N.leb_gt; lia).
    reflexivity. }
  split; [exact Hrun | exact (commit_revert _ _ _ _ Hrun)].
Qed.

(** ** The secret lock *)

(** C6: for closeNewLoyaltyPayment and closeCancelLoyaltyPayment alike, a
    secret whose hash differs from the stored secretLock makes the call
    revert at a require, in the very world it was called in: the failure
    precedes every write, and the record's status and every balance are
    unchanged. *)
Theorem close_with_wrong_secret_reverts id secret confirm w :
  secretLock (loyaltyPaymentOf id w) <> keccak256 [abi_bytes32 secret] ->
  closeNewLoyaltyPayment id secret confirm w
    = Revert (Require_failed
                (if bool_decide (status (loyaltyPaymentOf id w) = OPENED_PAYMENT)
                 then "1505" else "1531")) w /\
  closeCancelLoyaltyPayment id secret confirm w
    = Revert (Require_failed
                (if bool_decide (status (loyaltyPaymentOf id w) = OPENED_CANCEL)
                 then "1505" else "1533")) w /\
  commit (closeNewLoyaltyPayment id secret confirm) w = w /\
  commit (closeCancelLoyaltyPayment id secret confirm) w = w.
Proof.
  intros Hsecret. apply N.eqb_neq in Hsecret.
  assert (Hpay : closeNewLoyaltyPayment id secret confirm w
    = Revert (Require_failed
                (if bool_decide (status (loyaltyPaymentOf id w) = OPENED_PAYMENT)
                 then "1505" else "1531")) w).
  { unfold closeNewLoyaltyPayment. world_simpl. tx_norm. rewrite Hsecret.
    destruct (bool_decide (status _ = OPENED_PAYMENT)); reflexivity. }
  assert (Hcancel : closeCancelLoyaltyPayment id secret confirm w
    = Revert (Require_failed
                (if bool_decide (status (loyaltyPaymentOf id w) = OPENED_CANCEL)
                 then "1505" else "1533")) w).
  { unfold closeCancelLoyaltyPayment. world_simpl. tx_norm. rewrite Hsecret.
    destruct (bool_decide (status _ = OPENED_CANCEL)); reflexivity. }
  repeat split; eauto using commit_revert.
Qed.


(** ** Opening a payment *)

(** C5: an openNewLoyaltyPayment call whose preconditions hold (the record
    is INVALID, the signature recovers to the payer, the payer's point
    balance covers paidPoint + feePoint) commits with the record in
    OPENED_PAYMENT, the temporary account credited and the payer debited
    by exactly paidPoint + feePoint, and the payer's nonce incremented by
    exactly 1. *)
Theorem openNewLoyaltyPayment_effects blk data w :
  let payer := in_account data in
  let paid := convertCurrencyToPoint (in_amount data) (in_currency data) in
  let fee := convertCurrencyToPoint
               (zeroGWEI (in_amount data * getPaymentFee w / 10000)) (in_currency data) in
  status (loyaltyPaymentOf (in_paymentId data) w) = INVALID ->
  ECDSA_recover (toEthSignedMessageHash (paymentDataHash blk data (nonceOf payer w)))
                (in_signature data) = Some payer ->
  paid + fee <= pointBalanceOf payer w ->
  in_amount data * getPaymentFee w <= MAX_UINT256 ->
  pointBalanceOf payer w <= MAX_UINT256 ->
  payer <> temporaryAddress w ->
  exists w',
    openNewLoyaltyPayment blk data w = Ok tt w' /\
    status (loyaltyPaymentOf (in_paymentId data) w') = OPENED_PAYMENT /\
    pointBalanceOf (temporaryAddress w) w'
      = pointBalanceOf (temporaryAddress w) w + (paid + fee) /\
    pointBalanceOf payer w' = pointBalanceOf payer w - (paid + fee) /\
    nonceOf payer w' = nonceOf payer w + 1.
Proof.
  intros payer paid fee Hstatus Hsig Hfunds Hmul Hbal Hne.
  eexists. split.
  { unfold openNewLoyaltyPayment, _openNewLoyaltyPaymentPoint. tx_unfold.
    subst payer paid fee. repeat tx_ok_step. reflexivity. }
  subst payer paid fee. world_simpl. map_simpl.
  repeat split; try reflexivity; lia.
Qed.


(** ** The point supply *)

Lemma sum_balances_insert (m : gmap address uint256) a v :
  sum_balances (<[a := v]> m) + default 0 (m !! a) = sum_balances m + v.
Proof.
  unfold sum_balances. destruct (m !! a) as [x|] eqn:Hlook; cbn [from_option id].
  - rewrite <- (insert_delete_eq m a v).
    rewrite map_fold_insert_L; [|intros; lia|apply lookup_delete_eq].
    rewrite (map_fold_delete_L _ _ a x m); [lia|intros; lia|exact Hlook].
  - rewrite map_fold_insert_L; [lia|intros; lia|exact Hlook].
Qed.


(** C2 (amended): the escrowed amount paidPoint + feePoint moves 1:1
    between the payer and the temporary account when a payment is opened
    and when it is refunded, so openNewLoyaltyPayment and
    closeNewLoyaltyPayment with confirm = false leave the total point
    supply unchanged; settling (closeNewLoyaltyPayment with confirm = true)
    burns exactly the escrowed amount, openCancelLoyaltyPayment mints
    exactly that amount to the temporary account, and
    closeCancelLoyaltyPayment with confirm = false burns it again. *)
Theorem point_supply_by_transition :
  (forall blk data w w',
      openNewLoyaltyPayment blk data w = Ok tt w' ->
      totalPoints w' = totalPoints w) /\
  (forall id secret w w',
      closeNewLoyaltyPayment id secret false w = Ok tt w' ->
      totalPoints w' = totalPoints w) /\
  (forall id secret w w',
      closeNewLoyaltyPayment id secret true w = Ok tt w' ->
      totalPoints w' + escrow (loyaltyPaymentOf id w) = totalPoints w) /\
  (forall blk id lock sig w w',
      openCancelLoyaltyPayment blk id lock sig w = Ok tt w' ->
      totalPoints w' = totalPoints w + escrow (loyaltyPaymentOf id w)) /\
  (forall id secret w w',
      closeCancelLoyaltyPayment id secret false w = Ok tt w' ->
      totalPoints w' + escrow (loyaltyPaymentOf id w) = totalPoints w).
Proof.
  repeat split; intros;
    match goal with
    | H : _ = Ok tt _ |- _ =>
        unfold openNewLoyaltyPayment, _openNewLoyaltyPaymentPoint,
               closeNewLoyaltyPayment, openCancelLoyaltyPayment,
               closeCancelLoyaltyPayment in H;
        tx_unfold_in H; tx_inv H
    end;
    bool_to_prop; unfold totalPoints; world_simpl;
    repeat match goal with
      | |- context [sum_balances (<[?a := ?v]> ?m)] =>
          let Hsum := fresh "Hsum" in
          pose proof (sum_balances_insert m a v) as Hsum;
          let s := fresh "s" in
          set (s := sum_balances (<[a := v]> m)) in *; clearbody s
      | Hsum : context [sum_balances (<[?a := ?v]> ?m)] |- _ =>
          let Hsum' := fresh "Hsum" in
          pose proof (sum_balances_insert m a v) as Hsum';
          let s := fresh "s" in
          set (s := sum_balances (<[a := v]> m)) in *; clearbody s
      end;
    rewrite ?lookup_insert in *;
    repeat case_decide; subst; cbn [from_option Datatypes.id] in *; lia.
Qed.


(** ** Stored records stay well formed *)

Lemma payments_wf_step c w w' :
  payments_wf w -> exec c w = Ok tt w' -> payments_wf w'.
Proof.
  intros Hwf H key. pose proof (Hwf key) as Hkey.
  destruct c as [blk data|id secret confirm|blk id lock sig|id secret confirm];
    cbn [exec] in H.
  - unfold openNewLoyaltyPayment, _openNewLoyaltyPaymentPoint in H.
    tx_unfold_in H. tx_inv H. bool_to_prop. world_simpl.
    rewrite lookup_insert. case_decide; subst; cbn; [lia|exact Hkey].
  - unfold closeNewLoyaltyPayment in H. tx_unfold_in H.
    destruct confirm; tx_inv H; world_simpl;
      rewrite ?lookup_insert; repeat case_decide; subst; map_simpl; cbn; exact Hkey.
  - unfold openCancelLoyaltyPayment in H. tx_unfold_in H.
    tx_inv H; world_simpl;
      rewrite ?lookup_insert; repeat case_decide; subst; map_simpl; cbn; exact Hkey.
  - unfold closeCancelLoyaltyPayment in H. tx_unfold_in H.
    destruct confirm; tx_inv H; world_simpl;
      rewrite ?lookup_insert; repeat case_decide; subst; map_simpl; cbn; exact Hkey.
Qed.


(** ** Refunding an opened payment *)

(** C7: for every successfully opened payment, closeNewLoyaltyPayment with
    confirm = false and the correct secret commits, restores the payer's
    point balance to its value before the open, and sets the status to
    FAILED_PAYMENT; the refund credits the payer exactly the escrowed
    amount paidPoint + feePoint that the open debited. *)
Theorem open_then_refund_restores_payer blk data secret w w1 :
  let payer := in_account data in
  let id := in_paymentId data in
  openNewLoyaltyPayment blk data w = Ok tt w1 ->
  in_secretLock data = keccak256 [abi_bytes32 secret] ->
  exists w2,
    closeNewLoyaltyPayment id secret false w1 = Ok tt w2 /\
    pointBalanceOf payer w2 = pointBalanceOf payer w /\
    status (loyaltyPaymentOf id w2) = FAILED_PAYMENT /\
    (payer <> temporaryAddress w ->
       pointBalanceOf payer w1 + escrow (loyaltyPaymentOf id w1) = pointBalanceOf payer w /\
       pointBalanceOf payer w2 = pointBalanceOf payer w1 + escrow (loyaltyPaymentOf id w1)).
Proof.
  intros payer id Hopen Hsecret. subst payer id.
  unfold openNewLoyaltyPayment, _openNewLoyaltyPaymentPoint in Hopen.
  tx_unfold_in Hopen. tx_inv Hopen. bool_to_prop.
  destruct (decide (in_account data = temporaryAddress w)) as [Halias|Hne].
  - eexists. split.
    { unfold closeNewLoyaltyPayment. tx_unfold. world_simpl.
      rewrite Hsecret. rewrite <- Halias in *. repeat tx_ok_step. reflexivity. }
    world_simpl. rewrite <- Halias in *. map_simpl.
    repeat split; try reflexivity; lia.
  - eexists. split.
    { unfold closeNewLoyaltyPayment. tx_unfold. world_simpl.
      rewrite Hsecret. repeat tx_ok_step. reflexivity. }
    world_simpl. map_simpl.
    repeat split; try reflexivity; lia.
Qed.


(** ** Settling with an unfunded system account *)

(** C3: closeNewLoyaltyPayment with confirm = true on a record in
    OPENED_PAYMENT, with the correct secret and a system account whose
    token balance is below feeToken, commits: no token balance moves (the
    fee distribution is skipped), the escrow is debited from the temporary
    account, an active shop's usage is recorded, and the status becomes
    CLOSED_PAYMENT. *)
Theorem closePayment_settles_without_fee_distribution id secret w :
  let p := loyaltyPaymentOf id w in
  let shop := shopOf (shopId p) w in
  let used := convertCurrency (paidValue p) (currency p) (shop_currency shop) in
  status p = OPENED_PAYMENT ->
  secretLock p = keccak256 [abi_bytes32 secret] ->
  tokenBalanceOf (systemAccount w) w < feeToken p ->
  escrow p <= pointBalanceOf (temporaryAddress w) w ->
  escrow p <= MAX_UINT256 ->
  exists w',
    closeNewLoyaltyPayment id secret true w = Ok tt w' /\
    (forall a, tokenBalanceOf a w' = tokenBalanceOf a w) /\
    pointBalanceOf (temporaryAddress w) w'
      = pointBalanceOf (temporaryAddress w) w - escrow p /\
    (forall a, a <> temporaryAddress w -> pointBalanceOf a w' = pointBalanceOf a w) /\
    status (loyaltyPaymentOf id w') = CLOSED_PAYMENT /\
    (shop_status shop = SHOP_ACTIVE ->
       usedLedger (shopContract w')
         = (usedLedger (shopContract w)
              ++ [mkUsageEntry (shopId p) used (purchaseId p) id false])%list /\
       usedValueShop (loyaltyPaymentOf id w') = used) /\
    (shop_status shop <> SHOP_ACTIVE -> shopContract w' = shopContract w).
Proof.
  intros p shop used Hstatus Hsecret Hshort Hescrow Hfits. subst p shop used.
  destruct (decide (shop_status (shopOf (shopId (loyaltyPaymentOf id w)) w) = SHOP_ACTIVE))
    as [Hactive|Hinactive].
  - eexists. split.
    { unfold closeNewLoyaltyPayment. tx_unfold. world_simpl.
      repeat (tx_ok_step || rewrite Hsecret). reflexivity. }
    world_simpl. map_simpl.
    repeat split; try reflexivity; try done.
    intros a Ha. map_simpl. reflexivity.
  - eexists. split.
    { unfold closeNewLoyaltyPayment. tx_unfold. world_simpl.
      repeat (tx_ok_step || rewrite Hsecret). reflexivity. }
    world_simpl. map_simpl.
    repeat split; try reflexivity; try done.
    intros a Ha. map_simpl. reflexivity.
Qed.


(** ** Opening a cancellation *)

Lemma cancel_authorized_inv blk id sig w :
  cancel_authorized blk id sig w ->
  let p := loyaltyPaymentOf id w in
  let owner := shop_account (shopOf (shopId p) w) in
  let delegator := shop_delegator (shopOf (shopId p) w) in
  exists signer1,
    ECDSA_recover
      (toEthSignedMessageHash
         (cancelDataHash blk id (purchaseId p) owner (nonceOf owner w))) sig
    = Some signer1 /\
    ((delegator =? address0) = true /\ (signer1 =? owner) = true \/
     (delegator =? address0) = false /\
     exists signer2,
       ECDSA_recover
         (toEthSignedMessageHash
            (cancelDataHash blk id (purchaseId p) delegator (nonceOf delegator w))) sig
       = Some signer2 /\
       (signer1 =? owner) || (signer2 =? delegator) = true).
Proof.
  intros (pass1 & pass2 & H1 & H2 & Hor) p owner delegator.
  unfold cancel_pass1 in H1. unfold cancel_pass2 in H2.
  fold p owner delegator in H1, H2.
  destruct (ECDSA_recover _ sig) as [signer1|] eqn:Hrec1 in H1; [|discriminate].
  exists signer1. split; [exact Hrec1|].
  injection H1 as <-.
  destruct (delegator =? address0) eqn:Hdel.
  - left. injection H2 as <-. rewrite orb_false_r in Hor. auto.
  - right. split; [reflexivity|].
    destruct (ECDSA_recover _ sig) as [signer2|] eqn:Hrec2 in H2; [|discriminate].
    exists signer2. injection H2 as <-. auto.
Qed.

(** C4: in openCancelLoyaltyPayment, a fee-collection account whose token
    balance is below the record's feeToken makes the call revert, with
    "1513" once the window and signature checks have passed; by then the
    shop account's nonce has been incremented, yet nothing the call wrote
    (balance, nonce, secretLock, status) persists. Otherwise feeToken moves
    from the fee-collection account to the temporary account, the
    temporary account is credited paidPoint + feePoint, the new secretLock
    is stored and the status becomes OPENED_CANCEL. *)
Theorem openCancel_fee_account_check blk id lock sig w :
  let p := loyaltyPaymentOf id w in
  let feeAccount := getPaymentFeeAccount w in
  let temporary := temporaryAddress w in
  let owner := shop_account (shopOf (shopId p) w) in
  (tokenBalanceOf feeAccount w < feeToken p ->
     (exists e w0, openCancelLoyaltyPayment blk id lock sig w = Revert e w0) /\
     commit (openCancelLoyaltyPayment blk id lock sig) w = w /\
     (within_cancel_window blk p -> cancel_authorized blk id sig w ->
      exists w0,
        openCancelLoyaltyPayment blk id lock sig w = Revert (Require_failed "1513") w0 /\
        nonceOf owner w0 = nonceOf owner w + 1)) /\
  (feeToken p <= tokenBalanceOf feeAccount w ->
   within_cancel_window blk p -> cancel_authorized blk id sig w ->
   escrow p <= MAX_UINT256 ->
     exists w',
       openCancelLoyaltyPayment blk id lock sig w = Ok tt w' /\
       (feeAccount <> temporary ->
          tokenBalanceOf feeAccount w' = tokenBalanceOf feeAccount w - feeToken p /\
          tokenBalanceOf temporary w' = tokenBalanceOf temporary w + feeToken p) /\
       (forall a, a <> feeAccount -> a <> temporary ->
          tokenBalanceOf a w' = tokenBalanceOf a w) /\
       pointBalanceOf temporary w' = pointBalanceOf temporary w + escrow p /\
       secretLock (loyaltyPaymentOf id w') = lock /\
       status (loyaltyPaymentOf id w') = OPENED_CANCEL).
Proof.
  intros p feeAccount temporary owner. subst p feeAccount temporary owner. split.
  - intros Hshort.
    assert (Hrev : exists e w0,
               openCancelLoyaltyPayment blk id lock sig w = Revert e w0).
    { destruct (openCancelLoyaltyPayment blk id lock sig w) as [[] w'|e w0] eqn:H;
        [exfalso|eauto].
      unfold openCancelLoyaltyPayment in H. tx_unfold_in H.
      world_simpl. tx_inv H; bool_to_prop; lia. }
    split; [exact Hrev|]. split.
    { destruct Hrev as (e & w0 & He). exact (commit_revert _ _ _ _ He). }
    intros [Hnow Hfits] Hauth.
    destruct (cancel_authorized_inv _ _ _ _ Hauth) as (signer1 & Hrec1 & Hpass).
    eexists. split.
    { unfold openCancelLoyaltyPayment. tx_unfold. world_simpl.
      tx_norm. rewrite openCancel_status_guard_true.
      destruct Hpass as [[Hdel Hp1]|(Hdel & signer2 & Hrec2 & Hor)].
      + repeat (tx_ok_step || rewrite Hdel || rewrite Hp1 || cbn [negb orb]).
        reflexivity.
      + repeat (tx_ok_step || rewrite Hdel || rewrite Hor || cbn [negb]).
        reflexivity. }
    world_simpl. map_simpl. reflexivity.
  - intros Hfunds [Hnow Hfits] Hauth Hescrow.
    destruct (cancel_authorized_inv _ _ _ _ Hauth) as (signer1 & Hrec1 & Hpass).
    destruct Hpass as [[Hdel Hp1]|(Hdel & signer2 & Hrec2 & Hor)].
    + eexists. split.
      { unfold openCancelLoyaltyPayment. tx_unfold. world_simpl.
        tx_norm. rewrite openCancel_status_guard_true.
        repeat (tx_ok_step || rewrite Hdel || rewrite Hp1 || cbn [negb orb]).
        reflexivity. }
      world_simpl. map_simpl.
      repeat split; try reflexivity; intros; map_simpl; reflexivity.
    + eexists. split.
      { unfold openCancelLoyaltyPayment. tx_unfold. world_simpl.
        tx_norm. rewrite openCancel_status_guard_true.
        repeat (tx_ok_step || rewrite Hdel || rewrite Hor || cbn [negb]).
        reflexivity. }
      world_simpl. map_simpl.
      repeat split; try reflexivity; intros; map_simpl; reflexivity.
Qed.


(** ** Rejecting a cancellation *)

(** C10: closeCancelLoyaltyPayment with confirm = false, on a record in
    OPENED_CANCEL with the correct secret, changes neither the payer's
    point balance nor the shop's used-amount ledger: it moves feeToken from
    the temporary account to the fee-collection account, debits the
    temporary account's point balance by paidPoint + feePoint and sets the
    status to FAILED_CANCEL, and the balance in the emitted event is the
    payer's balance before the call. *)
Theorem closeCancel_rejection_frame id secret w :
  let p := loyaltyPaymentOf id w in
  let payer := account p in
  let temporary := temporaryAddress w in
  let feeAccount := getPaymentFeeAccount w in
  status p = OPENED_CANCEL ->
  secretLock p = keccak256 [abi_bytes32 secret] ->
  payer <> temporary ->
  feeToken p <= tokenBalanceOf temporary w ->
  escrow p <= pointBalanceOf temporary w ->
  escrow p <= MAX_UINT256 ->
  exists w',
    closeCancelLoyaltyPayment id secret false w = Ok tt w' /\
    pointBalanceOf payer w' = pointBalanceOf payer w /\
    shopContract w' = shopContract w /\
    pointBalanceOf temporary w' = pointBalanceOf temporary w - escrow p /\
    (forall a, a <> temporary -> pointBalanceOf a w' = pointBalanceOf a w) /\
    (temporary <> feeAccount ->
       tokenBalanceOf temporary w' = tokenBalanceOf temporary w - feeToken p /\
       tokenBalanceOf feeAccount w' = tokenBalanceOf feeAccount w + feeToken p) /\
    (forall a, a <> temporary -> a <> feeAccount ->
       tokenBalanceOf a w' = tokenBalanceOf a w) /\
    nonce (ledgerContract w') = nonce (ledgerContract w) /\
    loyaltyPaymentOf id w' = with_status FAILED_CANCEL p /\
    (forall other, other <> id -> loyaltyPaymentOf other w' = loyaltyPaymentOf other w) /\
    emitted w'
      = (emitted w ++ [mkLoyaltyPaymentEvent (loyaltyPaymentOf id w')
                                             (pointBalanceOf payer w)])%list.
Proof.
  intros p payer temporary feeAccount Hstatus Hsecret Hne Htokens Hpoints Hfits.
  subst p payer temporary feeAccount.
  eexists. split.
  { unfold closeCancelLoyaltyPayment. tx_unfold. world_simpl.
    repeat (tx_ok_step || rewrite Hsecret). reflexivity. }
  world_simpl. map_simpl.
  repeat split; try reflexivity; intros; map_simpl; rewrite ?Hsecret; reflexivity.
Qed.

(** ** Whose nonce a cancellation consumes *)

Lemma openCancel_consumes_owner_nonce blk id lock sig w w' :
  let owner := shop_account (shopOf (shopId (loyaltyPaymentOf id w)) w) in
  openCancelLoyaltyPayment blk id lock sig w = Ok tt w' ->
  nonceOf owner w' = nonceOf owner w + 1 /\
  (forall a, a <> owner -> nonceOf a w' = nonceOf a w).
Proof.
  intros owner H. subst owner.
  unfold openCancelLoyaltyPayment in H. tx_unfold_in H. world_simpl.
  tx_inv H; world_simpl; map_simpl; (split; [reflexivity|]);
    intros a Ha; map_simpl; reflexivity.
Qed.


Lemma payments_wf_empty w : loyaltyPayments w = ∅ -> payments_wf w.
Proof.
  intros Hempty id. unfold escrow, loyaltyPaymentOf. rewrite Hempty, lookup_empty.
  vm_compute. discriminate.
Qed.


(** ** Rejected and accepted open requests *)

Lemma open_taken_reverts blk data w :
  status (loyaltyPaymentOf (in_paymentId data) w) <> INVALID ->
  openNewLoyaltyPayment blk data w = Revert (Require_failed "1530") w.
Proof.
  intros Htaken. unfold openNewLoyaltyPayment. world_simpl. tx_norm.
  rewrite bool_decide_eq_false_2 by assumption. reflexivity.
Qed.

(** X1: openNewLoyaltyPayment on a paymentId that isAvailablePaymentId
    reports as taken reverts with "1530" at its first require, before the
    signature is looked at and before any write. *)
Theorem openNewLoyaltyPayment_taken_id blk data w :
  isAvailablePaymentId (in_paymentId data) w = false ->
  openNewLoyaltyPayment blk data w = Revert (Require_failed "1530") w /\
  commit (openNewLoyaltyPayment blk data) w = w.
Proof.
  intros Htaken. unfold isAvailablePaymentId in Htaken.
  assert (Hstatus : status (loyaltyPaymentOf (in_paymentId data) w) <> INVALID).
  { intros Hfree. rewrite bool_decide_eq_true_2 in Htaken by assumption. discriminate. }
  pose proof (open_taken_reverts blk data w Hstatus) as Hrun.
  split; [exact Hrun | exact (commit_revert _ _ _ _ Hrun)].
Qed.

(** X2: on a free paymentId, a signature that does not recover to the
    payer named in the request makes openNewLoyaltyPayment revert, with
    "1501" (or inside ECDSA.recover when the signature is malformed), in
    the world it was called in: the payer's nonce has not been touched. *)
Theorem openNewLoyaltyPayment_bad_signature blk data w :
  let payer := in_account data in
  let recovered :=
    ECDSA_recover (toEthSignedMessageHash (paymentDataHash blk data (nonceOf payer w)))
                  (in_signature data) in
  status (loyaltyPaymentOf (in_paymentId data) w) = INVALID ->
  recovered <> Some payer ->
  openNewLoyaltyPayment blk data w
    = Revert (match recovered with
              | Some _ => Require_failed "1501"
              | None => ECDSA_invalid_signature
              end) w /\
  commit (openNewLoyaltyPayment blk data) w = w.
Proof.
  intros payer recovered Hfree Hbad. subst payer recovered.
  assert (Hrun : openNewLoyaltyPayment blk data w
    = Revert (match ECDSA_recover
                      (toEthSignedMessageHash
                         (paymentDataHash blk data (nonceOf (in_account data) w)))
                      (in_signature data) with
              | Some _ => Require_failed "1501"
              | None => ECDSA_invalid_signature
              end) w).
  { unfold openNewLoyaltyPayment. world_simpl. tx_norm.
    rewrite bool_decide_eq_true_2 by assumption.
    destruct (ECDSA_recover _ _) as [signer|]; [|reflexivity].
    tx_norm. replace (signer =? in_account data) with false; [reflexivity|].
    symmetry. apply N.eqb_neq. congruence. }
  split; [exact Hrun | exact (commit_revert _ _ _ _ Hrun)].
Qed.

(** X3: a correctly signed request on a free paymentId whose payer holds
    fewer points than paidPoint + feePoint reverts with "1511". By then
    increaseNonce has run, but it is rolled back: the committed world is
    the initial one, so the payer's nonce is not consumed. *)
Theorem openNewLoyaltyPayment_insufficient_balance blk data w :
  let payer := in_account data in
  let paid := convertCurrencyToPoint (in_amount data) (in_currency data) in
  let fee := convertCurrencyToPoint
               (zeroGWEI (in_amount data * getPaymentFee w / 10000)) (in_currency data) in
  status (loyaltyPaymentOf (in_paymentId data) w) = INVALID ->
  ECDSA_recover (toEthSignedMessageHash (paymentDataHash blk data (nonceOf payer w)))
                (in_signature data) = Some payer ->
  in_amount data * getPaymentFee w <= MAX_UINT256 ->
  paid + fee <= MAX_UINT256 ->
  pointBalanceOf payer w < paid + fee ->
  (exists w0,
     openNewLoyaltyPayment blk data w = Revert (Require_failed "1511") w0 /\
     nonceOf payer w0 = nonceOf payer w + 1 /\
     loyaltyPayments w0 = loyaltyPayments w /\
     pointBalances (ledgerContract w0) = pointBalances (ledgerContract w)) /\
  commit (openNewLoyaltyPayment blk data) w = w.
Proof.
  intros payer paid fee Hfree Hsig Hmul Hfits Hshort. subst payer paid fee.
  assert (Hrun : exists w0,
     openNewLoyaltyPayment blk data w = Revert (Require_failed "1511") w0 /\
     nonceOf (in_account data) w0 = nonceOf (in_account data) w + 1 /\
     loyaltyPayments w0 = loyaltyPayments w /\
     pointBalances (ledgerContract w0) = pointBalances (ledgerContract w)).
  { eexists. split.
    { unfold openNewLoyaltyPayment, _openNewLoyaltyPaymentPoint. tx_unfold.
      repeat tx_ok_step. reflexivity. }
    world_simpl. map_simpl. repeat split; reflexivity. }
  split; [exact Hrun|].
  destruct Hrun as (w0 & Hrun & _). exact (commit_revert _ _ _ _ Hrun).
Qed.

(** X4: openNewLoyaltyPayment commits only for a free paymentId, a
    signature that recovers to the payer over the payer's current nonce,
    and a payer balance that covers paidPoint + feePoint: a payment is
    never opened without the payer's signature or on credit. *)
Theorem openNewLoyaltyPayment_only_if blk data w w' :
  let payer := in_account data in
  openNewLoyaltyPayment blk data w = Ok tt w' ->
  isAvailablePaymentId (in_paymentId data) w = true /\
  ECDSA_recover (toEthSignedMessageHash (paymentDataHash blk data (nonceOf payer w)))
                (in_signature data) = Some payer /\
  escrow (loyaltyPaymentOf (in_paymentId data) w') <= pointBalanceOf payer w /\
  account (loyaltyPaymentOf (in_paymentId data) w') = payer.
Proof.
  intros payer H. subst payer.
  unfold openNewLoyaltyPayment, _openNewLoyaltyPaymentPoint in H.
  tx_unfold_in H. unfold isAvailablePaymentId. world_simpl. tx_inv H.
  bool_to_prop. subst. world_simpl. map_simpl.
  repeat split; try reflexivity; try assumption.
Qed.

(** X5: the record a committed openNewLoyaltyPayment stores: the request's
    identifiers and secretLock, the block's timestamp, the amount as
    paidValue, its conversions to points and tokens, the fee
    zeroGWEI(amount * feeRate / 10000) with its conversions, no shop usage
    yet, and status OPENED_PAYMENT; every other record is left as it
    was. *)
Theorem openNewLoyaltyPayment_record blk data w w' :
  let paid := convertCurrencyToPoint (in_amount data) (in_currency data) in
  let feeV := zeroGWEI (in_amount data * getPaymentFee w / 10000) in
  let feeP := convertCurrencyToPoint feeV (in_currency data) in
  openNewLoyaltyPayment blk data w = Ok tt w' ->
  loyaltyPaymentOf (in_paymentId data) w'
    = {| paymentId := in_paymentId data;
         purchaseId := in_purchaseId data;
         currency := in_currency data;
         shopId := in_shopId data;
         account := in_account data;
         secretLock := in_secretLock data;
         timestamp := block_timestamp blk;
         paidPoint := paid;
         paidToken := convertPointToToken paid;
         paidValue := in_amount data;
         feePoint := feeP;
         feeToken := convertPointToToken feeP;
         feeValue := feeV;
         usedValueShop := 0;
         status := OPENED_PAYMENT |} /\
  (forall other, other <> in_paymentId data ->
     loyaltyPaymentOf other w' = loyaltyPaymentOf other w).
Proof.
  intros paid feeV feeP H. subst paid feeV feeP.
  unfold openNewLoyaltyPayment, _openNewLoyaltyPaymentPoint in H.
  tx_unfold_in H. world_simpl. tx_inv H.
  world_simpl. map_simpl. split; [reflexivity|].
  intros other Hother. map_simpl. reflexivity.
Qed.

(** ** Closing in the wrong state, and closing twice *)

Lemma closeNew_wrong_status id secret confirm w :
  status (loyaltyPaymentOf id w) <> OPENED_PAYMENT ->
  closeNewLoyaltyPayment id secret confirm w = Revert (Require_failed "1531") w.
Proof.
  intros Hstatus. unfold closeNewLoyaltyPayment. world_simpl. tx_norm.
  rewrite bool_decide_eq_false_2 by assumption. reflexivity.
Qed.

Lemma closeCancel_wrong_status id secret confirm w :
  status (loyaltyPaymentOf id w) <> OPENED_CANCEL ->
  closeCancelLoyaltyPayment id secret confirm w = Revert (Require_failed "1533") w.
Proof.
  intros Hstatus. unfold closeCancelLoyaltyPayment. world_simpl. tx_norm.
  rewrite bool_decide_eq_false_2 by assumption. reflexivity.
Qed.

(** X6: whatever the secret and the confirm flag, closeNewLoyaltyPayment
    reverts with "1531" unless the record is in OPENED_PAYMENT, and
    closeCancelLoyaltyPayment reverts with "1533" unless it is in
    OPENED_CANCEL; in both cases nothing has been written. *)
Theorem close_in_wrong_status id secret confirm w :
  (status (loyaltyPaymentOf id w) <> OPENED_PAYMENT ->
   closeNewLoyaltyPayment id secret confirm w = Revert (Require_failed "1531") w /\
   commit (closeNewLoyaltyPayment id secret confirm) w = w) /\
  (status (loyaltyPaymentOf id w) <> OPENED_CANCEL ->
   closeCancelLoyaltyPayment id secret confirm w = Revert (Require_failed "1533") w /\
   commit (closeCancelLoyaltyPayment id secret confirm) w = w).
Proof.
  split; intros Hstatus.
  - pose proof (closeNew_wrong_status id secret confirm w Hstatus) as Hrun.
    split; [exact Hrun | exact (commit_revert _ _ _ _ Hrun)].
  - pose proof (closeCancel_wrong_status id secret confirm w Hstatus) as Hrun.
    split; [exact Hrun | exact (commit_revert _ _ _ _ Hrun)].
Qed.

(** X7: a close is final. Once closeNewLoyaltyPayment or
    closeCancelLoyaltyPayment has committed for a paymentId, an immediate
    second close of either kind, with any secret and any confirm flag,
    reverts ("1531", "1533"): a payment cannot be settled and then
    refunded, nor refunded twice. *)
Theorem close_is_final id secret confirm w w1 :
  closeNewLoyaltyPayment id secret confirm w = Ok tt w1 \/
  closeCancelLoyaltyPayment id secret confirm w = Ok tt w1 ->
  forall secret' confirm',
    closeNewLoyaltyPayment id secret' confirm' w1 = Revert (Require_failed "1531") w1 /\
    closeCancelLoyaltyPayment id secret' confirm' w1 = Revert (Require_failed "1533") w1.
Proof.
  intros Hclose secret' confirm'.
  assert (Hstatus : status (loyaltyPaymentOf id w1) <> OPENED_PAYMENT /\
                    status (loyaltyPaymentOf id w1) <> OPENED_CANCEL).
  { destruct Hclose as [H|H].
    - unfold closeNewLoyaltyPayment in H. tx_unfold_in H. world_simpl.
      destruct confirm; tx_inv H; world_simpl; map_simpl; split; discriminate.
    - unfold closeCancelLoyaltyPayment in H. tx_unfold_in H. world_simpl.
      destruct confirm; tx_inv H; world_simpl; map_simpl; split; discriminate. }
  destruct Hstatus as [Hpay Hcancel].
  split; [exact (closeNew_wrong_status id secret' confirm' w1 Hpay)
         |exact (closeCancel_wrong_status id secret' confirm' w1 Hcancel)].
Qed.

(** ** Settling with a funded system account *)

(** X8: closeNewLoyaltyPayment with confirm = true, when the system account
    holds at least feeToken, moves feeToken from the system account to the
    fee-collection account, burns the escrow from the temporary account and
    sets CLOSED_PAYMENT; no other point or token balance and no nonce
    changes. *)
Theorem closePayment_settles_with_fee_distribution id secret w :
  let p := loyaltyPaymentOf id w in
  let system := systemAccount w in
  let feeAccount := getPaymentFeeAccount w in
  let temporary := temporaryAddress w in
  status p = OPENED_PAYMENT ->
  secretLock p = keccak256 [abi_bytes32 secret] ->
  feeToken p <= tokenBalanceOf system w ->
  escrow p <= pointBalanceOf temporary w ->
  escrow p <= MAX_UINT256 ->
  exists w',
    closeNewLoyaltyPayment id secret true w = Ok tt w' /\
    (system <> feeAccount ->
       tokenBalanceOf system w' = tokenBalanceOf system w - feeToken p /\
       tokenBalanceOf feeAccount w' = tokenBalanceOf feeAccount w + feeToken p) /\
    (forall a, a <> system -> a <> feeAccount ->
       tokenBalanceOf a w' = tokenBalanceOf a w) /\
    pointBalanceOf temporary w' = pointBalanceOf temporary w - escrow p /\
    (forall a, a <> temporary -> pointBalanceOf a w' = pointBalanceOf a w) /\
    nonce (ledgerContract w') = nonce (ledgerContract w) /\
    status (loyaltyPaymentOf id w') = CLOSED_PAYMENT.
Proof.
  intros p system feeAccount temporary Hstatus Hsecret Hfunds Hescrow Hfits.
  subst p system feeAccount temporary.
  destruct (decide (shop_status (shopOf (shopId (loyaltyPaymentOf id w)) w) = SHOP_ACTIVE))
    as [Hactive|Hinactive].
  - eexists. split.
    { unfold closeNewLoyaltyPayment. tx_unfold. world_simpl.
      repeat (tx_ok_step || rewrite Hsecret). reflexivity. }
    world_simpl. map_simpl.
    repeat split; try reflexivity; intros; map_simpl; reflexivity.
  - eexists. split.
    { unfold closeNewLoyaltyPayment. tx_unfold. world_simpl.
      repeat (tx_ok_step || rewrite Hsecret). reflexivity. }
    world_simpl. map_simpl.
    repeat split; try reflexivity; intros; map_simpl; reflexivity.
Qed.

(** ** Confirming a cancellation *)

(** X9: closeCancelLoyaltyPayment with confirm = true, on a record in
    OPENED_CANCEL with the correct secret, moves feeToken from the
    temporary account to the system account, credits the payer
    paidPoint + feePoint and changes no other point balance (the
    temporary account's points are not debited), appends a reversal of the
    recorded usedValueShop to the shop's usage, sets CLOSED_CANCEL and
    emits the payer's new balance. *)
Theorem closeCancel_confirmation_effects id secret w :
  let p := loyaltyPaymentOf id w in
  let payer := account p in
  let temporary := temporaryAddress w in
  let system := systemAccount w in
  status p = OPENED_CANCEL ->
  secretLock p = keccak256 [abi_bytes32 secret] ->
  feeToken p <= tokenBalanceOf temporary w ->
  escrow p <= MAX_UINT256 ->
  exists w',
    closeCancelLoyaltyPayment id secret true w = Ok tt w' /\
    pointBalanceOf payer w' = pointBalanceOf payer w + escrow p /\
    (forall a, a <> payer -> pointBalanceOf a w' = pointBalanceOf a w) /\
    (temporary <> system ->
       tokenBalanceOf temporary w' = tokenBalanceOf temporary w - feeToken p /\
       tokenBalanceOf system w' = tokenBalanceOf system w + feeToken p) /\
    (forall a, a <> temporary -> a <> system ->
       tokenBalanceOf a w' = tokenBalanceOf a w) /\
    usedLedger (shopContract w')
      = (usedLedger (shopContract w)
           ++ [mkUsageEntry (shopId p) (usedValueShop p) (purchaseId p) id true])%list /\
    loyaltyPaymentOf id w' = with_status CLOSED_CANCEL p /\
    emitted w'
      = (emitted w ++ [mkLoyaltyPaymentEvent (loyaltyPaymentOf id w')
                                             (pointBalanceOf payer w + escrow p)])%list.
Proof.
  intros p payer temporary system Hstatus Hsecret Htokens Hfits.
  subst p payer temporary system.
  eexists. split.
  { unfold closeCancelLoyaltyPayment. tx_unfold. world_simpl.
    repeat (tx_ok_step || rewrite Hsecret). reflexivity. }
  world_simpl. map_simpl.
  repeat split; try reflexivity; intros; map_simpl; rewrite ?Hsecret; reflexivity.
Qed.

(** ** What every call preserves *)

(** X10: tokens are only ever moved. Every committed call (open, either
    close, open-cancel, either close-cancel) leaves the sum of all token
    balances unchanged. *)
Theorem token_supply_conserved c w w' :
  exec c w = Ok tt w' -> totalTokens w' = totalTokens w.
Proof.
  intros H.
  destruct c as [blk data|id secret confirm|blk id lock sig|id secret confirm];
    cbn [exec] in H;
    unfold openNewLoyaltyPayment, _openNewLoyaltyPaymentPoint,
           closeNewLoyaltyPayment, openCancelLoyaltyPayment,
           closeCancelLoyaltyPayment in H;
    tx_unfold_in H; try destruct confirm; tx_inv H;
    bool_to_prop; unfold totalTokens; world_simpl;
    repeat match goal with
      | |- context [sum_balances (<[?a := ?v]> ?m)] =>
          let Hsum := fresh "Hsum" in
          pose proof (sum_balances_insert m a v) as Hsum;
          let s := fresh "s" in
          set (s := sum_balances (<[a := v]> m)) in *; clearbody s
      | Hsum : context [sum_balances (<[?a := ?v]> ?m)] |- _ =>
          let Hsum' := fresh "Hsum" in
          pose proof (sum_balances_insert m a v) as Hsum';
          let s := fresh "s" in
          set (s := sum_balances (<[a := v]> m)) in *; clearbody s
      end;
    rewrite ?lookup_insert in *;
    repeat case_decide; subst; cbn [from_option Datatypes.id] in *; lia.
Qed.

(** X11: nonces only go up, one account and one step at a time. A
    committed openNewLoyaltyPayment increments the payer's nonce by 1, a
    committed openCancelLoyaltyPayment the shop account's, and the two
    close functions change no nonce; no call ever lowers a nonce. *)
Theorem nonces_by_transition c w w' :
  exec c w = Ok tt w' ->
  match c with
  | OpenPayment _ data =>
      nonceOf (in_account data) w' = nonceOf (in_account data) w + 1 /\
      (forall a, a <> in_account data -> nonceOf a w' = nonceOf a w)
  | OpenCancel _ id _ _ =>
      let owner := shop_account (shopOf (shopId (loyaltyPaymentOf id w)) w) in
      nonceOf owner w' = nonceOf owner w + 1 /\
      (forall a, a <> owner -> nonceOf a w' = nonceOf a w)
  | ClosePayment _ _ _ | CloseCancel _ _ _ =>
      nonce (ledgerContract w') = nonce (ledgerContract w)
  end /\
  (forall a, nonceOf a w <= nonceOf a w').
Proof.
  intros H.
  destruct c as [blk data|id secret confirm|blk id lock sig|id secret confirm];
    cbn [exec] in H.
  - unfold openNewLoyaltyPayment, _openNewLoyaltyPaymentPoint in H.
    tx_unfold_in H. world_simpl. tx_inv H. world_simpl. map_simpl.
    split; [split; [reflexivity|intros a Ha; map_simpl; reflexivity]|].
    intros a. rewrite lookup_insert.
    destruct (decide (in_account data = a)); subst; cbn [from_option Datatypes.id]; lia.
  - unfold closeNewLoyaltyPayment in H. tx_unfold_in H. world_simpl.
    destruct confirm; tx_inv H; world_simpl; (split; [reflexivity|intros a; lia]).
  - pose proof (openCancel_consumes_owner_nonce blk id lock sig w w' H) as [Hown Hrest].
    split; [split; assumption|].
    intros a.
    destruct (decide (a = shop_account (shopOf (shopId (loyaltyPaymentOf id w)) w)))
      as [->|Ha]; [rewrite Hown; lia|rewrite (Hrest a Ha); lia].
  - unfold closeCancelLoyaltyPayment in H. tx_unfold_in H. world_simpl.
    destruct confirm; tx_inv H; world_simpl; (split; [reflexivity|intros a; lia]).
Qed.


(** X13: the terms of a payment are fixed when it is opened. For a record
    that has left INVALID, no committed call changes its paymentId,
    purchaseId, currency, shopId, payer account, timestamp, or any of the
    paid and fee amounts; only secretLock, usedValueShop and status ever
    change. *)
Theorem payment_terms_are_fixed c w w' id :
  exec c w = Ok tt w' ->
  status (loyaltyPaymentOf id w) <> INVALID ->
  same_terms (loyaltyPaymentOf id w) (loyaltyPaymentOf id w').
Proof.
  intros H Hopened. unfold same_terms.
  destruct c as [blk data|key secret confirm|blk key lock sig|key secret confirm];
    cbn [exec] in H;
    unfold openNewLoyaltyPayment, _openNewLoyaltyPaymentPoint,
           closeNewLoyaltyPayment, openCancelLoyaltyPayment,
           closeCancelLoyaltyPayment in H;
    tx_unfold_in H; world_simpl; try destruct confirm; tx_inv H;
    bool_to_prop; world_simpl;
    rewrite ?lookup_insert; repeat case_decide; subst; map_simpl;
    try contradiction; repeat split; reflexivity.
Qed.

(** X14: every committed call emits exactly one LoyaltyPaymentEvent, which
    carries the record it addresses as stored after the call and the
    payer's point balance after the call. *)
Theorem one_event_per_call c w w' :
  exec c w = Ok tt w' ->
  let stored := loyaltyPaymentOf (call_id c) w' in
  emitted w'
    = (emitted w ++ [mkLoyaltyPaymentEvent stored (pointBalanceOf (account stored) w')])%list.
Proof.
  intros H.
  destruct c as [blk data|id secret confirm|blk id lock sig|id secret confirm];
    cbn [exec call_id] in *;
    unfold openNewLoyaltyPayment, _openNewLoyaltyPaymentPoint,
           closeNewLoyaltyPayment, openCancelLoyaltyPayment,
           closeCancelLoyaltyPayment in H;
    tx_unfold_in H; world_simpl; try destruct confirm; tx_inv H;
    world_simpl; map_simpl; reflexivity.
Qed.

(** X15: the status a committed call leaves on the record it addresses:
    open takes INVALID to OPENED_PAYMENT, close-payment takes
    OPENED_PAYMENT to CLOSED_PAYMENT or FAILED_PAYMENT, close-cancel takes
    OPENED_CANCEL to CLOSED_CANCEL or FAILED_CANCEL, and open-cancel sets
    OPENED_CANCEL from whatever status the record had. *)
Theorem status_by_transition c w w' :
  exec c w = Ok tt w' ->
  status_step c (status (loyaltyPaymentOf (call_id c) w))
                (status (loyaltyPaymentOf (call_id c) w')).
Proof.
  intros H.
  destruct c as [blk data|id secret confirm|blk id lock sig|id secret confirm];
    cbn [exec call_id status_step] in *;
    unfold openNewLoyaltyPayment, _openNewLoyaltyPaymentPoint,
           closeNewLoyaltyPayment, openCancelLoyaltyPayment,
           closeCancelLoyaltyPayment in H;
    tx_unfold_in H; world_simpl; try destruct confirm; tx_inv H;
    bool_to_prop; world_simpl; map_simpl; try split; try assumption; reflexivity.
Qed.

Lemma taken_id_stays_taken c w id :
  status (loyaltyPaymentOf id w) <> INVALID ->
  status (loyaltyPaymentOf id (commit (exec c) w)) <> INVALID.
Proof.
  intros Htaken. unfold commit.
  destruct (exec c w) as [[] w'|e w0] eqn:H; [|exact Htaken].
  destruct c as [blk data|key secret confirm|blk key lock sig|key secret confirm];
    cbn [exec] in H;
    unfold openNewLoyaltyPayment, _openNewLoyaltyPaymentPoint,
           closeNewLoyaltyPayment, openCancelLoyaltyPayment,
           closeCancelLoyaltyPayment in H;
    tx_unfold_in H; world_simpl; try destruct confirm; tx_inv H;
    bool_to_prop; world_simpl;
    rewrite ?lookup_insert; repeat case_decide; subst; map_simpl;
    try exact Htaken; discriminate.
Qed.

Lemma taken_id_stays_taken_run calls w id :
  status (loyaltyPaymentOf id w) <> INVALID ->
  status (loyaltyPaymentOf id (run_calls calls w)) <> INVALID.
Proof.
  revert w. induction calls as [|c calls IH]; intros w Htaken; [exact Htaken|].
  cbn [run_calls fold_left]. apply IH. apply taken_id_stays_taken. exact Htaken.
Qed.

(** X16: a paymentId is single use. After a committed
    openNewLoyaltyPayment, and after any further sequence of calls
    (committed or reverted), isAvailablePaymentId stays false and every
    openNewLoyaltyPayment for that paymentId reverts with "1530". *)
Theorem paymentId_single_use blk data w w1 calls blk' data' :
  openNewLoyaltyPayment blk data w = Ok tt w1 ->
  in_paymentId data' = in_paymentId data ->
  let w2 := run_calls calls w1 in
  isAvailablePaymentId (in_paymentId data) w2 = false /\
  openNewLoyaltyPayment blk' data' w2 = Revert (Require_failed "1530") w2.
Proof.
  intros Hopen Hsame w2.
  assert (Hopened : status (loyaltyPaymentOf (in_paymentId data) w1) <> INVALID).
  { unfold openNewLoyaltyPayment, _openNewLoyaltyPaymentPoint in Hopen.
    tx_unfold_in Hopen. world_simpl. tx_inv Hopen. world_simpl. map_simpl.
    discriminate. }
  pose proof (taken_id_stays_taken_run calls w1 _ Hopened) as Htaken.
  fold w2 in Htaken. split.
  - unfold isAvailablePaymentId. rewrite bool_decide_eq_false_2 by assumption.
    reflexivity.
  - apply open_taken_reverts. rewrite Hsame. exact Htaken.
Qed.

(** ** A payment's whole life *)

Lemma open_observed blk data w w1 :
  openNewLoyaltyPayment blk data w = Ok tt w1 ->
  temporaryAddress w1 = temporaryAddress w /\
  shopContract w1 = shopContract w /\
  account (loyaltyPaymentOf (in_paymentId data) w1) = in_account data /\
  shopId (loyaltyPaymentOf (in_paymentId data) w1) = in_shopId data /\
  purchaseId (loyaltyPaymentOf (in_paymentId data) w1) = in_purchaseId data /\
  currency (loyaltyPaymentOf (in_paymentId data) w1) = in_currency data /\
  paidValue (loyaltyPaymentOf (in_paymentId data) w1) = in_amount data /\
  usedValueShop (loyaltyPaymentOf (in_paymentId data) w1) = 0 /\
  escrow (loyaltyPaymentOf (in_paymentId data) w1) <= pointBalanceOf (in_account data) w /\
  (in_account data <> temporaryAddress w ->
     pointBalanceOf (in_account data) w1
     = pointBalanceOf (in_account data) w - escrow (loyaltyPaymentOf (in_paymentId data) w1)).
Proof.
  intros H. unfold openNewLoyaltyPayment, _openNewLoyaltyPaymentPoint in H.
  tx_unfold_in H. world_simpl. tx_inv H. bool_to_prop. world_simpl. map_simpl.
  repeat split; try reflexivity; try assumption.
  intros Hne. map_simpl. reflexivity.
Qed.

Lemma closeNew_observed id secret confirm w w' :
  closeNewLoyaltyPayment id secret confirm w = Ok tt w' ->
  let p := loyaltyPaymentOf id w in
  let shop := shopOf (shopId p) w in
  let used := convertCurrency (paidValue p) (currency p) (shop_currency shop) in
  let records := confirm && bool_decide (shop_status shop = SHOP_ACTIVE) in
  temporaryAddress w' = temporaryAddress w /\
  shops (shopContract w') = shops (shopContract w) /\
  same_terms p (loyaltyPaymentOf id w') /\
  usedValueShop (loyaltyPaymentOf id w') = (if records then used else usedValueShop p) /\
  usedLedger (shopContract w')
    = (usedLedger (shopContract w)
         ++ (if records then [mkUsageEntry (shopId p) used (purchaseId p) id false]
             else []))%list /\
  (forall a, a <> temporaryAddress w -> a <> account p \/ confirm = true ->
     pointBalanceOf a w' = pointBalanceOf a w) /\
  (confirm = false -> account p <> temporaryAddress w ->
     pointBalanceOf (account p) w' = pointBalanceOf (account p) w + escrow p).
Proof.
  intros H. unfold closeNewLoyaltyPayment in H. tx_unfold_in H. world_simpl.
  unfold same_terms.
  destruct confirm; tx_inv H; bool_to_prop; world_simpl; map_simpl;
    cbn [andb];
    repeat match goal with
      | H : shop_status _ = SHOP_ACTIVE |- _ => rewrite (bool_decide_eq_true_2 _ H)
      | H : shop_status _ <> SHOP_ACTIVE |- _ => rewrite (bool_decide_eq_false_2 _ H)
      end;
    rewrite ?app_nil_r;
    repeat split; try reflexivity; try discriminate;
    try (intros a Ha [Hb|Hb]; try discriminate; map_simpl; reflexivity);
    try (intros _ Hne; map_simpl; reflexivity).
Qed.

Lemma openCancel_observed blk id lock sig w w' :
  openCancelLoyaltyPayment blk id lock sig w = Ok tt w' ->
  let p := loyaltyPaymentOf id w in
  temporaryAddress w' = temporaryAddress w /\
  shopContract w' = shopContract w /\
  same_terms p (loyaltyPaymentOf id w') /\
  usedValueShop (loyaltyPaymentOf id w') = usedValueShop p /\
  (forall a, a <> temporaryAddress w -> pointBalanceOf a w' = pointBalanceOf a w).
Proof.
  intros H. unfold openCancelLoyaltyPayment in H. tx_unfold_in H. world_simpl.
  unfold same_terms.
  tx_inv H; world_simpl; map_simpl;
    repeat split; try reflexivity; intros a Ha; map_simpl; reflexivity.
Qed.

Lemma closeCancel_confirm_observed id secret w w' :
  closeCancelLoyaltyPayment id secret true w = Ok tt w' ->
  let p := loyaltyPaymentOf id w in
  status (loyaltyPaymentOf id w') = CLOSED_CANCEL /\
  pointBalanceOf (account p) w' = pointBalanceOf (account p) w + escrow p /\
  usedLedger (shopContract w')
    = (usedLedger (shopContract w)
         ++ [mkUsageEntry (shopId p) (usedValueShop p) (purchaseId p) id true])%list.
Proof.
  intros H. unfold closeCancelLoyaltyPayment in H. tx_unfold_in H. world_simpl.
  tx_inv H. world_simpl. map_simpl. repeat split; reflexivity.
Qed.

(** X17: the cancellation round trip. When a payment is opened, settled,
    and its cancellation is opened and confirmed, the payer's point
    balance is back at its value before the open, the record ends in
    CLOSED_CANCEL, and the shop's usage shows what settlement recorded
    followed by a reversal of the same amount (for a shop that was not
    active at settlement: no record, and a reversal of 0). *)
Theorem cancel_round_trip blk data secret blk2 lock sig secret2 w w1 w2 w3 w4 :
  let id := in_paymentId data in
  let payer := in_account data in
  let shop := shopOf (in_shopId data) w in
  let used := convertCurrency (in_amount data) (in_currency data) (shop_currency shop) in
  openNewLoyaltyPayment blk data w = Ok tt w1 ->
  closeNewLoyaltyPayment id secret true w1 = Ok tt w2 ->
  openCancelLoyaltyPayment blk2 id lock sig w2 = Ok tt w3 ->
  closeCancelLoyaltyPayment id secret2 true w3 = Ok tt w4 ->
  payer <> temporaryAddress w ->
  pointBalanceOf payer w4 = pointBalanceOf payer w /\
  status (loyaltyPaymentOf id w4) = CLOSED_CANCEL /\
  usedLedger (shopContract w4)
    = (usedLedger (shopContract w)
         ++ (if bool_decide (shop_status shop = SHOP_ACTIVE)
             then [mkUsageEntry (in_shopId data) used (in_purchaseId data) id false;
                   mkUsageEntry (in_shopId data) used (in_purchaseId data) id true]
             else [mkUsageEntry (in_shopId data) 0 (in_purchaseId data) id true]))%list.
Proof.
  intros id payer shop used Hopen Hsettle Hcancel Hconfirm Hne.
  subst id payer shop used.
  destruct (open_observed _ _ _ _ Hopen)
    as (Ht1 & Hs1 & Hacc1 & Hshop1 & Hpur1 & Hcur1 & Hval1 & Hused1 & Hfunds & Hdebit).
  destruct (closeNew_observed _ _ _ _ _ Hsettle)
    as (Ht2 & Hs2 & Hterms2 & Hused2 & Hledger2 & Hframe2 & _).
  destruct (openCancel_observed _ _ _ _ _ _ Hcancel)
    as (Ht3 & Hs3 & Hterms3 & Hused3 & Hframe3).
  destruct (closeCancel_confirm_observed _ _ _ _ Hconfirm)
    as (Hstatus4 & Hcredit4 & Hledger4).
  unfold same_terms in Hterms2, Hterms3.
  destruct Hterms2 as (_ & Hpur2 & _ & Hshop2 & Hacc2 & _ & Hpaid2 & _ & _ & Hfee2 & _).
  destruct Hterms3 as (_ & Hpur3 & _ & Hshop3 & Hacc3 & _ & Hpaid3 & _ & _ & Hfee3 & _).
  unfold escrow in *.
  rewrite <- Hacc3, <- Hacc2, Hacc1 in Hcredit4.
  rewrite <- Hpaid3, <- Hfee3, <- Hpaid2, <- Hfee2 in Hcredit4.
  rewrite Hframe3 in Hcredit4 by congruence.
  rewrite Hframe2 in Hcredit4 by (auto || congruence).
  rewrite Hdebit in Hcredit4 by assumption.
  split; [rewrite Hcredit4; lia|]. split; [exact Hstatus4|].
  rewrite Hledger4, Hs3, Hledger2, Hs1, Hused3, Hused2.
  rewrite <- Hshop3, <- Hshop2, <- Hpur3, <- Hpur2, Hshop1, Hpur1, Hval1, Hcur1, Hused1.
  cbn [andb]. unfold shopOf. rewrite Hs1.
  match goal with |- context [bool_decide ?P] => destruct (bool_decide P) end;
    rewrite <- ?app_assoc; reflexivity.
Qed.

(** X18: openCancelLoyaltyPayment does not require a settled payment. When
    a payment is opened and refunded (closeNewLoyaltyPayment with
    confirm = false) and a cancellation is then opened and confirmed, the
    payer is credited the escrowed amount a second time: the payer ends
    with the balance held before the open plus paidPoint + feePoint. *)
Theorem cancel_after_refund_credits_twice
    blk data secret blk2 lock sig secret2 w w1 w2 w3 w4 :
  let id := in_paymentId data in
  let payer := in_account data in
  openNewLoyaltyPayment blk data w = Ok tt w1 ->
  closeNewLoyaltyPayment id secret false w1 = Ok tt w2 ->
  openCancelLoyaltyPayment blk2 id lock sig w2 = Ok tt w3 ->
  closeCancelLoyaltyPayment id secret2 true w3 = Ok tt w4 ->
  payer <> temporaryAddress w ->
  pointBalanceOf payer w2 = pointBalanceOf payer w /\
  pointBalanceOf payer w4
    = pointBalanceOf payer w + escrow (loyaltyPaymentOf id w1) /\
  status (loyaltyPaymentOf id w4) = CLOSED_CANCEL.
Proof.
  intros id payer Hopen Hrefund Hcancel Hconfirm Hne. subst id payer.
  destruct (open_observed _ _ _ _ Hopen)
    as (Ht1 & Hs1 & Hacc1 & _ & _ & _ & _ & _ & Hfunds & Hdebit).
  destruct (closeNew_observed _ _ _ _ _ Hrefund)
    as (Ht2 & _ & Hterms2 & _ & _ & _ & Hcredit2).
  destruct (openCancel_observed _ _ _ _ _ _ Hcancel)
    as (Ht3 & _ & Hterms3 & _ & Hframe3).
  destruct (closeCancel_confirm_observed _ _ _ _ Hconfirm)
    as (Hstatus4 & Hcredit4 & _).
  unfold same_terms in Hterms2, Hterms3.
  destruct Hterms2 as (_ & _ & _ & _ & Hacc2 & _ & Hpaid2 & _ & _ & Hfee2 & _).
  destruct Hterms3 as (_ & _ & _ & _ & Hacc3 & _ & Hpaid3 & _ & _ & Hfee3 & _).
  unfold escrow in *.
  rewrite Hacc1 in Hcredit2. specialize (Hcredit2 eq_refl).
  rewrite Ht1 in Hcredit2. specialize (Hcredit2 Hne).
  rewrite Hdebit in Hcredit2 by assumption.
  rewrite <- Hacc3, <- Hacc2, Hacc1 in Hcredit4.
  rewrite <- Hpaid3, <- Hfee3, <- Hpaid2, <- Hfee2 in Hcredit4.
  rewrite Hframe3 in Hcredit4 by congruence.
  assert (Hback : pointBalanceOf (in_account data) w2 = pointBalanceOf (in_account data) w)
    by (rewrite Hcredit2; lia).
  split; [exact Hback|]. split; [|exact Hstatus4].
  rewrite Hcredit4, Hback. reflexivity.
Qed.

End Properties.

(** * Properties of the wiring *)

Section WiringProperties.
Import Wiring.
Variable getSystemAccount : address -> address.

Lemma wiring_step_invariants c s :
  let s' := Wiring.commit (Wiring.exec getSystemAccount c s) s in
  (initialized s = true ->
     initialized s' = true /\ owner s' = owner s /\
     currencyRateContract s' = currencyRateContract s /\
     temporaryAddress s' = temporaryAddress s) /\
  (initialized s = true -> isSetLedger s = true ->
     isSetLedger s' = true /\ ledgerContract s' = ledgerContract s /\
     systemAccount s' = systemAccount s) /\
  (initialized s = true -> isSetShop s = true ->
     isSetShop s' = true /\ shopContract s' = shopContract s).
Proof.
  cbn zeta.
  destruct c; cbn [Wiring.exec]; unfold initialize, setLedger, setShop, _authorizeUpgrade;
    destruct (initialized s) eqn:Hi, (isSetLedger s) eqn:Hl, (isSetShop s) eqn:Hs;
    repeat match goal with
      | |- context [bool_decide ?P] => destruct (bool_decide P)
      end;
    cbn; rewrite ?Hi, ?Hl, ?Hs; repeat split; intros; congruence.
Qed.

Lemma wiring_run_invariants calls s :
  let s' := Wiring.run getSystemAccount calls s in
  initialized s = true ->
  (initialized s' = true /\ owner s' = owner s /\
   currencyRateContract s' = currencyRateContract s /\
   temporaryAddress s' = temporaryAddress s) /\
  (isSetLedger s = true ->
     isSetLedger s' = true /\ ledgerContract s' = ledgerContract s /\
     systemAccount s' = systemAccount s) /\
  (isSetShop s = true ->
     isSetShop s' = true /\ shopContract s' = shopContract s).
Proof.
  cbn zeta. revert s. induction calls as [|c calls IH]; intros s Hinit.
  { cbn. repeat split; auto. }
  cbn [Wiring.run fold_left].
  destruct (wiring_step_invariants c s) as (Hkeep & Hledger & Hshop).
  destruct (Hkeep Hinit) as (Hinit' & Ho & Hc & Ht).
  destruct (IH _ Hinit') as ((H1 & H2 & H3 & H4) & H5 & H6).
  unfold Wiring.run in *.
  split; [repeat split; congruence|]. split.
  - intros Hset. destruct (Hledger Hinit Hset) as (Hset' & Hl & Hsys).
    destruct (H5 Hset') as (? & ? & ?). repeat split; congruence.
  - intros Hset. destruct (Hshop Hinit Hset) as (Hset' & Hl).
    destruct (H6 Hset') as (? & ?). repeat split; congruence.
Qed.

(** X19: the ledger and the shop registry are wired once. On an
    initialized contract, after the owner's setLedger the ledger
    reference is the address of that call if no ledger was set before and
    the earlier one otherwise (the call then returns without reverting
    and writes nothing), with the system account read from that ledger;
    after the owner's setShop the same holds of the shop reference. No
    later sequence of calls to initialize, setLedger, setShop and the
    upgrade guard, by whatever senders, changes them. *)
Theorem contracts_are_set_once s ledger shop calls :
  initialized s = true ->
  let afterLedger :=
    Wiring.run getSystemAccount calls
      (Wiring.commit (setLedger getSystemAccount (owner s) ledger s) s) in
  let afterShop :=
    Wiring.run getSystemAccount calls (Wiring.commit (setShop (owner s) shop s) s) in
  (isSetLedger afterLedger = true /\
   ledgerContract afterLedger = (if isSetLedger s then ledgerContract s else ledger) /\
   systemAccount afterLedger
     = (if isSetLedger s then systemAccount s else getSystemAccount ledger)) /\
  (isSetShop afterShop = true /\
   shopContract afterShop = (if isSetShop s then shopContract s else shop)) /\
  (isSetLedger s = true -> setLedger getSystemAccount (owner s) ledger s = Done s) /\
  (isSetShop s = true -> setShop (owner s) shop s = Done s).
Proof.
  intros Hinit. cbn zeta.
  unfold setLedger, setShop.
  rewrite (bool_decide_eq_true_2 (owner s = owner s) eq_refl).
  repeat split.
  1-3: destruct (isSetLedger s) eqn:Hset; cbn [negb Wiring.commit];
       match goal with
       | |- context [Wiring.run _ _ ?s1] =>
           destruct (wiring_run_invariants calls s1) as (_ & H & _);
           [try assumption; reflexivity|];
           destruct H as (? & ? & ?); [try assumption; reflexivity|];
           cbn in *; congruence
       end.
  1-2: destruct (isSetShop s) eqn:Hset; cbn [negb Wiring.commit];
       match goal with
       | |- context [Wiring.run _ _ ?s1] =>
           destruct (wiring_run_invariants calls s1) as (_ & _ & H);
           [try assumption; reflexivity|];
           destruct H as (? & ?); [try assumption; reflexivity|];
           cbn in *; congruence
       end.
  - intros ->. reflexivity.
  - intros ->. reflexivity.
Qed.



End WiringProperties.

(** * Properties of the relay *)

Section RelayProperties.
Import Relay.
Local Open Scope Z_scope.
Context {backend : Backend}.

(** ** Running a computation step by step *)

Lemma bind_ret {A B} (a : A) (k : A -> M B) n : bind (ret a) k n = k a n.
Proof. reflexivity. Qed.

Lemma bind_get {A B} (f : Node -> A) (k : A -> M B) n : bind (get f) k n = k (f n) n.
Proof. reflexivity. Qed.

Lemma bind_update {B} (f : Node -> Node) (k : unit -> M B) n :
  bind (update f) k n = k tt (f n).
Proof. reflexivity. Qed.

Lemma bind_logger {B} level message (k : unit -> M B) n :
  bind (logger level message) k n = k tt (add_logged level message n).
Proof. reflexivity. Qed.

Lemma bind_metrics_add {B} key value (k : unit -> M B) n :
  bind (metrics_add key value) k n = k tt (add_metric key value n).
Proof. reflexivity. Qed.

Lemma bind_await {A B} (r : Exn + A) (k : A -> M B) n :
  bind (await r) k n = match r with inl e => (Thrown e, n) | inr a => k a n end.
Proof. destruct r; reflexivity. Qed.

Lemma bind_bind {A B C} (m : M A) (f : A -> M B) (g : B -> M C) n :
  bind (bind m f) g n = bind m (fun a => bind (f a) g) n.
Proof. unfold bind. destruct (m n) as [[]]; reflexivity. Qed.

Lemma bind_getter {A B} (field : ContractManager -> option A) message (k : A -> M B) n :
  bind (getter field message) k n
  = match field (manager n) with
    | Some v => k v n
    | None => (Exited 1, add_logged "error" message n)
    end.
Proof. unfold getter, bind, get. destruct (field (manager n)); reflexivity. Qed.

Lemma bind_return_json {A B} body (k : A -> M B) n :
  bind (return_json body) k n = (Returned, add_response (mkResponse 200 body) n).
Proof. reflexivity. Qed.

(** Reads of an updated node. *)
Ltac node_simpl :=
  unfold set_using, add_metric, add_stored, add_relayed, add_response, add_logged in *;
  cbn [
    manager hre_provider signer_using metrics stored relayed responses logged config
    _sideTokenContract _sideLedgerContract _sidePhoneLinkerContract
    _sideCurrencyRateContract _sideShopContract _sideLoyaltyProviderContract
    _sideLoyaltyConsumerContract _sideLoyaltyExchangerContract
    _sideLoyaltyTransferContract _sideLoyaltyBridgeContract _sideChainBridgeContract
    _mainTokenContract _mainLoyaltyBridgeContract _mainChainBridgeContract
    _sideChainProvider _mainChainProvider _sideChainId _mainChainId _sideChainURL
    _mainChainURL _sideTokenId _mainTokenId fst snd
  ] in *.

Ltac node_simpl_in H :=
  unfold set_using, add_metric, add_stored, add_relayed, add_response, add_logged in H;
  cbn [
    manager hre_provider signer_using metrics stored relayed responses logged config
    _sideTokenContract _sideLedgerContract _sidePhoneLinkerContract
    _sideCurrencyRateContract _sideShopContract _sideLoyaltyProviderContract
    _sideLoyaltyConsumerContract _sideLoyaltyExchangerContract
    _sideLoyaltyTransferContract _sideLoyaltyBridgeContract _sideChainBridgeContract
    _mainTokenContract _mainLoyaltyBridgeContract _mainChainBridgeContract
    _sideChainProvider _mainChainProvider _sideChainId _mainChainId _sideChainURL
    _mainChainURL _sideTokenId _mainTokenId fst snd
  ] in H.

Lemma bind_check_validation {B} req (k : unit -> M B) n :
  bind (check_validation req) k n
  = match validation req with
    | [] => k tt n
    | _ :: _ =>
        (Returned, add_response (mkResponse 200 (ErrorMessage "2001" (Some (validation req)))) n)
    end.
Proof. unfold check_validation, bind. destruct (validation req); reflexivity. Qed.

Lemma run_return_json {A} body n :
  @return_json A body n = (Returned, add_response (mkResponse 200 body) n).
Proof. reflexivity. Qed.

Lemma run_update f n : update f n = (Normal tt, f n).
Proof. reflexivity. Qed.

Lemma run_ret {A} (a : A) n : ret a n = (Normal a, n).
Proof. reflexivity. Qed.

Ltac relay_step H :=
  match type of H with
  | context [bind ?m _ _] =>
      lazymatch m with
      | logger _ _ => rewrite bind_logger in H
      | await _ => rewrite bind_await in H
      | getter _ _ => rewrite bind_getter in H
      | get _ => rewrite bind_get in H
      | metrics_add _ _ => rewrite bind_metrics_add in H
      | update _ => rewrite bind_update in H
      | check_validation _ => rewrite bind_check_validation in H
      | return_json _ => rewrite bind_return_json in H
      | ret _ => rewrite bind_ret in H
      | bind _ _ => rewrite bind_bind in H
      end
  | context [return_json _ _] => rewrite run_return_json in H
  | context [update _ _] => rewrite run_update in H
  | context [ret _ _] => rewrite run_ret in H
  end;
  cbv beta iota zeta in H; node_simpl_in H.

Ltac relay_case H :=
  match type of H with
  | context [match ?x with Some _ => _ | None => _ end] =>
      match goal with E : x = Some _ |- _ => rewrite E in H end
  | context [match ?x with inl _ => _ | inr _ => _ end] => destruct x eqn:?
  | context [match ?x with Some _ => _ | None => _ end] => destruct x eqn:?
  | context [match ?x with [] => _ | _ :: _ => _ end] => destruct x eqn:?
  | context [if negb ?b then _ else _] => destruct b eqn:?; cbn [negb] in H
  | context [if ?b then _ else _] => destruct b eqn:?
  end; cbv beta iota zeta in H; try discriminate H.

Ltac relay_inv H := repeat (relay_step H || relay_case H).

(** Unfolds a handler down to the steps of the monad. *)
Ltac relay_unfold H :=
  unfold handler, provision_register, provision_balance, provision_status,
         provision_send_account, provision_send_phone_hash,
         try_catch, try_catch_finally, on_error, getRelaySigner, releaseRelaySigner,
         makeResponseData, sideChainProvider, sideLedgerContract, sideChainId,
         sideLoyaltyProviderContract, sideCurrencyRateContract in H.

(** X22: a completed attach leaves the manager ready. Every one of the
    twenty-two getters then returns without exiting and without touching
    the node; each side-chain contract handle sits at its configured
    address and is connected to the provider of the side-chain network,
    each main-chain handle to the provider of the main-chain network,
    which is the one hre.ethers.provider is left at. *)
Theorem attach_makes_the_manager_ready n n' :
  attach n = (Normal tt, n') ->
  let m := manager n' in
  config m = config (manager n) /\
  (exists sideProvider mainProvider,
     changeNetwork (network (sideChain (config m))) = inr sideProvider /\
     changeNetwork (network (mainChain (config m))) = inr mainProvider /\
     _sideChainProvider m = Some sideProvider /\
     _mainChainProvider m = Some mainProvider /\
     hre_provider n' = mainProvider /\
     Forall (bound_to sideProvider) (side_contracts m) /\
     Forall (bound_to mainProvider) (main_contracts m)) /\
  _sideChainURL m = Some (chain_url (sideChain (config m))) /\
  _mainChainURL m = Some (chain_url (mainChain (config m))) /\
  Forall (fun g => snd g n' = (Normal tt, n')) getters.
Proof.
  intros H.
  unfold attach, changeNetwork_to, assign in H.
  repeat (first [relay_step H | relay_case H];
          unfold set_manager, set_hre_provider,
            set_sideTokenContract, set_sideLedgerContract, set_sidePhoneLinkerContract,
            set_sideCurrencyRateContract, set_sideShopContract,
            set_sideLoyaltyProviderContract, set_sideLoyaltyConsumerContract,
            set_sideLoyaltyExchangerContract, set_sideLoyaltyTransferContract,
            set_sideLoyaltyBridgeContract, set_sideChainBridgeContract,
            set_mainTokenContract, set_mainLoyaltyBridgeContract,
            set_mainChainBridgeContract, set_sideChainProvider, set_mainChainProvider,
            set_sideChainId, set_mainChainId, set_sideChainURL, set_mainChainURL,
            set_sideTokenId, set_mainTokenId
            in H;
          cbn [
            manager hre_provider signer_using metrics stored relayed responses logged
            config _sideTokenContract _sideLedgerContract _sidePhoneLinkerContract
            _sideCurrencyRateContract _sideShopContract _sideLoyaltyProviderContract
            _sideLoyaltyConsumerContract _sideLoyaltyExchangerContract
            _sideLoyaltyTransferContract _sideLoyaltyBridgeContract
            _sideChainBridgeContract _mainTokenContract _mainLoyaltyBridgeContract
            _mainChainBridgeContract _sideChainProvider _mainChainProvider _sideChainId
            _mainChainId _sideChainURL _mainChainURL _sideTokenId _mainTokenId fst snd
          ] in H).
  pose proof (f_equal snd H) as Hn; cbn [snd] in Hn; clear H; subst n'.
  cbv zeta.
  unfold set_manager, set_hre_provider, add_logged,
    set_sideTokenContract, set_sideLedgerContract, set_sidePhoneLinkerContract,
    set_sideCurrencyRateContract, set_sideShopContract,
    set_sideLoyaltyProviderContract, set_sideLoyaltyConsumerContract,
    set_sideLoyaltyExchangerContract, set_sideLoyaltyTransferContract,
    set_sideLoyaltyBridgeContract, set_sideChainBridgeContract,
    set_mainTokenContract, set_mainLoyaltyBridgeContract,
    set_mainChainBridgeContract, set_sideChainProvider, set_mainChainProvider,
    set_sideChainId, set_mainChainId, set_sideChainURL, set_mainChainURL,
    set_sideTokenId, set_mainTokenId;
  cbn [
    manager hre_provider signer_using metrics stored relayed responses logged config
    _sideTokenContract _sideLedgerContract _sidePhoneLinkerContract
    _sideCurrencyRateContract _sideShopContract _sideLoyaltyProviderContract
    _sideLoyaltyConsumerContract _sideLoyaltyExchangerContract
    _sideLoyaltyTransferContract _sideLoyaltyBridgeContract _sideChainBridgeContract
    _mainTokenContract _mainLoyaltyBridgeContract _mainChainBridgeContract
    _sideChainProvider _mainChainProvider _sideChainId _mainChainId _sideChainURL
    _mainChainURL _sideTokenId _mainTokenId fst snd
  ].
  split; [reflexivity|].
  split.
  { eexists _, _. repeat split; try eassumption; try reflexivity;
      unfold side_contracts, main_contracts; cbn;
      repeat constructor; eexists; cbn; repeat split; reflexivity. }
  split; [reflexivity|]. split; [reflexivity|].
  (unfold getters; repeat constructor).
Qed.

(** X23: before attach no getter returns. On a manager that has only been
    constructed, each of the twenty-two getters logs one error and ends
    the process with code 1. The message names the getter, except for
    sideCurrencyRateContract, which reports sidePhoneLinkerContract, and
    sideLoyaltyExchangerContract, which reports
    sideLoyaltyConsumerContract. *)
Theorem getters_exit_before_attach cfg n :
  manager n = constructed cfg ->
  Forall (fun g =>
            snd g n = (Exited 1,
                       add_logged "error" (reported_name (fst g) ++ " is not ready yet.") n))
         getters.
Proof.
  intros Hm. unfold getters.
  repeat (constructor;
          [cbn [fst snd]; unfold touch;
           match goal with |- bind ?g _ _ = _ => unfold g end;
           rewrite bind_getter, Hm; reflexivity|]).
  constructor.
Qed.


(** ** The handlers *)

(** X24: a request that fails validation is answered and nothing else
    happens. On every route, and whatever the state of the manager, the
    handler logs the request, answers with status 200 and error "2001"
    carrying the validation errors, and returns: no signer is taken, no
    metric is recorded, nothing is stored or relayed. *)
Theorem invalid_request_is_rejected r req n :
  validation req <> [] ->
  exists line,
    handler r req n
    = (Returned,
       add_response (mkResponse 200 (ErrorMessage "2001" (Some (validation req))))
                    (add_logged "http" line n)).
Proof.
  intros Hbad.
  destruct r; cbn [handler];
    unfold provision_register, provision_balance, provision_status,
           provision_send_account, provision_send_phone_hash;
    rewrite bind_logger, bind_check_validation;
    (destruct (validation req) eqn:Hv; [congruence|]);
    eexists; reflexivity.
Qed.

(** X25: how a handler ends. It never changes the manager. When it
    returns it has sent exactly one response, with status 200. It lets an
    exception escape, unanswered, only when the signer pool rejects the
    request for a signer, which is made outside the try block; and it ends
    the process, unanswered, only through a getter of the manager, with
    code 1 and an error logged last. *)
Theorem handler_completion r req n c n' :
  handler r req n = (c, n') ->
  manager n' = manager n /\
  match c with
  | Normal _ => False
  | Returned =>
      exists resp, responses n' = (responses n ++ [resp])%list /\ http_status resp = 200
  | Thrown e =>
      responses n' = responses n /\ uses_signer r = true /\
      exists p, _sideChainProvider (manager n) = Some p /\
                getSigner p (signer_using n) = inl e
  | Exited code =>
      code = 1 /\ responses n' = responses n /\
      exists message, last (logged n') = Some ("error", message)
  end.
Proof.
  intros H. destruct r; relay_unfold H; relay_inv H;
    inversion H; subst; clear H; node_simpl;
    (split; [reflexivity|]);
    try (eexists; split; reflexivity);
    try (split; [reflexivity|split; [reflexivity|eexists; split; [reflexivity|eassumption]]]);
    try (split; [reflexivity|split; [reflexivity|eexists; apply last_snoc]]).
Qed.

Lemma getters_ready_fields n :
  Forall (fun g => snd g n = (Normal tt, n)) getters ->
  is_Some (_sideChainProvider (manager n)) /\
  is_Some (_sideLedgerContract (manager n)) /\
  is_Some (_sideChainId (manager n)) /\
  is_Some (_sideLoyaltyProviderContract (manager n)) /\
  is_Some (_sideCurrencyRateContract (manager n)).
Proof.
  intros H.
  pose proof (Forall_lookup_1 _ _ 5%nat _ H eq_refl) as H1.
  pose proof (Forall_lookup_1 _ _ 9%nat _ H eq_refl) as H2.
  pose proof (Forall_lookup_1 _ _ 6%nat _ H eq_refl) as H3.
  pose proof (Forall_lookup_1 _ _ 13%nat _ H eq_refl) as H4.
  pose proof (Forall_lookup_1 _ _ 11%nat _ H eq_refl) as H5.
  cbn [snd] in *.
  unfold touch, sideChainProvider, sideLedgerContract, sideChainId,
         sideLoyaltyProviderContract, sideCurrencyRateContract in *.
  rewrite bind_getter in H1; rewrite bind_getter in H2; rewrite bind_getter in H3;
  rewrite bind_getter in H4; rewrite bind_getter in H5.
  repeat split;
    match goal with
    | |- is_Some ?f => destruct f; [eauto|discriminate]
    end.
Qed.

(** X26: the handlers need an attached manager. On a manager that has
    only been constructed, every request that passes validation ends the
    process with code 1 on every route, unanswered and without taking a
    signer. On a manager whose getters all return, no request ends the
    process. *)
Theorem handlers_need_an_attached_manager r req n :
  (forall cfg, manager n = constructed cfg -> validation req = [] ->
     exists n', handler r req n = (Exited 1, n') /\
                responses n' = responses n /\ signer_using n' = signer_using n) /\
  (Forall (fun g => snd g n = (Normal tt, n)) getters ->
     forall c n', handler r req n = (c, n') -> forall code, c <> Exited code).
Proof.
  split.
  - intros cfg Hm Hv.
    destruct r; cbn [handler];
      unfold provision_register, provision_balance, provision_status,
             provision_send_account, provision_send_phone_hash,
             try_catch, try_catch_finally, sideChainProvider, sideLedgerContract;
      rewrite bind_logger, bind_check_validation, Hv;
      rewrite ?bind_getter; node_simpl; rewrite Hm; cbn;
      eexists; repeat split; reflexivity.
  - intros Hready c n' H code ->.
    destruct (getters_ready_fields n Hready)
      as ([p Hp] & [l Hl] & [i Hi] & [lp Hlp] & [cr Hcr]).
    destruct r; relay_unfold H;
      relay_inv H; try congruence.
Qed.

(** X27: the relay signer is given back. A handler that takes no signer,
    or that rejects the request at validation, leaves the signer pool as
    it was. A handler that takes one and returns, whether it answered
    with a result, a rejection or a caught error, has set the using flag
    of the item it was handed to false, the other flags being those the
    pool left. *)
Theorem signer_is_released r req n c n' :
  handler r req n = (c, n') ->
  (uses_signer r = false \/ validation req <> [] ->
     signer_using n' = signer_using n) /\
  (uses_signer r = true -> validation req = [] -> c = Returned ->
     exists p item flags,
       _sideChainProvider (manager n) = Some p /\
       getSigner p (signer_using n) = inr (item, flags) /\
       signer_using n' = <[item := false]> flags).
Proof.
  intros H. destruct r; relay_unfold H; relay_inv H;
    inversion H; subst; clear H; node_simpl; cbn [uses_signer];
    (split; [intros [?|?]; congruence || reflexivity
            |intros; try discriminate; try congruence]);
    try reflexivity;
    match goal with
    | Hs : getSigner _ _ = inr ?h |- _ =>
        destruct h; eexists _, _, _;
        split; [reflexivity|split; [eassumption|reflexivity]]
    end.
Qed.

(** X28: nothing is relayed without a verified signature. A handler
    submits at most one transaction, and only on the two send routes:
    provideToAddress or provideToPhone of the LoyaltyProvider contract,
    with the trimmed provider, receiver and signature of the request and
    the parsed amount, signed by the relay signer the pool handed it. It
    does so only after verifyMessage accepted the signature for the
    provider's provision agent, or for the provider when the agent is the
    zero address, over the message that carries that account's current
    nonce and the chain id. *)
Theorem relay_requires_verified_signature r req n c n' :
  handler r req n = (c, n') ->
  relayed n' = relayed n \/
  exists method getMessage p item flags ledger contract agent0 amount nonce chainId,
    let provider := trim (req_provider req) in
    let receiver := trim (req_receiver req) in
    let signature := trim (req_signature req) in
    let agent := if String.eqb agent0 AddressZero then provider else agent0 in
    (r = POST_provision_send_account /\ method = "provideToAddress" /\
     getMessage = getProvidePointToAddressMessage \/
     r = POST_provision_send_phoneHash /\ method = "provideToPhone" /\
     getMessage = getProvidePointToPhoneMessage) /\
    validation req = [] /\
    _sideChainProvider (manager n) = Some p /\
    getSigner p (signer_using n) = inr (item, flags) /\
    _sideLedgerContract (manager n) = Some ledger /\
    _sideChainId (manager n) = Some chainId /\
    _sideLoyaltyProviderContract (manager n) = Some contract /\
    BigNumber_from (req_amount req) = inr amount /\
    provisionAgentOf ledger provider = inr agent0 /\
    nonceOf ledger agent = inr nonce /\
    verifyMessage agent (getMessage provider receiver amount nonce chainId) signature
      = true /\
    relayed n' = (relayed n ++ [mkRelayed method contract item provider receiver amount
                                          signature])%list /\
    c = Returned.
Proof.
  intros H. destruct r; relay_unfold H; relay_inv H;
    inversion H; subst; clear H; node_simpl;
    first
      [ left; reflexivity
      | right;
        match goal with
        | Hs : getSigner _ _ = inr ?h |- _ => destruct h
        end;
        eexists _, _, _, _, _, _, _, _, _, _, _; cbv zeta;
        split; [first [left; repeat split; reflexivity | right; repeat split; reflexivity]|];
        repeat split; try eassumption; try reflexivity ].
Qed.

(** X29: a provider is stored only when verified and funded. A handler
    calls storage.postNewProvider at most once, and only on the register
    route, after verifyMessage accepted the signature for the provider
    itself over the message carrying the provider's nonce and the chain
    id, and the provider's token balance was not below the configured
    minimum; the request is then answered with code 0 and the provider. *)
Theorem register_stores_verified_funded_provider r req n c n' :
  handler r req n = (c, n') ->
  stored n' = stored n \/
  exists ledger nonce chainId balance,
    let provider := trim (req_provider req) in
    r = POST_provision_register /\
    validation req = [] /\
    _sideLedgerContract (manager n) = Some ledger /\
    _sideChainId (manager n) = Some chainId /\
    nonceOf ledger provider = inr nonce /\
    verifyMessage provider (getRegisterProviderMessage provider nonce chainId)
                  (trim (req_signature req)) = true /\
    tokenBalanceOf ledger provider = inr balance /\
    minimumBalance <= balance /\
    postNewProvider provider = inr tt /\
    stored n' = (stored n ++ [provider])%list /\
    last (responses n')
      = Some (mkResponse 200 (makeResponseData 0 (Some (RegisterData provider)) None)).
Proof.
  intros H. destruct r; relay_unfold H; relay_inv H;
    inversion H; subst; clear H; node_simpl;
    first
      [ left; reflexivity
      | right; eexists _, _, _, _; cbv zeta;
        repeat match goal with u : unit |- _ => destruct u end;
        repeat split; try eassumption; try reflexivity;
        try (apply Z.ltb_ge; assumption); try apply last_snoc ].
Qed.

(** X30: what the metrics count. A handler records at most one metric:
    success with a response of code 0 that carries data, failure with a
    response built from the caught error. A request rejected at
    validation ("2001"), for its signature ("1501") or for the provider's
    balance ("1511") is answered and counted as neither. *)
Theorem metrics_accounting r req n c n' :
  handler r req n = (c, n') ->
  (metrics n' = metrics n /\
   (c = Returned ->
    exists code details,
      last (responses n') = Some (mkResponse 200 (ErrorMessage code details)) /\
      (code = "2001" \/ code = "1501" \/ code = "1511"))) \/
  (metrics n' = (metrics n ++ [("success", 1)])%list /\ c = Returned /\
   exists data,
     last (responses n') = Some (mkResponse 200 (ResponseData 0 (Some data) None))) \/
  (metrics n' = (metrics n ++ [("failure", 1)])%list /\ c = Returned /\
   exists e,
     last (responses n')
       = Some (mkResponse 200 (ResponseData (fst (getEVMErrorMessage e)) None
                                            (Some (snd (getEVMErrorMessage e)))))).
Proof.
  intros H. destruct r; relay_unfold H; relay_inv H;
    inversion H; subst; clear H; node_simpl;
    first
      [ left; split; [reflexivity|]; intros Hc; try discriminate Hc;
        (eexists _, _; split; [apply last_snoc|]; auto)
      | right; left; split; [reflexivity|]; split; [reflexivity|];
        eexists; apply last_snoc
      | right; right; split; [reflexivity|]; split; [reflexivity|];
        eexists; apply last_snoc ].
Qed.

End RelayProperties.

(** * The sample deployment, transaction by transaction *)

(** C2, as stated, fails: settling the sample payment takes the escrowed
    101 points out of the temporary account and credits no account, so the
    total point supply drops from 1000 to 899. *)
Lemma settle_burns_escrow_sample :
  closeNewLoyaltyPayment (crypto := sample_crypto) (currencyRateContract := sample_rate)
    sample_paymentId sample_secret true sample_opened = Ok tt sample_settled /\
  totalPoints sample_settled <> totalPoints sample_opened /\
  totalPoints sample_opened = 1000 * unit18 /\
  pointBalanceOf address0 sample_opened = 101 * unit18 /\
  totalPoints sample_settled = 899 * unit18 /\
  pointBalanceOf address0 sample_settled = 0 /\
  pointBalanceOf alice sample_settled = pointBalanceOf alice sample_opened /\
  pointBalanceOf systemAcc sample_settled = 0 /\
  pointBalanceOf feeCollector sample_settled = 0 /\
  pointBalanceOf shopOwner sample_settled = 0.
Proof. vm_compute. repeat split; (reflexivity || discriminate). Qed.

(** The five transitions of the sample payment, each with the supply change
    the code makes. *)
Lemma point_supply_by_transition_sample :
  totalPoints sample_opened = totalPoints sample_world /\
  totalPoints sample_refunded = totalPoints sample_opened /\
  totalPoints sample_settled + escrow (loyaltyPaymentOf sample_paymentId sample_opened)
    = totalPoints sample_opened /\
  totalPoints sample_cancelling
    = totalPoints sample_settled + escrow (loyaltyPaymentOf sample_paymentId sample_settled) /\
  totalPoints sample_cancel_rejected
    + escrow (loyaltyPaymentOf sample_paymentId sample_cancelling)
    = totalPoints sample_cancelling.
Proof.
  destruct (point_supply_by_transition (crypto := sample_crypto)
              (currencyRateContract := sample_rate) (dms := sample_dms))
    as (Hopen & Hrefund & Hsettle & Hcancel & Hreject).
  split; [apply (Hopen sample_block sample_request); vm_compute; reflexivity|].
  split; [apply (Hrefund sample_paymentId sample_secret); vm_compute; reflexivity|].
  split; [apply (Hsettle sample_paymentId sample_secret); vm_compute; reflexivity|].
  split; [apply (Hcancel cancel_block sample_paymentId cancel_lock owner_signature);
          vm_compute; reflexivity|].
  apply (Hreject sample_paymentId cancel_secret); vm_compute; reflexivity.
Defined.

(** Settling the sample payment when the system account holds no token. *)
Lemma closePayment_settles_without_fee_distribution_sample :
  tokenBalanceOf systemAcc poor_opened
    < feeToken (loyaltyPaymentOf sample_paymentId poor_opened) /\
  exists w',
    closeNewLoyaltyPayment (crypto := sample_crypto) (currencyRateContract := sample_rate)
      sample_paymentId sample_secret true poor_opened = Ok tt w' /\
    (forall a, tokenBalanceOf a w' = tokenBalanceOf a poor_opened) /\
    pointBalanceOf address0 w' = 0 /\
    status (loyaltyPaymentOf sample_paymentId w') = CLOSED_PAYMENT /\
    usedLedger (shopContract w') = [mkUsageEntry shop7 (100 * unit18) "P-1" sample_paymentId false].
Proof.
  split; [vm_compute; reflexivity|].
  destruct (closePayment_settles_without_fee_distribution
              (crypto := sample_crypto) (currencyRateContract := sample_rate)
              sample_paymentId sample_secret poor_opened)
    as (w' & Hrun & Htokens & Htemp & _ & Hstatus & Hactive & _).
  - vm_compute; reflexivity.
  - vm_compute; reflexivity.
  - vm_compute; reflexivity.
  - vm_compute; discriminate.
  - vm_compute; discriminate.
  - exists w'. split; [exact Hrun|]. split; [exact Htokens|].
    split; [etransitivity; [exact Htemp|vm_compute; reflexivity]|].
    split; [exact Hstatus|].
    destruct Hactive as [Hused _]; [vm_compute; reflexivity|].
    rewrite Hused. vm_compute. reflexivity.
Defined.

(** The shop owner's cancel request against an empty fee-collection account
    and against a funded one. *)
Lemma openCancel_fee_account_check_sample :
  (tokenBalanceOf feeCollector poor_settled
     < feeToken (loyaltyPaymentOf sample_paymentId poor_settled) /\
   (exists w0,
      openCancelLoyaltyPayment (crypto := sample_crypto) cancel_block sample_paymentId
        cancel_lock owner_signature poor_settled = Revert (Require_failed "1513") w0 /\
      nonceOf shopOwner w0 = 1) /\
   nonceOf shopOwner poor_settled = 0 /\
   commit (openCancelLoyaltyPayment (crypto := sample_crypto) cancel_block
             sample_paymentId cancel_lock owner_signature) poor_settled = poor_settled) /\
  (feeToken (loyaltyPaymentOf sample_paymentId sample_settled)
     <= tokenBalanceOf feeCollector sample_settled /\
   exists w',
     openCancelLoyaltyPayment (crypto := sample_crypto) cancel_block sample_paymentId
       cancel_lock owner_signature sample_settled = Ok tt w' /\
     tokenBalanceOf feeCollector w' = 0 /\
     tokenBalanceOf address0 w' = 1 * unit18 /\
     pointBalanceOf address0 w' = 101 * unit18 /\
     secretLock (loyaltyPaymentOf sample_paymentId w') = cancel_lock /\
     status (loyaltyPaymentOf sample_paymentId w') = OPENED_CANCEL).
Proof.
  assert (Hwindow : forall w,
             timestamp (loyaltyPaymentOf sample_paymentId w) = 1700000000 ->
             within_cancel_window cancel_block (loyaltyPaymentOf sample_paymentId w)).
  { intros w Hts. unfold within_cancel_window. rewrite Hts.
    split; vm_compute; discriminate. }
  split.
  - destruct (openCancel_fee_account_check (crypto := sample_crypto) cancel_block
                sample_paymentId cancel_lock owner_signature poor_settled)
      as [Hshort _].
    assert (Hlt : tokenBalanceOf feeCollector poor_settled
                  < feeToken (loyaltyPaymentOf sample_paymentId poor_settled))
      by (vm_compute; reflexivity).
    destruct (Hshort Hlt) as (_ & Hcommit & Hcode).
    split; [exact Hlt|]. split; [|split; [vm_compute; reflexivity|exact Hcommit]].
    destruct Hcode as (w0 & Hrun & Hnonce).
    + apply Hwindow. vm_compute. reflexivity.
    + exists true, false. vm_compute. repeat split; reflexivity.
    + exists w0. split; [exact Hrun|].
      etransitivity; [exact Hnonce|vm_compute; reflexivity].
  - destruct (openCancel_fee_account_check (crypto := sample_crypto) cancel_block
                sample_paymentId cancel_lock owner_signature sample_settled)
      as [_ Hfunded].
    assert (Hle : feeToken (loyaltyPaymentOf sample_paymentId sample_settled)
                  <= tokenBalanceOf feeCollector sample_settled)
      by (vm_compute; discriminate).
    destruct (Hfunded Hle) as (w' & Hrun & Htokens & _ & Hpoints & Hlock & Hstatus).
    + apply Hwindow. vm_compute. reflexivity.
    + exists true, false. vm_compute. repeat split; reflexivity.
    + vm_compute; discriminate.
    + split; [exact Hle|]. exists w'. split; [exact Hrun|].
      destruct Htokens as [Hfee Htemp]; [vm_compute; discriminate|].
      split; [etransitivity; [exact Hfee|vm_compute; reflexivity]|].
      split; [etransitivity; [exact Htemp|vm_compute; reflexivity]|].
      split; [etransitivity; [exact Hpoints|vm_compute; reflexivity]|].
      split; [exact Hlock|exact Hstatus].
Defined.

(** alice's request opens the sample payment: 101 points go into escrow. *)
Lemma openNewLoyaltyPayment_effects_sample :
  status (loyaltyPaymentOf sample_paymentId sample_world) = INVALID /\
  exists w',
    openNewLoyaltyPayment (crypto := sample_crypto) (currencyRateContract := sample_rate)
      (dms := sample_dms) sample_block sample_request sample_world = Ok tt w' /\
    status (loyaltyPaymentOf sample_paymentId w') = OPENED_PAYMENT /\
    pointBalanceOf address0 w' = 101 * unit18 /\
    pointBalanceOf alice w' = 899 * unit18 /\
    nonceOf alice w' = 1.
Proof.
  split; [vm_compute; reflexivity|].
  destruct (openNewLoyaltyPayment_effects (crypto := sample_crypto)
              (currencyRateContract := sample_rate) (dms := sample_dms)
              sample_block sample_request sample_world)
    as (w' & Hrun & Hstatus & Htemp & Hpayer & Hnonce).
  - vm_compute; reflexivity.
  - vm_compute; reflexivity.
  - vm_compute; discriminate.
  - vm_compute; discriminate.
  - vm_compute; discriminate.
  - vm_compute; discriminate.
  - exists w'. split; [exact Hrun|]. split; [exact Hstatus|].
    split; [etransitivity; [exact Htemp|vm_compute; reflexivity]|].
    split; [etransitivity; [exact Hpayer|vm_compute; reflexivity]|].
    etransitivity; [exact Hnonce|vm_compute; reflexivity].
Defined.

(** Closing the opened sample payment with a wrong secret. *)
Lemma close_with_wrong_secret_reverts_sample :
  secretLock (loyaltyPaymentOf sample_paymentId sample_opened)
    <> sample_keccak256 [abi_bytes32 1] /\
  closeNewLoyaltyPayment (crypto := sample_crypto) (currencyRateContract := sample_rate)
    sample_paymentId 1 true sample_opened
    = Revert (Require_failed "1505") sample_opened /\
  closeCancelLoyaltyPayment (crypto := sample_crypto)
    sample_paymentId 1 true sample_opened
    = Revert (Require_failed "1533") sample_opened /\
  commit (closeNewLoyaltyPayment (crypto := sample_crypto)
            (currencyRateContract := sample_rate) sample_paymentId 1 true)
         sample_opened = sample_opened /\
  commit (closeCancelLoyaltyPayment (crypto := sample_crypto) sample_paymentId 1 true)
         sample_opened = sample_opened.
Proof.
  assert (Hne : secretLock (loyaltyPaymentOf sample_paymentId sample_opened)
                <> sample_keccak256 [abi_bytes32 1]) by (vm_compute; discriminate).
  split; [exact Hne|].
  exact (close_with_wrong_secret_reverts (crypto := sample_crypto)
           (currencyRateContract := sample_rate) sample_paymentId 1 true sample_opened Hne).
Defined.

(** Opening then refunding the sample payment. *)
Lemma open_then_refund_restores_payer_sample :
  openNewLoyaltyPayment (crypto := sample_crypto) (currencyRateContract := sample_rate)
    (dms := sample_dms) sample_block sample_request sample_world
    = Ok tt sample_opened /\
  exists w2,
    closeNewLoyaltyPayment (crypto := sample_crypto) (currencyRateContract := sample_rate)
      sample_paymentId sample_secret false sample_opened = Ok tt w2 /\
    pointBalanceOf alice w2 = pointBalanceOf alice sample_world /\
    status (loyaltyPaymentOf sample_paymentId w2) = FAILED_PAYMENT.
Proof.
  assert (Hopen : openNewLoyaltyPayment (crypto := sample_crypto)
                    (currencyRateContract := sample_rate) (dms := sample_dms)
                    sample_block sample_request sample_world = Ok tt sample_opened)
    by (vm_compute; reflexivity).
  split; [exact Hopen|].
  destruct (open_then_refund_restores_payer (crypto := sample_crypto)
              (currencyRateContract := sample_rate) (dms := sample_dms)
              sample_block sample_request sample_secret sample_world sample_opened Hopen)
    as (w2 & Hrun & Hpayer & Hstatus & _).
  - vm_compute; reflexivity.
  - exists w2. split; [exact Hrun|]. split; [exact Hpayer|exact Hstatus].
Defined.

(** A cancel request one second after the window has closed. *)
Lemma openCancel_after_window_sample :
  timestamp (loyaltyPaymentOf sample_paymentId sample_settled) + 86400 * 7
    < block_timestamp late_block /\
  openCancelLoyaltyPayment (crypto := sample_crypto) late_block sample_paymentId
    cancel_lock owner_signature sample_settled
    = Revert (Require_failed "1534") sample_settled /\
  commit (openCancelLoyaltyPayment (crypto := sample_crypto) late_block sample_paymentId
            cancel_lock owner_signature) sample_settled = sample_settled.
Proof.
  assert (Hlate : timestamp (loyaltyPaymentOf sample_paymentId sample_settled) + 86400 * 7
                  < block_timestamp late_block) by (vm_compute; reflexivity).
  split; [exact Hlate|].
  apply (openCancel_after_window (crypto := sample_crypto)); [exact Hlate|].
  vm_compute; discriminate.
Defined.

(** Rejecting the cancellation the shop owner opened. *)
Lemma closeCancel_rejection_frame_sample :
  status (loyaltyPaymentOf sample_paymentId sample_cancelling) = OPENED_CANCEL /\
  exists w',
    closeCancelLoyaltyPayment (crypto := sample_crypto) sample_paymentId cancel_secret
      false sample_cancelling = Ok tt w' /\
    pointBalanceOf alice w' = pointBalanceOf alice sample_cancelling /\
    shopContract w' = shopContract sample_cancelling /\
    pointBalanceOf address0 w' = 0 /\
    tokenBalanceOf feeCollector w' = 1 * unit18 /\
    status (loyaltyPaymentOf sample_paymentId w') = FAILED_CANCEL /\
    emitted w'
      = (emitted sample_cancelling
           ++ [mkLoyaltyPaymentEvent (loyaltyPaymentOf sample_paymentId w')
                 (pointBalanceOf alice sample_cancelling)])%list.
Proof.
  split; [vm_compute; reflexivity|].
  destruct (closeCancel_rejection_frame (crypto := sample_crypto)
              sample_paymentId cancel_secret sample_cancelling)
    as (w' & Hrun & Hpayer & Hshop & Htemp & _ & Htokens & _ & _ & Hrecord & _ & Hevent).
  - vm_compute; reflexivity.
  - vm_compute; reflexivity.
  - vm_compute; discriminate.
  - vm_compute; discriminate.
  - vm_compute; discriminate.
  - vm_compute; discriminate.
  - exists w'. split; [exact Hrun|]. split; [exact Hpayer|]. split; [exact Hshop|].
    split; [etransitivity; [exact Htemp|vm_compute; reflexivity]|].
    destruct Htokens as [_ Hfee]; [vm_compute; discriminate|].
    split; [etransitivity; [exact Hfee|vm_compute; reflexivity]|].
    split; [rewrite Hrecord; reflexivity|exact Hevent].
Defined.

(** C9: the nonce openCancelLoyaltyPayment consumes is always the shop
    account's. On the settled sample payment, a cancel request signed by
    the shop's delegate (the check against the shop account fails, the
    check against the delegator passes) commits, increments the shop
    account's nonce and leaves the delegate's nonce where it was, so the
    very same signature still passes the delegator check afterwards. *)
Theorem openCancel_by_delegate_consumes_owner_nonce_sample :
  cancel_pass1 (crypto := sample_crypto) cancel_block sample_paymentId
    delegate_signature sample_settled = Some false /\
  cancel_pass2 (crypto := sample_crypto) cancel_block sample_paymentId
    delegate_signature sample_settled = Some true /\
  openCancelLoyaltyPayment (crypto := sample_crypto) cancel_block sample_paymentId
    cancel_lock delegate_signature sample_settled
    = Ok tt sample_cancelling_by_delegate /\
  nonceOf shopDelegate sample_settled = 0 /\
  nonceOf shopDelegate sample_cancelling_by_delegate = 0 /\
  nonceOf shopOwner sample_settled = 0 /\
  nonceOf shopOwner sample_cancelling_by_delegate = 1 /\
  cancel_pass2 (crypto := sample_crypto) cancel_block sample_paymentId
    delegate_signature sample_cancelling_by_delegate = Some true.
Proof. vm_compute. repeat split; reflexivity. Qed.

(** The sample paymentId, once opened, cannot be opened again. *)
Lemma openNewLoyaltyPayment_taken_id_sample :
  isAvailablePaymentId sample_paymentId sample_opened = false /\
  openNewLoyaltyPayment (crypto := sample_crypto) (currencyRateContract := sample_rate)
    (dms := sample_dms) sample_block repeat_request sample_opened
    = Revert (Require_failed "1530") sample_opened /\
  commit (openNewLoyaltyPayment (crypto := sample_crypto)
            (currencyRateContract := sample_rate) (dms := sample_dms)
            sample_block repeat_request) sample_opened = sample_opened.
Proof.
  split; [vm_compute; reflexivity|].
  apply (openNewLoyaltyPayment_taken_id (crypto := sample_crypto)
           (currencyRateContract := sample_rate) (dms := sample_dms)
           sample_block repeat_request sample_opened).
  vm_compute; reflexivity.
Defined.

(** alice's request signed by the shop owner, and with an empty signature. *)
Lemma openNewLoyaltyPayment_bad_signature_sample :
  (openNewLoyaltyPayment (crypto := sample_crypto) (currencyRateContract := sample_rate)
     (dms := sample_dms) sample_block forged_request sample_world
     = Revert (Require_failed "1501") sample_world /\
   commit (openNewLoyaltyPayment (crypto := sample_crypto)
             (currencyRateContract := sample_rate) (dms := sample_dms)
             sample_block forged_request) sample_world = sample_world) /\
  (openNewLoyaltyPayment (crypto := sample_crypto) (currencyRateContract := sample_rate)
     (dms := sample_dms) sample_block malformed_request sample_world
     = Revert ECDSA_invalid_signature sample_world /\
   commit (openNewLoyaltyPayment (crypto := sample_crypto)
             (currencyRateContract := sample_rate) (dms := sample_dms)
             sample_block malformed_request) sample_world = sample_world).
Proof.
  split.
  - apply (openNewLoyaltyPayment_bad_signature (crypto := sample_crypto)
             (currencyRateContract := sample_rate) (dms := sample_dms)
             sample_block forged_request sample_world).
    + vm_compute; reflexivity.
    + vm_compute; discriminate.
  - apply (openNewLoyaltyPayment_bad_signature (crypto := sample_crypto)
             (currencyRateContract := sample_rate) (dms := sample_dms)
             sample_block malformed_request sample_world).
    + vm_compute; reflexivity.
    + vm_compute; discriminate.
Defined.

(** alice asks to pay 2000 units while holding 1000 points. *)
Lemma openNewLoyaltyPayment_insufficient_balance_sample :
  pointBalanceOf alice sample_world < 2020 * unit18 /\
  (exists w0,
     openNewLoyaltyPayment (crypto := sample_crypto) (currencyRateContract := sample_rate)
       (dms := sample_dms) sample_block large_request sample_world
       = Revert (Require_failed "1511") w0 /\
     nonceOf alice w0 = 1) /\
  nonceOf alice sample_world = 0 /\
  commit (openNewLoyaltyPayment (crypto := sample_crypto)
            (currencyRateContract := sample_rate) (dms := sample_dms)
            sample_block large_request) sample_world = sample_world.
Proof.
  split; [vm_compute; reflexivity|].
  destruct (openNewLoyaltyPayment_insufficient_balance (crypto := sample_crypto)
              (currencyRateContract := sample_rate) (dms := sample_dms)
              sample_block large_request sample_world)
    as ((w0 & Hrun & Hnonce & _) & Hcommit).
  - vm_compute; reflexivity.
  - vm_compute; reflexivity.
  - vm_compute; discriminate.
  - vm_compute; discriminate.
  - vm_compute; reflexivity.
  - split; [|split; [vm_compute; reflexivity|exact Hcommit]].
    exists w0. split; [exact Hrun|].
    etransitivity; [exact Hnonce|vm_compute; reflexivity].
Defined.

(** What the committed open of the sample payment shows about its input. *)
Lemma openNewLoyaltyPayment_only_if_sample :
  isAvailablePaymentId sample_paymentId sample_world = true /\
  ECDSA_recover (Crypto := sample_crypto)
    (toEthSignedMessageHash (Crypto := sample_crypto)
       (paymentDataHash (crypto := sample_crypto) sample_block sample_request
          (nonceOf alice sample_world)))
    (in_signature sample_request) = Some alice /\
  escrow (loyaltyPaymentOf sample_paymentId sample_opened)
    <= pointBalanceOf alice sample_world /\
  account (loyaltyPaymentOf sample_paymentId sample_opened) = alice.
Proof.
  apply (openNewLoyaltyPayment_only_if (crypto := sample_crypto)
           (currencyRateContract := sample_rate) (dms := sample_dms)
           sample_block sample_request sample_world sample_opened).
  vm_compute; reflexivity.
Defined.

(** The record of the sample payment: 100 points paid, 1 point fee. *)
Lemma openNewLoyaltyPayment_record_sample :
  loyaltyPaymentOf sample_paymentId sample_opened
    = {| paymentId := sample_paymentId;
         purchaseId := "P-1";
         currency := "krw";
         shopId := shop7;
         account := alice;
         secretLock := sample_keccak256 [abi_bytes32 sample_secret];
         timestamp := 1700000000;
         paidPoint := 100 * unit18;
         paidToken := 100 * unit18;
         paidValue := 100 * unit18;
         feePoint := 1 * unit18;
         feeToken := 1 * unit18;
         feeValue := 1 * unit18;
         usedValueShop := 0;
         status := OPENED_PAYMENT |} /\
  (forall other, other <> sample_paymentId ->
     loyaltyPaymentOf other sample_opened = loyaltyPaymentOf other sample_world).
Proof.
  destruct (openNewLoyaltyPayment_record (crypto := sample_crypto)
              (currencyRateContract := sample_rate) (dms := sample_dms)
              sample_block sample_request sample_world sample_opened)
    as [Hrecord Hothers].
  - vm_compute; reflexivity.
  - split; [|exact Hothers].
    etransitivity; [exact Hrecord|vm_compute; reflexivity].
Defined.

(** Closing the settled sample payment, and confirming a cancellation
    that was never opened. *)
Lemma close_in_wrong_status_sample :
  (closeNewLoyaltyPayment (crypto := sample_crypto) (currencyRateContract := sample_rate)
     sample_paymentId sample_secret false sample_settled
     = Revert (Require_failed "1531") sample_settled /\
   commit (closeNewLoyaltyPayment (crypto := sample_crypto)
             (currencyRateContract := sample_rate)
             sample_paymentId sample_secret false) sample_settled = sample_settled) /\
  (closeCancelLoyaltyPayment (crypto := sample_crypto)
     sample_paymentId sample_secret false sample_settled
     = Revert (Require_failed "1533") sample_settled /\
   commit (closeCancelLoyaltyPayment (crypto := sample_crypto)
             sample_paymentId sample_secret false) sample_settled = sample_settled).
Proof.
  destruct (close_in_wrong_status (crypto := sample_crypto)
              (currencyRateContract := sample_rate)
              sample_paymentId sample_secret false sample_settled) as [Hnew Hcancel].
  split; [apply Hnew|apply Hcancel]; vm_compute; discriminate.
Defined.

(** After the sample payment is settled, neither close succeeds on it. *)
Lemma close_is_final_sample :
  closeNewLoyaltyPayment (crypto := sample_crypto) (currencyRateContract := sample_rate)
    sample_paymentId sample_secret false sample_settled
    = Revert (Require_failed "1531") sample_settled /\
  closeCancelLoyaltyPayment (crypto := sample_crypto)
    sample_paymentId sample_secret false sample_settled
    = Revert (Require_failed "1533") sample_settled.
Proof.
  apply (close_is_final (crypto := sample_crypto) (currencyRateContract := sample_rate)
           sample_paymentId sample_secret true sample_opened sample_settled).
  left. vm_compute; reflexivity.
Defined.

(** Settling the sample payment: the 1-token fee goes from the system
    account to the fee-collection account. *)
Lemma closePayment_settles_with_fee_distribution_sample :
  exists w',
    closeNewLoyaltyPayment (crypto := sample_crypto) (currencyRateContract := sample_rate)
      sample_paymentId sample_secret true sample_opened = Ok tt w' /\
    tokenBalanceOf systemAcc w' = 49 * unit18 /\
    tokenBalanceOf feeCollector w' = 1 * unit18 /\
    pointBalanceOf address0 w' = 0 /\
    status (loyaltyPaymentOf sample_paymentId w') = CLOSED_PAYMENT.
Proof.
  destruct (closePayment_settles_with_fee_distribution (crypto := sample_crypto)
              (currencyRateContract := sample_rate)
              sample_paymentId sample_secret sample_opened)
    as (w' & Hrun & Htokens & _ & Htemp & _ & _ & Hstatus).
  - vm_compute; reflexivity.
  - vm_compute; reflexivity.
  - vm_compute; discriminate.
  - vm_compute; discriminate.
  - vm_compute; discriminate.
  - destruct Htokens as [Hsystem Hfee]; [vm_compute; discriminate|].
    exists w'. split; [exact Hrun|].
    split; [etransitivity; [exact Hsystem|vm_compute; reflexivity]|].
    split; [etransitivity; [exact Hfee|vm_compute; reflexivity]|].
    split; [etransitivity; [exact Htemp|vm_compute; reflexivity]|exact Hstatus].
Defined.

(** Confirming the cancellation of the sample payment: alice is back at
    1000 points while the temporary account keeps its 101 points. *)
Lemma closeCancel_confirmation_effects_sample :
  exists w',
    closeCancelLoyaltyPayment (crypto := sample_crypto)
      sample_paymentId cancel_secret true sample_cancelling = Ok tt w' /\
    pointBalanceOf alice w' = 1000 * unit18 /\
    pointBalanceOf address0 w' = 101 * unit18 /\
    tokenBalanceOf address0 w' = 0 /\
    tokenBalanceOf systemAcc w' = 50 * unit18 /\
    usedLedger (shopContract w')
      = [mkUsageEntry shop7 (100 * unit18) "P-1" sample_paymentId false;
         mkUsageEntry shop7 (100 * unit18) "P-1" sample_paymentId true] /\
    status (loyaltyPaymentOf sample_paymentId w') = CLOSED_CANCEL.
Proof.
  destruct (closeCancel_confirmation_effects (crypto := sample_crypto)
              sample_paymentId cancel_secret sample_cancelling)
    as (w' & Hrun & Hpayer & Hpoints & Htokens & _ & Hledger & Hrecord & _).
  - vm_compute; reflexivity.
  - vm_compute; reflexivity.
  - vm_compute; discriminate.
  - vm_compute; discriminate.
  - destruct Htokens as [Htemp Hsystem]; [vm_compute; discriminate|].
    exists w'. split; [exact Hrun|].
    split; [etransitivity; [exact Hpayer|vm_compute; reflexivity]|].
    split; [etransitivity; [apply Hpoints; vm_compute; discriminate
                           |vm_compute; reflexivity]|].
    split; [etransitivity; [exact Htemp|vm_compute; reflexivity]|].
    split; [etransitivity; [exact Hsystem|vm_compute; reflexivity]|].
    split; [etransitivity; [exact Hledger|vm_compute; reflexivity]|].
    rewrite Hrecord. reflexivity.
Defined.

(** The token supply of the sample deployment stays at 50 tokens through
    settlement and through the cancel request. *)
Lemma token_supply_conserved_sample :
  totalTokens sample_settled = totalTokens sample_opened /\
  totalTokens sample_cancelling = totalTokens sample_settled /\
  totalTokens sample_opened = 50 * unit18.
Proof.
  split; [|split; [|vm_compute; reflexivity]].
  - apply (token_supply_conserved (crypto := sample_crypto)
             (currencyRateContract := sample_rate) (dms := sample_dms)
             (ClosePayment sample_paymentId sample_secret true)).
    vm_compute; reflexivity.
  - apply (token_supply_conserved (crypto := sample_crypto)
             (currencyRateContract := sample_rate) (dms := sample_dms)
             (OpenCancel cancel_block sample_paymentId cancel_lock owner_signature)).
    vm_compute; reflexivity.
Defined.

(** Opening the sample payment consumes alice's nonce and no other. *)
Lemma nonces_by_transition_sample :
  (nonceOf alice sample_opened = nonceOf alice sample_world + 1 /\
   (forall a, a <> alice -> nonceOf a sample_opened = nonceOf a sample_world)) /\
  (forall a, nonceOf a sample_world <= nonceOf a sample_opened).
Proof.
  apply (nonces_by_transition (crypto := sample_crypto)
           (currencyRateContract := sample_rate) (dms := sample_dms)
           (OpenPayment sample_block sample_request) sample_world sample_opened).
  vm_compute; reflexivity.
Defined.


(** Settlement keeps the terms of the sample payment. *)
Lemma payment_terms_are_fixed_sample :
  same_terms (loyaltyPaymentOf sample_paymentId sample_opened)
             (loyaltyPaymentOf sample_paymentId sample_settled).
Proof.
  apply (payment_terms_are_fixed (crypto := sample_crypto)
           (currencyRateContract := sample_rate) (dms := sample_dms)
           (ClosePayment sample_paymentId sample_secret true)).
  - vm_compute; reflexivity.
  - vm_compute; discriminate.
Defined.

(** Refunding the sample payment emits one event, with alice's restored
    balance. *)
Lemma one_event_per_call_sample :
  emitted sample_refunded
    = (emitted sample_opened
         ++ [mkLoyaltyPaymentEvent (loyaltyPaymentOf sample_paymentId sample_refunded)
                                   (1000 * unit18)])%list.
Proof.
  etransitivity.
  - apply (one_event_per_call (crypto := sample_crypto)
             (currencyRateContract := sample_rate) (dms := sample_dms)
             (ClosePayment sample_paymentId sample_secret false)
             sample_opened sample_refunded).
    vm_compute; reflexivity.
  - vm_compute; reflexivity.
Defined.

(** The status of the sample payment through settlement. *)
Lemma status_by_transition_sample :
  status (loyaltyPaymentOf sample_paymentId sample_opened) = OPENED_PAYMENT /\
  status (loyaltyPaymentOf sample_paymentId sample_settled) = CLOSED_PAYMENT.
Proof.
  apply (status_by_transition (crypto := sample_crypto)
           (currencyRateContract := sample_rate) (dms := sample_dms)
           (ClosePayment sample_paymentId sample_secret true)
           sample_opened sample_settled).
  vm_compute; reflexivity.
Defined.

(** After the sample payment is settled and cancelled, alice's new request
    under the same paymentId is refused. *)
Lemma paymentId_single_use_sample :
  run_calls (crypto := sample_crypto) (currencyRateContract := sample_rate)
    (dms := sample_dms) sample_calls sample_opened = sample_cancelled /\
  isAvailablePaymentId sample_paymentId sample_cancelled = false /\
  openNewLoyaltyPayment (crypto := sample_crypto) (currencyRateContract := sample_rate)
    (dms := sample_dms) sample_block repeat_request sample_cancelled
    = Revert (Require_failed "1530") sample_cancelled.
Proof.
  assert (Hrun : run_calls (crypto := sample_crypto) (currencyRateContract := sample_rate)
                   (dms := sample_dms) sample_calls sample_opened = sample_cancelled)
    by (vm_compute; reflexivity).
  split; [exact Hrun|].
  rewrite <- Hrun.
  apply (paymentId_single_use (crypto := sample_crypto)
           (currencyRateContract := sample_rate) (dms := sample_dms)
           sample_block sample_request sample_world sample_opened sample_calls
           sample_block repeat_request).
  - vm_compute; reflexivity.
  - reflexivity.
Defined.

(** The sample payment opened, settled, and cancelled with confirmation. *)
Lemma cancel_round_trip_sample :
  pointBalanceOf alice sample_cancelled = pointBalanceOf alice sample_world /\
  status (loyaltyPaymentOf sample_paymentId sample_cancelled) = CLOSED_CANCEL /\
  usedLedger (shopContract sample_cancelled)
    = [mkUsageEntry shop7 (100 * unit18) "P-1" sample_paymentId false;
       mkUsageEntry shop7 (100 * unit18) "P-1" sample_paymentId true].
Proof.
  destruct (cancel_round_trip (crypto := sample_crypto)
              (currencyRateContract := sample_rate) (dms := sample_dms)
              sample_block sample_request sample_secret cancel_block cancel_lock
              owner_signature cancel_secret
              sample_world sample_opened sample_settled sample_cancelling sample_cancelled)
    as (Hpayer & Hstatus & Hledger).
  - vm_compute; reflexivity.
  - vm_compute; reflexivity.
  - vm_compute; reflexivity.
  - vm_compute; reflexivity.
  - vm_compute; discriminate.
  - split; [exact Hpayer|]. split; [exact Hstatus|].
    etransitivity; [exact Hledger|vm_compute; reflexivity].
Defined.

(** The sample payment opened and refunded, then cancelled with
    confirmation: alice ends with 1101 points. *)
Lemma cancel_after_refund_credits_twice_sample :
  pointBalanceOf alice funded_world = 1000 * unit18 /\
  pointBalanceOf alice funded_refunded = pointBalanceOf alice funded_world /\
  pointBalanceOf alice funded_cancelled = 1101 * unit18 /\
  status (loyaltyPaymentOf sample_paymentId funded_cancelled) = CLOSED_CANCEL.
Proof.
  split; [vm_compute; reflexivity|].
  destruct (cancel_after_refund_credits_twice (crypto := sample_crypto)
              (currencyRateContract := sample_rate) (dms := sample_dms)
              sample_block sample_request sample_secret cancel_block cancel_lock
              owner_signature cancel_secret
              funded_world funded_opened funded_refunded funded_cancelling funded_cancelled)
    as (Hback & Hdouble & Hstatus).
  - vm_compute; reflexivity.
  - vm_compute; reflexivity.
  - vm_compute; reflexivity.
  - vm_compute; reflexivity.
  - vm_compute; discriminate.
  - split; [exact Hback|]. split; [|exact Hstatus].
    etransitivity; [exact Hdouble|vm_compute; reflexivity].
Defined.

(** * The sample wiring *)

(** On the sample wiring the ledger stays at 50 whatever the owner sets
    later, and the first shop set, 70, stays. *)
Lemma contracts_are_set_once_sample :
  Wiring.ledgerContract
    (Wiring.run sample_getSystemAccount owner_calls
       (Wiring.commit (Wiring.setLedger sample_getSystemAccount 1 61 sample_wired)
                      sample_wired)) = 50 /\
  Wiring.shopContract
    (Wiring.run sample_getSystemAccount owner_calls
       (Wiring.commit (Wiring.setShop 1 70 sample_wired) sample_wired)) = 70 /\
  Wiring.setLedger sample_getSystemAccount 1 61 sample_wired = Wiring.Done sample_wired.
Proof.
  destruct (contracts_are_set_once sample_getSystemAccount sample_wired 61 70 owner_calls)
    as ((_ & Hledger & _) & (_ & Hshop) & Hagain & _).
  - vm_compute; reflexivity.
  - split; [exact Hledger|]. split; [exact Hshop|].
    apply Hagain. vm_compute; reflexivity.
Defined.



(** * The sample relay, request by request *)

(** attach on the sample node: the ledger handle sits at the configured
    address on the side chain, the URL falls back to hardhat's. *)
Lemma attach_makes_the_manager_ready_sample :
  Relay._sideLedgerContract (Relay.manager attached_node)
    = Some (Relay.mkContract "Ledger" "0xS-ledger" "side") /\
  Relay._mainChainBridgeContract (Relay.manager attached_node)
    = Some (Relay.mkContract "Bridge" "0xM-chainBridge" "main") /\
  Relay._sideChainURL (Relay.manager attached_node) = Some "http://side:8545" /\
  Forall (fun g => snd g attached_node = (Relay.Normal tt, attached_node)) Relay.getters.
Proof.
  destruct (attach_makes_the_manager_ready (backend := sample_backend)
              sample_node attached_node)
    as (_ & _ & Hurl & _ & Hgetters).
  - vm_compute; reflexivity.
  - split; [vm_compute; reflexivity|]. split; [vm_compute; reflexivity|].
    split; [etransitivity; [exact Hurl|vm_compute; reflexivity]|exact Hgetters].
Defined.

(** On the sample node before attach, the sideLedgerContract getter ends
    the process and the sideCurrencyRateContract getter reports the phone
    linker. *)
Lemma getters_exit_before_attach_sample :
  Relay.touch Relay.sideLedgerContract sample_node
    = (Relay.Exited 1,
       Relay.add_logged "error" "sideLedgerContract is not ready yet." sample_node) /\
  Relay.touch Relay.sideCurrencyRateContract sample_node
    = (Relay.Exited 1,
       Relay.add_logged "error" "sidePhoneLinkerContract is not ready yet." sample_node).
Proof.
  pose proof (getters_exit_before_attach sample_config sample_node eq_refl) as H.
  split.
  - exact (Forall_lookup_1 _ _ 9%nat _ H eq_refl).
  - exact (Forall_lookup_1 _ _ 11%nat _ H eq_refl).
Defined.

(** The request that failed validation, on the send route. *)
Lemma invalid_request_is_rejected_sample :
  exists line,
    Relay.handler (backend := sample_backend) Relay.POST_provision_send_account
      send_malformed attached_node
    = (Relay.Returned,
       Relay.add_response
         (Relay.mkResponse 200 (Relay.ErrorMessage "2001" (Some ["signature: Invalid value"])))
         (Relay.add_logged "http" line attached_node)).
Proof.
  apply (invalid_request_is_rejected (backend := sample_backend)
           Relay.POST_provision_send_account send_malformed attached_node).
  vm_compute; discriminate.
Defined.

(** The phone route, whose chain call is rejected by the sample backend:
    the handler still returns with one response. *)
Lemma handler_completion_sample :
  Relay.manager (node_after Relay.POST_provision_send_phoneHash send_signed)
    = Relay.manager attached_node /\
  exists resp,
    Relay.responses (node_after Relay.POST_provision_send_phoneHash send_signed)
      = (Relay.responses attached_node ++ [resp])%list /\
    Relay.http_status resp = 200%Z.
Proof.
  apply (handler_completion (backend := sample_backend)
           Relay.POST_provision_send_phoneHash send_signed attached_node Relay.Returned).
  vm_compute; reflexivity.
Defined.

(** A valid registration ends the process before attach and not after. *)
Lemma handlers_need_an_attached_manager_sample :
  (exists n',
     Relay.handler (backend := sample_backend) Relay.POST_provision_register
       register_rich sample_node = (Relay.Exited 1, n') /\
     Relay.responses n' = Relay.responses sample_node /\
     Relay.signer_using n' = Relay.signer_using sample_node) /\
  (forall code,
     fst (Relay.handler (backend := sample_backend) Relay.POST_provision_register
            register_rich attached_node) <> Relay.Exited code).
Proof.
  split.
  - apply (proj1 (handlers_need_an_attached_manager (backend := sample_backend)
                    Relay.POST_provision_register register_rich sample_node)
             sample_config); reflexivity.
  - apply (proj2 (handlers_need_an_attached_manager (backend := sample_backend)
                    Relay.POST_provision_register register_rich attached_node)
             ltac:(vm_compute; repeat constructor) _
             (node_after Relay.POST_provision_register register_rich)).
    vm_compute; reflexivity.
Defined.

(** The forged send request: signer 0 is taken and handed back. *)
Lemma signer_is_released_sample :
  exists p item flags,
    Relay._sideChainProvider (Relay.manager attached_node) = Some p /\
    Relay.getSigner (Backend := sample_backend) p (Relay.signer_using attached_node)
      = inr (item, flags) /\
    Relay.signer_using (node_after Relay.POST_provision_send_account send_forged)
      = <[item := false]> flags.
Proof.
  apply (proj2 (signer_is_released (backend := sample_backend)
                  Relay.POST_provision_send_account send_forged attached_node
                  Relay.Returned
                  (node_after Relay.POST_provision_send_account send_forged)
                  ltac:(vm_compute; reflexivity))); reflexivity.
Defined.

(** The signed send request is relayed, the forged one is not. *)
Lemma relay_requires_verified_signature_sample :
  Relay.relayed (node_after Relay.POST_provision_send_account send_signed)
    = [Relay.mkRelayed "provideToAddress"
         (Relay.mkContract "LoyaltyProvider" "0xS-provider" "side") 0%nat
         "0xrich" "0xbob" 25 (sample_signature_of "0xrich")] /\
  Relay.relayed (node_after Relay.POST_provision_send_account send_forged) = [].
Proof.
  split; [|vm_compute; reflexivity].
  destruct (relay_requires_verified_signature (backend := sample_backend)
              Relay.POST_provision_send_account send_signed attached_node Relay.Returned
              (node_after Relay.POST_provision_send_account send_signed))
    as [Hnone | Hone].
  - vm_compute; reflexivity.
  - vm_compute in Hnone. discriminate Hnone.
  - vm_compute; reflexivity.
Defined.

(** "0xrich" is stored as a provider, "0xpoor" is not. *)
Lemma register_stores_verified_funded_provider_sample :
  Relay.stored (node_after Relay.POST_provision_register register_rich) = ["0xrich"] /\
  Relay.stored (node_after Relay.POST_provision_register register_poor) = [].
Proof.
  split; [|vm_compute; reflexivity].
  destruct (register_stores_verified_funded_provider (backend := sample_backend)
              Relay.POST_provision_register register_rich attached_node Relay.Returned
              (node_after Relay.POST_provision_register register_rich))
    as [Hnone | Hone].
  - vm_compute; reflexivity.
  - vm_compute in Hnone. discriminate Hnone.
  - vm_compute; reflexivity.
Defined.

(** The forged send request is answered with "1501" and counted as
    neither success nor failure. *)
Lemma metrics_accounting_sample :
  Relay.metrics (node_after Relay.POST_provision_send_account send_forged) = [] /\
  last (Relay.responses (node_after Relay.POST_provision_send_account send_forged))
    = Some (Relay.mkResponse 200 (Relay.ErrorMessage "1501" None)).
Proof.
  destruct (metrics_accounting (backend := sample_backend)
              Relay.POST_provision_send_account send_forged attached_node Relay.Returned
              (node_after Relay.POST_provision_send_account send_forged))
    as [[Hm _] | [[Hm _] | [Hm _]]].
  - vm_compute; reflexivity.
  - split; [exact Hm|vm_compute; reflexivity].
  - vm_compute in Hm. discriminate Hm.
  - vm_compute in Hm. discriminate Hm.
Defined.
